(** * Kura: backup, restore, compare and delete of APIM subscription keys

    A shallow embedding of the Go sources of the [kura] command line tool
    ([cmd/*.go] and [internal/azure], [internal/backup]) together with the
    properties the specification states about them.

    Conventions of the embedding.
    - A Go [string] is a sequence of bytes: [String.string] (a list of 8-bit
      [ascii]).
    - A Go [int] that holds an index is a [Z]; [-1] is the "not found" value
      of [strings.Index] and [strings.LastIndex].  Counters that only count
      the elements of a slice are [nat] (they are bounded by the length of
      the slice and cannot wrap).
    - A slice expression [s[lo:]] panics at run time when [lo] is out of
      range: [sliceFrom] returns [None] there.
    - A Go slice is a [list]; the [nil] slice is [[]].
    - Remote calls, the file system and the standard output are external:
      the commands are functions of an environment that answers every
      external call, and they return the trace of the calls they made. *)

From Stdlib Require Import String Ascii List ZArith Lia Bool.
Import ListNotations.

Local Open Scope string_scope.
Local Open Scope Z_scope.

(** ** The part of Go's [strings] package the tool uses *)

Definition len (s : string) : Z := Z.of_nat (String.length s).

Fixpoint drop (n : nat) (s : string) : string :=
  match n, s with
  | O, _ => s
  | S _, EmptyString => EmptyString
  | S n', String _ s' => drop n' s'
  end.

(** [s[lo:]]; [None] is the run-time panic "slice bounds out of range". *)
Definition sliceFrom (s : string) (lo : Z) : option string :=
  if (0 <=? lo) && (lo <=? len s) then Some (drop (Z.to_nat lo) s) else None.

(** Position of the first occurrence of [substr] in [s]. *)
Fixpoint indexNat (s substr : string) : option nat :=
  if prefix substr s then Some O
  else match s with
       | EmptyString => None
       | String _ s' => option_map S (indexNat s' substr)
       end.

(** Position of the last occurrence of [substr] in [s]. *)
Fixpoint lastIndexNat (s substr : string) : option nat :=
  match s with
  | EmptyString => if prefix substr EmptyString then Some O else None
  | String _ s' =>
      match lastIndexNat s' substr with
      | Some i => Some (S i)
      | None => if prefix substr s then Some O else None
      end
  end.

Definition orMinusOne (o : option nat) : Z :=
  match o with
  | Some i => Z.of_nat i
  | None => -1
  end.

(** [strings.Index] and [strings.LastIndex]: [-1] when [substr] is absent. *)
Definition Index (s substr : string) : Z := orMinusOne (indexNat s substr).
Definition LastIndex (s substr : string) : Z := orMinusOne (lastIndexNat s substr).

(** [strings.Contains] is [Index(s, substr) >= 0]. *)
Definition Contains (s substr : string) : bool := 0 <=? Index s substr.

(** [strings.HasSuffix]. *)
Definition HasSuffix (s suffix : string) : bool :=
  (len suffix <=? len s) &&
  String.eqb (drop (String.length s - String.length suffix) s) suffix.

Fixpoint inCutset (c : ascii) (cutset : string) : bool :=
  match cutset with
  | EmptyString => false
  | String d cutset' => Ascii.eqb c d || inCutset c cutset'
  end.

(** [strings.TrimRight], for a cutset of one-byte characters: every trailing
    byte that belongs to [cutset] is removed. *)
Fixpoint TrimRight (s cutset : string) : string :=
  match s with
  | EmptyString => EmptyString
  | String c s' =>
      match TrimRight s' cutset with
      | EmptyString => if inCutset c cutset then EmptyString else String c EmptyString
      | r => String c r
      end
  end.

(** [strings.TrimSuffix]: at most one copy of [suffix] is removed. *)
Definition TrimSuffix (s suffix : string) : string :=
  if HasSuffix s suffix
  then substring 0 (String.length s - String.length suffix) s
  else s.

(** ** cmd/restore.go: the scope extractor and rebuilder *)

(** The generic variant: everything after [/service/<apim>/]. *)
Definition extractScopeSuffix (scope : string) : option string :=
  let marker := "/service/" in
  let idx := LastIndex scope marker in
  if idx =? -1 then Some ""
  else
    match sliceFrom scope (idx + len marker) with
    | None => None
    | Some rest =>
        let slashIdx := Index rest "/" in
        if slashIdx =? -1 then Some ""
        else
          match sliceFrom rest (slashIdx + 1) with
          | None => None
          | Some suffix => Some (TrimRight suffix "/")
          end
    end.

Definition buildScopeFromSuffix (azureSubscriptionID resourceGroup apimName suffix : string) : string :=
  let base :=
    "/subscriptions/" ++ azureSubscriptionID ++ "/resourceGroups/" ++ resourceGroup
      ++ "/providers/Microsoft.ApiManagement/service/" ++ apimName in
  if String.eqb suffix "" then base else base ++ "/" ++ suffix.

(** The product variant: everything after the last [/products/]. *)
Definition extractProductID (scope : string) : option string :=
  let marker := "/products/" in
  let idx := LastIndex scope marker in
  if idx =? -1 then Some ""
  else sliceFrom scope (idx + len marker).

Definition buildScope (azureSubscriptionID resourceGroup apimName productID : string) : string :=
  "/subscriptions/" ++ azureSubscriptionID ++ "/resourceGroups/" ++ resourceGroup
    ++ "/providers/Microsoft.ApiManagement/service/" ++ apimName
    ++ "/products/" ++ productID.

(** ** internal/azure: the persisted record *)

(** [SubscriptionInfoProperties]: every optional field is a plain string,
    empty when the remote contract had none. *)
Record SubscriptionInfoProperties := {
  OwnerID : string;
  Scope : string;
  DisplayName : string;
  State : string;
  CreatedDate : string;
  StartDate : string;
  EndDate : string;
  ExpirationDate : string;
  NotificationDate : string;
  PrimaryKey : string;
  SecondaryKey : string;
  StateComment : string;
  AllowTracing : bool
}.

Record SubscriptionInfo := {
  ID : string;
  Name : string;
  Type_ : string;
  Properties : SubscriptionInfoProperties
}.

(** ** The SDK's wire types ([armapimanagement]) *)

(** A [time.Time] is observed only through [Format]. *)
Record Time := { Format : string -> string }.

(** Every field of the wire contract is a pointer: [None] is [nil]. *)
Record SubscriptionContractProperties := {
  wOwnerID : option string;
  wScope : option string;
  wDisplayName : option string;
  wState : option string;
  wStateComment : option string;
  wAllowTracing : option bool;
  wCreatedDate : option Time;
  wStartDate : option Time;
  wEndDate : option Time;
  wExpirationDate : option Time;
  wNotificationDate : option Time
}.

Record SubscriptionContract := {
  wID : option string;
  wName : option string;
  wType : option string;
  wProperties : option SubscriptionContractProperties
}.

Record SubscriptionKeysContract := {
  kPrimaryKey : option string;
  kSecondaryKey : option string
}.

Record SubscriptionCreateParameterProperties := {
  pScope : option string;
  pDisplayName : option string;
  pPrimaryKey : option string;
  pSecondaryKey : option string;
  pOwnerID : option string;
  pAllowTracing : option bool;
  pState : option string
}.

(** ** Errors, formatted output and the trace of external calls *)

(** [fmt.Errorf] and [fmt.Printf] keep their format string and arguments;
    [ExternalError] is an error value produced by a collaborator. *)
Inductive error :=
| ExternalError (msg : string)
| Errorf (format : string) (args : list arg)
with arg :=
| ArgString (s : string)
| ArgInt (n : nat)
| ArgBool (b : bool)
| ArgError (e : error).

Inductive Event :=
| Printf (format : string) (args : list arg)
| Println (line : string)
| EvNewClient (subscriptionID resourceGroup apimName : string)
| EvNextPage
| EvListSecrets (resourceGroup apimName sid : string)
| EvCreateOrUpdate (resourceGroup apimName sid : string) (params : SubscriptionCreateParameterProperties)
| EvDelete (resourceGroup apimName sid ifMatch : string)
| EvMkdirAll (path : string)
| EvWriteFile (path data : string)
| EvReadFile (path : string).

Definition Trace := list Event.

(** One page of a list pager: the page's records, or the error of
    [NextPage]. *)
Definition PageResponse : Type := list (option SubscriptionContract) * option error.

(** The collaborators.  An answer may depend on everything that happened
    before the call (the trace); [Join], [Dir], [MarshalIndent] and
    [Unmarshal] are the pure functions of Go's standard library. *)
Record Env := {
  azNewClient : Trace -> string -> string -> string -> string * option error;
  sdkListPager : Trace -> string -> string -> list PageResponse;
  sdkProductListPager : Trace -> string -> string -> string -> list PageResponse;
  sdkListSecrets : Trace -> string -> string -> string -> SubscriptionKeysContract * option error;
  sdkCreateOrUpdate :
    Trace -> string -> string -> string -> SubscriptionCreateParameterProperties ->
    SubscriptionContract * option error;
  sdkDelete : Trace -> string -> string -> string -> string -> option error;
  osMkdirAll : Trace -> string -> option error;
  osWriteFile : Trace -> string -> string -> option error;
  osReadFile : Trace -> string -> string * option error;
  Join : list string -> string;
  Dir : string -> string;
  MarshalIndent : list SubscriptionInfo -> string -> string -> string * option error;
  Unmarshal : string -> list SubscriptionInfo * option error
}.

(** A computation extends the trace and returns a value, or panics
    ([None]: a nil dereference or a slice out of range). *)
Definition M (A : Type) : Type := Trace -> option A * Trace.

Definition ret {A} (a : A) : M A := fun t => (Some a, t).

Definition bind {A B} (m : M A) (f : A -> M B) : M B :=
  fun t =>
    match m t with
    | (Some a, t') => f a t'
    | (None, t') => (None, t')
    end.

Definition panic {A} : M A := fun t => (None, t).

(** Record an event. *)
Definition emit (e : Event) : M unit := fun t => (Some tt, (t ++ [e])%list).

(** Record a call and return the collaborator's answer to it, computed
    from the trace before the call. *)
Definition call {A} (e : Event) (answer : Trace -> A) : M A :=
  fun t => (Some (answer t), (t ++ [e])%list).

(** Read what the environment holds at this point, without a call. *)
Definition ask {A} (answer : Trace -> A) : M A := fun t => (Some (answer t), t).

Definition when (b : bool) (m : M unit) : M unit := if b then m else ret tt.

(** A value whose absence is a run-time panic: a pointer that is
    dereferenced, the result of a slice expression. *)
Definition orPanic {A} (p : option A) : M A :=
  match p with
  | Some a => ret a
  | None => panic
  end.

Declare Scope go_scope.
Delimit Scope go_scope with go.
Notation "x <- m ;; k" := (bind m (fun x => k))
  (at level 61, m at next level, right associativity) : go_scope.
Notation "m ;;; k" := (bind m (fun _ => k))
  (at level 61, right associativity) : go_scope.
Local Open Scope go_scope.

(** ** internal/azure/client.go *)

Record Client := {
  subscriptionID : string;
  resourceGroup : string;
  apimName : string
}.

Definition deref (s : option string) : string :=
  match s with
  | None => ""
  | Some v => v
  end.

Definition layout : string := "2006-01-02T15:04:05Z".

Definition formatDate (d : option Time) : string :=
  match d with
  | Some t => Format t layout
  | None => ""
  end.

(** The body of the loop over one page's records.  [inr] is the early
    [return nil, err] of the surrounding function. *)
Fixpoint listPage (env : Env) (c : Client) (values : list (option SubscriptionContract))
    (results : list SubscriptionInfo) : M (list SubscriptionInfo + error) :=
  match values with
  | [] => ret (inl results)
  | sub :: values' =>
      match sub with
      | None => listPage env c values' results
      | Some sub =>
          match wProperties sub with
          | None => listPage env c values' results
          | Some props =>
              state <- orPanic (wState props) ;;
              let info := {|
                ID := deref (wID sub);
                Name := deref (wName sub);
                Type_ := deref (wType sub);
                Properties := {|
                  OwnerID := deref (wOwnerID props);
                  Scope := deref (wScope props);
                  DisplayName := deref (wDisplayName props);
                  State := state;
                  CreatedDate := formatDate (wCreatedDate props);
                  StartDate := formatDate (wStartDate props);
                  EndDate := formatDate (wEndDate props);
                  ExpirationDate := formatDate (wExpirationDate props);
                  NotificationDate := formatDate (wNotificationDate props);
                  PrimaryKey := "";
                  SecondaryKey := "";
                  StateComment := deref (wStateComment props);
                  AllowTracing := match wAllowTracing props with Some b => b | None => false end
                |}
              |} in
              r <- call (EvListSecrets (resourceGroup c) (apimName c) (deref (wName sub)))
                     (fun t => sdkListSecrets env t (resourceGroup c) (apimName c) (deref (wName sub))) ;;
              match r with
              | (_, Some err) =>
                  ret (inr (Errorf "failed to get secrets for subscription %s: %w"
                              [ArgString (deref (wName sub)); ArgError err]))
              | (secrets, None) =>
                  let p := Properties info in
                  let info' := {|
                    ID := ID info;
                    Name := Name info;
                    Type_ := Type_ info;
                    Properties := {|
                      OwnerID := OwnerID p;
                      Scope := Scope p;
                      DisplayName := DisplayName p;
                      State := State p;
                      CreatedDate := CreatedDate p;
                      StartDate := StartDate p;
                      EndDate := EndDate p;
                      ExpirationDate := ExpirationDate p;
                      NotificationDate := NotificationDate p;
                      PrimaryKey := deref (kPrimaryKey secrets);
                      SecondaryKey := deref (kSecondaryKey secrets);
                      StateComment := StateComment p;
                      AllowTracing := AllowTracing p
                    |}
                  |} in
                  listPage env c values' (results ++ [info'])%list
              end
          end
      end
  end.

(** The [for] loop over the pager; [pages] is what the pager still has to
    serve ([More()] is [pages <> []]). *)
Fixpoint listPages (env : Env) (c : Client) (pages : list PageResponse)
    (results : list SubscriptionInfo) : M (list SubscriptionInfo * option error) :=
  match pages with
  | [] => ret (results, None)
  | (values, perr) :: pages' =>
      emit EvNextPage ;;;
      match perr with
      | Some err =>
          ret ([], Some (Errorf "failed to list subscriptions: %w" [ArgError err]))
      | None =>
          r <- listPage env c values results ;;
          match r with
          | inr err => ret ([], Some err)
          | inl results' => listPages env c pages' results'
          end
      end
  end.

Definition ListSubscriptions (env : Env) (c : Client) (productID : string)
    : M (list SubscriptionInfo * option error) :=
  pages <- ask (fun t =>
                  if negb (String.eqb productID "")
                  then sdkProductListPager env t (resourceGroup c) (apimName c) productID
                  else sdkListPager env t (resourceGroup c) (apimName c)) ;;
  listPages env c pages [].

Record CreateSubscriptionOptions := {
  oPrimaryKey : string;
  oSecondaryKey : string;
  oState : string;
  oOwnerID : string;
  oAllowTracing : option bool
}.

Definition nonEmpty (s : string) : option string :=
  if negb (String.eqb s "") then Some s else None.

Definition CreateSubscription (env : Env) (c : Client) (sid scope displayName : string)
    (opts : option CreateSubscriptionOptions) : M (option SubscriptionInfo * option error) :=
  let opts :=
    match opts with
    | Some o => o
    | None => {| oPrimaryKey := ""; oSecondaryKey := ""; oState := ""; oOwnerID := "";
                 oAllowTracing := None |}
    end in
  let params := {|
    pScope := Some scope;
    pDisplayName := Some displayName;
    pPrimaryKey := nonEmpty (oPrimaryKey opts);
    pSecondaryKey := nonEmpty (oSecondaryKey opts);
    pOwnerID := nonEmpty (oOwnerID opts);
    pAllowTracing := oAllowTracing opts;
    pState := nonEmpty (oState opts)
  |} in
  r <- call (EvCreateOrUpdate (resourceGroup c) (apimName c) sid params)
         (fun t => sdkCreateOrUpdate env t (resourceGroup c) (apimName c) sid params) ;;
  match r with
  | (_, Some err) =>
      ret (None, Some (Errorf "failed to create subscription %s: %w" [ArgString sid; ArgError err]))
  | (sub, None) =>
      props <- orPanic (wProperties sub) ;;
      state <- orPanic (wState props) ;;
      k <- call (EvListSecrets (resourceGroup c) (apimName c) sid)
             (fun t => sdkListSecrets env t (resourceGroup c) (apimName c) sid) ;;
      match k with
      | (_, Some err) =>
          ret (None, Some (Errorf "failed to get secrets for subscription %s: %w"
                             [ArgString sid; ArgError err]))
      | (secrets, None) =>
          ret (Some {|
                 ID := deref (wID sub);
                 Name := deref (wName sub);
                 Type_ := deref (wType sub);
                 Properties := {|
                   OwnerID := deref (wOwnerID props);
                   Scope := deref (wScope props);
                   DisplayName := deref (wDisplayName props);
                   State := state;
                   CreatedDate := formatDate (wCreatedDate props);
                   StartDate := formatDate (wStartDate props);
                   EndDate := "";
                   ExpirationDate := "";
                   NotificationDate := "";
                   PrimaryKey := deref (kPrimaryKey secrets);
                   SecondaryKey := deref (kSecondaryKey secrets);
                   StateComment := "";
                   AllowTracing := match wAllowTracing props with Some b => b | None => false end
                 |}
               |}, None)
      end
  end.

Definition DeleteSubscription (env : Env) (c : Client) (sid : string) : M (option error) :=
  r <- call (EvDelete (resourceGroup c) (apimName c) sid "*")
         (fun t => sdkDelete env t (resourceGroup c) (apimName c) sid "*") ;;
  match r with
  | Some err => ret (Some (Errorf "failed to delete subscription %s: %w" [ArgString sid; ArgError err]))
  | None => ret None
  end.

(** [NewClient]: resolving the subscription id through the Azure CLI,
    the credential and the client factory are one collaborator, which
    answers with the resolved subscription id or with the error. *)
Definition NewClient (env : Env) (subscriptionID resourceGroup apimName : string)
    : M (option Client * option error) :=
  r <- call (EvNewClient subscriptionID resourceGroup apimName)
         (fun t => azNewClient env t subscriptionID resourceGroup apimName) ;;
  match r with
  | (_, Some err) => ret (None, Some err)
  | (id, None) =>
      ret (Some {| subscriptionID := id; resourceGroup := resourceGroup; apimName := apimName |},
           None)
  end.

Definition SubscriptionID (c : Client) : string := subscriptionID c.

(** ** internal/backup *)

Definition BackupDir (env : Env) (resourceGroup serviceName productID : string) : string :=
  let dir := Join env ["backup"; resourceGroup; serviceName] in
  if negb (String.eqb productID "") then Join env [dir; productID] else dir.

Definition EnsureBackupDir (env : Env) (resourceGroup serviceName productID : string)
    : M (string * option error) :=
  let dir := BackupDir env resourceGroup serviceName productID in
  r <- call (EvMkdirAll dir) (fun t => osMkdirAll env t dir) ;;
  match r with
  | Some err =>
      ret ("", Some (Errorf "failed to create backup directory %s: %w" [ArgString dir; ArgError err]))
  | None => ret (dir, None)
  end.

(** ** cmd/delete.go *)

Record DeleteFlags := {
  deleteResourceGroup : string;
  deleteAPIMName : string;
  deleteSubscription : string;
  deleteProductID : string;
  deleteDryRun : bool;
  deleteAll : bool
}.

Record DeleteTally := { deleted : nat; skipped : nat; failed : nat }.

(** The body of the [for _, sub := range subs] loop of [runDelete]: every
    branch ends in [continue] or falls off the end with the new tally. *)
Definition deleteOne (env : Env) (f : DeleteFlags) (client : Client)
    (sub : SubscriptionInfo) (n : DeleteTally) : M DeleteTally :=
  let sid := Name sub in
  let displayName := DisplayName (Properties sub) in
  if negb (deleteAll f) && String.eqb sid "master" then
    emit (Printf "  [SKIP] %s (built-in)\n" [ArgString displayName]) ;;;
    ret {| deleted := deleted n; skipped := S (skipped n); failed := failed n |}
  else if deleteDryRun f then
    emit (Printf "  [DRY-RUN] Would delete: %s (id=%s)\n" [ArgString displayName; ArgString sid]) ;;;
    ret {| deleted := S (deleted n); skipped := skipped n; failed := failed n |}
  else
    emit (Printf "  Deleting: %s (id=%s)...\n" [ArgString displayName; ArgString sid]) ;;;
    err <- DeleteSubscription env client sid ;;
    match err with
    | Some err =>
        emit (Printf "  [FAIL] %s: %v\n" [ArgString displayName; ArgError err]) ;;;
        ret {| deleted := deleted n; skipped := skipped n; failed := S (failed n) |}
    | None =>
        emit (Printf "  [OK]   %s\n" [ArgString displayName]) ;;;
        ret {| deleted := S (deleted n); skipped := skipped n; failed := failed n |}
    end.

Fixpoint deleteLoop (env : Env) (f : DeleteFlags) (client : Client)
    (subs : list SubscriptionInfo) (n : DeleteTally) : M DeleteTally :=
  match subs with
  | [] => ret n
  | sub :: subs' =>
      n' <- deleteOne env f client sub n ;;
      deleteLoop env f client subs' n'
  end.

Definition runDelete (env : Env) (f : DeleteFlags) : M (option error) :=
  emit (Printf "Deleting subscription keys from APIM instance: %s\n" [ArgString (deleteAPIMName f)]) ;;;
  emit (Printf "Resource Group: %s\n" [ArgString (deleteResourceGroup f)]) ;;;
  when (negb (String.eqb (deleteSubscription f) ""))
    (emit (Printf "Subscription ID: %s\n" [ArgString (deleteSubscription f)])) ;;;
  when (negb (String.eqb (deleteProductID f) ""))
    (emit (Printf "Product ID: %s\n" [ArgString (deleteProductID f)])) ;;;
  (if deleteAll f
   then emit (Println "Mode: Delete ALL subscriptions (including built-in)")
   else emit (Println "Mode: Delete all subscriptions except built-in (master)")) ;;;
  when (deleteDryRun f) (emit (Println "\nRunning in DRY-RUN mode. No changes will be applied.")) ;;;
  emit (Println "\nAuthenticating with Azure CLI...") ;;;
  r <- NewClient env (deleteSubscription f) (deleteResourceGroup f) (deleteAPIMName f) ;;
  match r with
  | (Some client, None) =>
      emit (Println "Successfully authenticated with Azure CLI") ;;;
      emit (Println "\nFetching subscriptions...") ;;;
      l <- ListSubscriptions env client (deleteProductID f) ;;
      match l with
      | (_, Some err) => ret (Some (Errorf "failed to list subscriptions: %w" [ArgError err]))
      | (subs, None) =>
          match subs with
          | [] => emit (Println "No subscriptions found. Nothing to delete.") ;;; ret None
          | _ =>
              emit (Printf "\nFound %d subscription(s)\n" [ArgInt (List.length subs)]) ;;;
              n <- deleteLoop env f client subs {| deleted := 0; skipped := 0; failed := 0 |} ;;
              emit (Printf "\nDelete complete: %d deleted, %d skipped, %d failed\n"
                      [ArgInt (deleted n); ArgInt (skipped n); ArgInt (failed n)]) ;;;
              if (0 <? failed n)%nat
              then ret (Some (Errorf "%d subscription(s) failed to delete" [ArgInt (failed n)]))
              else ret None
          end
      end
  | (_, Some err) => ret (Some (Errorf "authentication failed: %w" [ArgError err]))
  | (None, None) => panic
  end.

(** ** cmd/restore.go *)

Record RestoreFlags := {
  restoreResourceGroup : string;
  restoreAPIMName : string;
  restoreSubscription : string;
  restoreInput : string;
  restoreDryRun : bool
}.

Record RestoreTally := { restored : nat; rfailed : nat }.

Definition restoreOptions (sub : SubscriptionInfo) : CreateSubscriptionOptions := {|
  oPrimaryKey := PrimaryKey (Properties sub);
  oSecondaryKey := SecondaryKey (Properties sub);
  oState := State (Properties sub);
  oOwnerID := if negb (String.eqb (OwnerID (Properties sub)) "") then OwnerID (Properties sub) else "";
  oAllowTracing := Some (AllowTracing (Properties sub))
|}.

(** What both variants of [runRestore] do before and after their loop. *)
Definition restoreCommand (env : Env) (f : RestoreFlags)
    (loop : Client -> string -> list SubscriptionInfo -> RestoreTally -> M RestoreTally)
    : M (option error) :=
  emit (Printf "Restoring subscription keys to APIM instance: %s\n" [ArgString (restoreAPIMName f)]) ;;;
  emit (Printf "Resource Group: %s\n" [ArgString (restoreResourceGroup f)]) ;;;
  emit (Printf "Input file: %s\n" [ArgString (restoreInput f)]) ;;;
  when (negb (String.eqb (restoreSubscription f) ""))
    (emit (Printf "Subscription ID: %s\n" [ArgString (restoreSubscription f)])) ;;;
  when (restoreDryRun f) (emit (Println "\nRunning in DRY-RUN mode. No changes will be applied.")) ;;;
  d <- call (EvReadFile (restoreInput f)) (fun t => osReadFile env t (restoreInput f)) ;;
  match d with
  | (_, Some err) =>
      ret (Some (Errorf "failed to read input file %s: %w" [ArgString (restoreInput f); ArgError err]))
  | (data, None) =>
      match Unmarshal env data with
      | (_, Some err) => ret (Some (Errorf "failed to parse input file: %w" [ArgError err]))
      | ([], None) =>
          emit (Println "No subscriptions found in input file. Nothing to restore.") ;;; ret None
      | (subs, None) =>
          emit (Printf "\nFound %d subscription(s) to restore\n" [ArgInt (List.length subs)]) ;;;
          emit (Println "\nAuthenticating with Azure CLI...") ;;;
          r <- NewClient env (restoreSubscription f) (restoreResourceGroup f) (restoreAPIMName f) ;;
          match r with
          | (Some client, None) =>
              emit (Println "Successfully authenticated with Azure CLI") ;;;
              let azureSubID := SubscriptionID client in
              n <- loop client azureSubID subs {| restored := 0; rfailed := 0 |} ;;
              emit (Printf "\nRestore complete: %d succeeded, %d failed (out of %d total)\n"
                      [ArgInt (restored n); ArgInt (rfailed n); ArgInt (List.length subs)]) ;;;
              if (0 <? rfailed n)%nat
              then ret (Some (Errorf "%d subscription(s) failed to restore" [ArgInt (rfailed n)]))
              else ret None
          | (_, Some err) => ret (Some (Errorf "authentication failed: %w" [ArgError err]))
          | (None, None) => panic
          end
      end
  end.

(** The variant that rebuilds any scope suffix. *)
Module RestoreBySuffix.

(** The body of the loop over the records of the backup. *)
Definition restoreOne (env : Env) (f : RestoreFlags) (client : Client) (azureSubID : string)
    (sub : SubscriptionInfo) (n : RestoreTally) : M RestoreTally :=
  let sid := Name sub in
  let displayName := DisplayName (Properties sub) in
  scopeSuffix <- orPanic (extractScopeSuffix (Scope (Properties sub))) ;;
  let scope :=
    buildScopeFromSuffix azureSubID (restoreResourceGroup f) (restoreAPIMName f) scopeSuffix in
  let opts := restoreOptions sub in
  let scopeLabel := if String.eqb scopeSuffix "" then "(instance)" else scopeSuffix in
  if restoreDryRun f then
    emit (Printf "  [DRY-RUN] Would restore: %s (sid=%s, scope=%s)\n"
            [ArgString displayName; ArgString sid; ArgString scopeLabel]) ;;;
    ret {| restored := S (restored n); rfailed := rfailed n |}
  else
    emit (Printf "  Restoring: %s (sid=%s, scope=%s)...\n"
            [ArgString displayName; ArgString sid; ArgString scopeLabel]) ;;;
    r <- CreateSubscription env client sid scope displayName (Some opts) ;;
    match r with
    | (_, Some err) =>
        emit (Printf "  [FAIL] %s: %v\n" [ArgString displayName; ArgError err]) ;;;
        ret {| restored := restored n; rfailed := S (rfailed n) |}
    | (_, None) =>
        emit (Printf "  [OK]   %s\n" [ArgString displayName]) ;;;
        ret {| restored := S (restored n); rfailed := rfailed n |}
    end.

Fixpoint restoreLoop (env : Env) (f : RestoreFlags) (client : Client) (azureSubID : string)
    (subs : list SubscriptionInfo) (n : RestoreTally) : M RestoreTally :=
  match subs with
  | [] => ret n
  | sub :: subs' =>
      n' <- restoreOne env f client azureSubID sub n ;;
      restoreLoop env f client azureSubID subs' n'
  end.

Definition runRestore (env : Env) (f : RestoreFlags) : M (option error) :=
  restoreCommand env f (restoreLoop env f).

End RestoreBySuffix.

(** The variant that requires a product id. *)
Module RestoreByProduct.

(** The body of the loop over the records of the backup. *)
Definition restoreOne (env : Env) (f : RestoreFlags) (client : Client) (azureSubID : string)
    (sub : SubscriptionInfo) (n : RestoreTally) : M RestoreTally :=
  let sid := Name sub in
  let displayName := DisplayName (Properties sub) in
  productID <- orPanic (extractProductID (Scope (Properties sub))) ;;
  if String.eqb productID "" then
    emit (Printf "  [SKIP] %s (%s) — could not extract product ID from scope\n"
            [ArgString displayName; ArgString sid]) ;;;
    ret {| restored := restored n; rfailed := S (rfailed n) |}
  else
    let scope :=
      buildScope azureSubID (restoreResourceGroup f) (restoreAPIMName f) productID in
    let opts := restoreOptions sub in
    if restoreDryRun f then
      emit (Printf "  [DRY-RUN] Would restore: %s (sid=%s, product=%s)\n"
              [ArgString displayName; ArgString sid; ArgString productID]) ;;;
      ret {| restored := S (restored n); rfailed := rfailed n |}
    else
      emit (Printf "  Restoring: %s (sid=%s, product=%s)...\n"
              [ArgString displayName; ArgString sid; ArgString productID]) ;;;
      r <- CreateSubscription env client sid scope displayName (Some opts) ;;
      match r with
      | (_, Some err) =>
          emit (Printf "  [FAIL] %s: %v\n" [ArgString displayName; ArgError err]) ;;;
          ret {| restored := restored n; rfailed := S (rfailed n) |}
      | (_, None) =>
          emit (Printf "  [OK]   %s\n" [ArgString displayName]) ;;;
          ret {| restored := S (restored n); rfailed := rfailed n |}
      end.

Fixpoint restoreLoop (env : Env) (f : RestoreFlags) (client : Client) (azureSubID : string)
    (subs : list SubscriptionInfo) (n : RestoreTally) : M RestoreTally :=
  match subs with
  | [] => ret n
  | sub :: subs' =>
      n' <- restoreOne env f client azureSubID sub n ;;
      restoreLoop env f client azureSubID subs' n'
  end.

Definition runRestore (env : Env) (f : RestoreFlags) : M (option error) :=
  restoreCommand env f (restoreLoop env f).

End RestoreByProduct.

(** ** cmd/backup.go *)

Record BackupFlags := {
  backupResourceGroup : string;
  backupAPIMName : string;
  backupSubscription : string;
  backupProductID : string;
  backupOutput : string
}.

(** From the listing to the end, as both variants of [runBackup] have it;
    [mkdirOutput] is the creation of the parent directory of a custom
    output path. *)
Definition backupListAndWrite (env : Env) (f : BackupFlags) (client : Client) (filePath : string)
    (mkdirOutput : bool) : M (option error) :=
  emit (Println "\nFetching subscriptions...") ;;;
  l <- ListSubscriptions env client (backupProductID f) ;;
  let subs := fst l in
  emit (Printf "\nFound %d subscription(s)\n" [ArgInt (List.length subs)]) ;;;
  match MarshalIndent env subs "" "  " with
  | (_, Some err) => ret (Some (Errorf "failed to marshal subscriptions to JSON: %w" [ArgError err]))
  | (prettyJSON, None) =>
      e <- (if mkdirOutput && negb (String.eqb (backupOutput f) "") then
              let dir := Dir env filePath in
              if negb (String.eqb dir ".") && negb (String.eqb dir "")
              then call (EvMkdirAll dir) (fun t => osMkdirAll env t dir)
              else ret None
            else ret None) ;;
      match e with
      | Some err => ret (Some (Errorf "failed to create output directory: %w" [ArgError err]))
      | None =>
          w <- call (EvWriteFile filePath prettyJSON) (fun t => osWriteFile env t filePath prettyJSON) ;;
          match w with
          | Some err => ret (Some (Errorf "failed to write backup file: %w" [ArgError err]))
          | None =>
              emit (Printf "Backup saved to: %s\n" [ArgString filePath]) ;;;
              emit (Println "Backup completed successfully") ;;;
              ret None
          end
      end
  end.

Definition backupBanner (f : BackupFlags) : M unit :=
  emit (Printf "Backing up subscription keys from APIM instance: %s\n" [ArgString (backupAPIMName f)]) ;;;
  emit (Printf "Resource Group: %s\n" [ArgString (backupResourceGroup f)]) ;;;
  when (negb (String.eqb (backupSubscription f) ""))
    (emit (Printf "Subscription ID: %s\n" [ArgString (backupSubscription f)])) ;;;
  when (negb (String.eqb (backupProductID f) ""))
    (emit (Printf "Product ID: %s\n" [ArgString (backupProductID f)])).

(** The variant with the [--output] flag. *)
Module BackupWithOutput.

Definition runBackup (env : Env) (f : BackupFlags) : M (option error) :=
  backupBanner f ;;;
  p <- (if negb (String.eqb (backupOutput f) "") then
          emit (Printf "Output file: %s\n" [ArgString (backupOutput f)]) ;;;
          ret (backupOutput f, None)
        else
          d <- EnsureBackupDir env (backupResourceGroup f) (backupAPIMName f) (backupProductID f) ;;
          match d with
          | (_, Some err) =>
              ret ("", Some (Errorf "failed to create backup directory: %w" [ArgError err]))
          | (backupDir, None) =>
              emit (Printf "Backup directory: %s\n" [ArgString backupDir]) ;;;
              ret (Join env [backupDir; "subscriptions.json"], None)
          end) ;;
  match p with
  | (_, Some err) => ret (Some err)
  | (filePath, None) =>
      emit (Println "\nAuthenticating with Azure CLI...") ;;;
      r <- NewClient env (backupSubscription f) (backupResourceGroup f) (backupAPIMName f) ;;
      match r with
      | (Some client, None) => backupListAndWrite env f client filePath true
      | (_, Some err) => ret (Some (Errorf "authentication failed: %w" [ArgError err]))
      | (None, None) => panic
      end
  end.

End BackupWithOutput.

(** The variant that always writes under the backup directory (it has no
    [--output] flag: [backupOutput] is not read). *)
Module BackupToDir.

Definition runBackup (env : Env) (f : BackupFlags) : M (option error) :=
  backupBanner f ;;;
  d <- EnsureBackupDir env (backupResourceGroup f) (backupAPIMName f) (backupProductID f) ;;
  match d with
  | (_, Some err) => ret (Some (Errorf "failed to create backup directory: %w" [ArgError err]))
  | (backupDir, None) =>
      emit (Printf "Backup directory: %s\n" [ArgString backupDir]) ;;;
      emit (Println "\nAuthenticating with Azure CLI...") ;;;
      r <- NewClient env (backupSubscription f) (backupResourceGroup f) (backupAPIMName f) ;;
      match r with
      | (Some client, None) =>
          emit (Println "Successfully authenticated with Azure CLI") ;;;
          backupListAndWrite env f client (Join env [backupDir; "subscriptions.json"]) false
      | (_, Some err) => ret (Some (Errorf "authentication failed: %w" [ArgError err]))
      | (None, None) => panic
      end
  end.

End BackupToDir.

(** ** cmd/compare.go *)

Record CompareFlags := {
  compareFileA : string;
  compareFileB : string
}.

Record CompareTally := { matched : nat; missing : nat; mismatch : nat }.

Definition loadBackupFile (env : Env) (filePath : string) : M (list SubscriptionInfo * option error) :=
  d <- call (EvReadFile filePath) (fun t => osReadFile env t filePath) ;;
  match d with
  | (_, Some err) => ret ([], Some err)
  | (data, None) =>
      match Unmarshal env data with
      | (_, Some err) => ret ([], Some err)
      | (subs, None) => ret (subs, None)
      end
  end.

Definition filterOutMaster (subs : list SubscriptionInfo) : list SubscriptionInfo :=
  filter (fun sub => negb (String.eqb (Name sub) "master")) subs.

Definition attributesEqual (subA subB : SubscriptionInfo) : bool :=
  let propsA := Properties subA in
  let propsB := Properties subB in
  String.eqb (DisplayName propsA) (DisplayName propsB) &&
  String.eqb (Scope propsA) (Scope propsB) &&
  String.eqb (State propsA) (State propsB) &&
  String.eqb (OwnerID propsA) (OwnerID propsB) &&
  String.eqb (PrimaryKey propsA) (PrimaryKey propsB) &&
  String.eqb (SecondaryKey propsA) (SecondaryKey propsB) &&
  Bool.eqb (AllowTracing propsA) (AllowTracing propsB) &&
  String.eqb (StartDate propsA) (StartDate propsB) &&
  String.eqb (EndDate propsA) (EndDate propsB) &&
  String.eqb (ExpirationDate propsA) (ExpirationDate propsB) &&
  String.eqb (NotificationDate propsA) (NotificationDate propsB) &&
  String.eqb (StateComment propsA) (StateComment propsB).

(** One line of [printAttributeDifferences] for a string attribute. *)
Definition printIfDiffers (format : string) (a b : string) : M unit :=
  when (negb (String.eqb a b)) (emit (Printf format [ArgString a; ArgString b])).

Definition printAttributeDifferences (subA subB : SubscriptionInfo) : M unit :=
  let propsA := Properties subA in
  let propsB := Properties subB in
  printIfDiffers "      displayName: %q != %q\n" (DisplayName propsA) (DisplayName propsB) ;;;
  printIfDiffers "      scope: %q != %q\n" (Scope propsA) (Scope propsB) ;;;
  printIfDiffers "      state: %q != %q\n" (State propsA) (State propsB) ;;;
  printIfDiffers "      ownerId: %q != %q\n" (OwnerID propsA) (OwnerID propsB) ;;;
  when (negb (Bool.eqb (AllowTracing propsA) (AllowTracing propsB)))
    (emit (Printf "      allowTracing: %v != %v\n"
             [ArgBool (AllowTracing propsA); ArgBool (AllowTracing propsB)])) ;;;
  printIfDiffers "      createdDate: %q != %q\n" (CreatedDate propsA) (CreatedDate propsB) ;;;
  printIfDiffers "      startDate: %q != %q\n" (StartDate propsA) (StartDate propsB) ;;;
  printIfDiffers "      endDate: %q != %q\n" (EndDate propsA) (EndDate propsB) ;;;
  printIfDiffers "      expirationDate: %q != %q\n" (ExpirationDate propsA) (ExpirationDate propsB) ;;;
  printIfDiffers "      notificationDate: %q != %q\n" (NotificationDate propsA) (NotificationDate propsB) ;;;
  printIfDiffers "      stateComment: %q != %q\n" (StateComment propsA) (StateComment propsB).

(** The join condition of the inner loop. *)
Definition sameKeys (subA subB : SubscriptionInfo) : bool :=
  String.eqb (PrimaryKey (Properties subA)) (PrimaryKey (Properties subB)) &&
  String.eqb (SecondaryKey (Properties subA)) (SecondaryKey (Properties subB)).

(** The inner loop [for _, subB := range subsB]; the boolean is [found]. *)
Fixpoint compareWithB (subA : SubscriptionInfo) (subsB : list SubscriptionInfo) (n : CompareTally)
    : M (bool * CompareTally) :=
  match subsB with
  | [] => ret (false, n)
  | subB :: subsB' =>
      if sameKeys subA subB then
        if attributesEqual subA subB then
          emit (Printf "  [OK]   %s\n" [ArgString (DisplayName (Properties subA))]) ;;;
          ret (true, {| matched := S (matched n); missing := missing n; mismatch := mismatch n |})
        else
          emit (Printf "  [DIFF] %s (keys match, attributes differ)\n"
                  [ArgString (DisplayName (Properties subA))]) ;;;
          printAttributeDifferences subA subB ;;;
          ret (true, {| matched := matched n; missing := missing n; mismatch := S (mismatch n) |})
      else compareWithB subA subsB' n
  end.

(** The body of the outer loop for one record of A. *)
Definition compareOne (subA : SubscriptionInfo) (subsB : list SubscriptionInfo) (n : CompareTally)
    : M CompareTally :=
  r <- compareWithB subA subsB n ;;
  let (found, n) := r in
  if negb found then
    emit (Printf "  [MISS] %s (primaryKey=%s)\n"
            [ArgString (DisplayName (Properties subA)); ArgString (PrimaryKey (Properties subA))]) ;;;
    ret {| matched := matched n; missing := S (missing n); mismatch := mismatch n |}
  else ret n.

Fixpoint compareLoop (subsA subsB : list SubscriptionInfo) (n : CompareTally) : M CompareTally :=
  match subsA with
  | [] => ret n
  | subA :: subsA' =>
      n' <- compareOne subA subsB n ;;
      compareLoop subsA' subsB n'
  end.

(** [runCompare] from the filtering of the two loaded snapshots to its
    return. *)
Definition compareSnapshots (subsA subsB : list SubscriptionInfo) : M (option error) :=
  let subsA := filterOutMaster subsA in
  let subsB := filterOutMaster subsB in
  emit (Printf "\nFile A: %d subscription(s) (master excluded)\n" [ArgInt (List.length subsA)]) ;;;
  emit (Printf "File B: %d subscription(s) (master excluded)\n" [ArgInt (List.length subsB)]) ;;;
  n <- compareLoop subsA subsB {| matched := 0; missing := 0; mismatch := 0 |} ;;
  emit (Printf "\nComparison complete: %d matched, %d mismatched, %d missing (out of %d total)\n"
          [ArgInt (matched n); ArgInt (mismatch n); ArgInt (missing n);
           ArgInt (List.length subsA)]) ;;;
  if (0 <? missing n)%nat || (0 <? mismatch n)%nat
  then ret (Some (Errorf "%d key(s) missing or attributes differ"
                    [ArgInt (missing n + mismatch n)]))
  else ret None.

(** The two file names: positional arguments, or the [-a] and [-b] flags. *)
Definition compareFiles (f : CompareFlags) (args : list string) : (string * string) + error :=
  match args with
  | [a; b] => inl (a, b)
  | [_] => inr (Errorf "expected 2 files, got 1" [])
  | _ =>
      if String.eqb (compareFileA f) "" || String.eqb (compareFileB f) ""
      then inr (Errorf "must provide either two positional arguments or both -a and -b flags" [])
      else inl (compareFileA f, compareFileB f)
  end.

Definition runCompare (env : Env) (f : CompareFlags) (args : list string) : M (option error) :=
  match compareFiles f args with
  | inr err => ret (Some err)
  | inl (fileA, fileB) =>
      emit (Printf "Comparing backup files:\n" []) ;;;
      emit (Printf "  File A: %s\n" [ArgString fileA]) ;;;
      emit (Printf "  File B: %s\n" [ArgString fileB]) ;;;
      a <- loadBackupFile env fileA ;;
      match a with
      | (_, Some err) => ret (Some (Errorf "failed to load file A: %w" [ArgError err]))
      | (subsA, None) =>
          b <- loadBackupFile env fileB ;;
          match b with
          | (_, Some err) => ret (Some (Errorf "failed to load file B: %w" [ArgError err]))
          | (subsB, None) => compareSnapshots subsA subsB
          end
      end
  end.

(** ** cmd/list.go *)

Record ListFlags := {
  listResourceGroup : string;
  listAPIMName : string;
  listSubscription : string;
  listProductID : string
}.

(** The lines [runList] prints for the record at position [i] (from 0). *)
Definition printSubscription (i : nat) (sub : SubscriptionInfo) : M unit :=
  let p := Properties sub in
  emit (Printf "\n[%d] %s\n" [ArgInt (i + 1); ArgString (DisplayName p)]) ;;;
  emit (Printf "    ID:               %s\n" [ArgString (ID sub)]) ;;;
  emit (Printf "    Name:             %s\n" [ArgString (Name sub)]) ;;;
  emit (Printf "    Type:             %s\n" [ArgString (Type_ sub)]) ;;;
  emit (Printf "    Scope:            %s\n" [ArgString (Scope p)]) ;;;
  emit (Printf "    State:            %s\n" [ArgString (State p)]) ;;;
  emit (Printf "    Owner ID:         %s\n" [ArgString (OwnerID p)]) ;;;
  emit (Printf "    Created:          %s\n" [ArgString (CreatedDate p)]) ;;;
  emit (Printf "    Start Date:       %s\n" [ArgString (StartDate p)]) ;;;
  emit (Printf "    End Date:         %s\n" [ArgString (EndDate p)]) ;;;
  emit (Printf "    Expiration Date:  %s\n" [ArgString (ExpirationDate p)]) ;;;
  emit (Printf "    Notification Date:%s\n" [ArgString (NotificationDate p)]) ;;;
  emit (Printf "    State Comment:    %s\n" [ArgString (StateComment p)]) ;;;
  emit (Printf "    Allow Tracing:    %t\n" [ArgBool (AllowTracing p)]) ;;;
  emit (Printf "    Primary Key:      %s\n" [ArgString (PrimaryKey p)]) ;;;
  emit (Printf "    Secondary Key:    %s\n" [ArgString (SecondaryKey p)]).

(** The loop [for i, sub := range subs]. *)
Fixpoint listLoop (i : nat) (subs : list SubscriptionInfo) : M unit :=
  match subs with
  | [] => ret tt
  | sub :: subs' => printSubscription i sub ;;; listLoop (S i) subs'
  end.

Definition separatorLine : string :=
  "────────────────────────────────────────────────────────────────".

Definition runList (env : Env) (f : ListFlags) : M (option error) :=
  emit (Printf "Listing subscription keys from APIM instance: %s\n" [ArgString (listAPIMName f)]) ;;;
  emit (Printf "Resource Group: %s\n" [ArgString (listResourceGroup f)]) ;;;
  when (negb (String.eqb (listSubscription f) ""))
    (emit (Printf "Subscription ID: %s\n" [ArgString (listSubscription f)])) ;;;
  when (negb (String.eqb (listProductID f) ""))
    (emit (Printf "Product ID: %s\n" [ArgString (listProductID f)])) ;;;
  emit (Println "\nAuthenticating with Azure CLI...") ;;;
  r <- NewClient env (listSubscription f) (listResourceGroup f) (listAPIMName f) ;;
  match r with
  | (Some client, None) =>
      emit (Println "Successfully authenticated with Azure CLI") ;;;
      emit (Println "\nFetching subscriptions...") ;;;
      l <- ListSubscriptions env client (listProductID f) ;;
      match l with
      | (_, Some err) => ret (Some (Errorf "failed to list subscriptions: %w" [ArgError err]))
      | (subs, None) =>
          match subs with
          | [] => emit (Println "No subscriptions found.") ;;; ret None
          | _ =>
              emit (Printf "\nFound %d subscription(s):\n" [ArgInt (List.length subs)]) ;;;
              emit (Println separatorLine) ;;;
              listLoop 0 subs ;;;
              emit (Println ("\n" ++ separatorLine)) ;;;
              ret None
          end
      end
  | (_, Some err) => ret (Some (Errorf "authentication failed: %w" [ArgError err]))
  | (None, None) => panic
  end.

(** ** internal/azure/client.go: [resolveSubscriptionID] *)

(** The bytes the loop at the end of [resolveSubscriptionID] removes:
    line feed, carriage return and space. *)
Definition isTrailingSpace (c : ascii) : bool :=
  Ascii.eqb c "010" || Ascii.eqb c "013" || Ascii.eqb c " ".

(** The loop [for len(id) > 0 && (id[len(id)-1] == ...) { id = id[:len(id)-1] }];
    every round shortens [id], so [String.length id] rounds are enough. *)
Fixpoint trimLoop (rounds : nat) (id : string) : string :=
  match rounds with
  | O => id
  | S rounds' =>
      if (0 <? String.length id)%nat then
        match String.get (String.length id - 1) id with
        | Some c =>
            if isTrailingSpace c
            then trimLoop rounds' (substring 0 (String.length id - 1) id)
            else id
        | None => id
        end
      else id
  end.

(** [runAz args] is the outcome of [exec.Command("az", args...).Output()];
    [unmarshalID out] is the [id] member [json.Unmarshal] reads. *)
Definition resolveSubscriptionID (runAz : list string -> string * option error)
    (unmarshalID : string -> string * option error) : string * option error :=
  match runAz ["account"; "show"; "--query"; "id"; "-o"; "tsv"] with
  | (_, Some err) =>
      match runAz ["account"; "show"; "-o"; "json"] with
      | (_, Some err2) => ("", Some (Errorf "failed to run 'az account show': %w" [ArgError err]))
      | (out2, None) =>
          match unmarshalID out2 with
          | (_, Some err) =>
              ("", Some (Errorf "failed to parse 'az account show' output: %w" [ArgError err]))
          | (id, None) =>
              if String.eqb id ""
              then ("", Some (Errorf "no subscription ID found in 'az account show' output" []))
              else (id, None)
          end
      end
  | (out, None) =>
      let id := trimLoop (String.length out) out in
      if String.eqb id ""
      then ("", Some (Errorf "empty subscription ID from 'az account show'" []))
      else (id, None)
  end.

(** ** Definitions the properties are stated with *)

(** What [extractScopeSuffix] does once [rest] is known. *)
Definition suffixOfRest (rest : string) : option string :=
  let slashIdx := Index rest "/" in
  if slashIdx =? -1 then Some ""
  else
    match sliceFrom rest (slashIdx + 1) with
    | None => None
    | Some suffix => Some (TrimRight suffix "/")
    end.

(** The extraction in the specification's words: the last marker, the
    instance name up to the next slash, the remainder less ONE trailing
    slash. *)
Definition ExtractSuffix_spec (scope : string) : string :=
  match lastIndexNat scope "/service/" with
  | None => ""
  | Some idx =>
      let rest := drop (idx + 9) scope in
      match indexNat rest "/" with
      | None => ""
      | Some k => TrimSuffix (drop (k + 1) rest) "/"
      end
  end.

(** The three outcomes of the comparator for a record of A. *)
Inductive Outcome := Matched | Mismatched | Missing.

Definition Outcome_eqb (x y : Outcome) : bool :=
  match x, y with
  | Matched, Matched | Mismatched, Mismatched | Missing, Missing => true
  | _, _ => false
  end.

(** The outcome the inner loop reaches: it stops at the first record of B
    with the key pair of [subA]. *)
Definition classify (subA : SubscriptionInfo) (subsB : list SubscriptionInfo) : Outcome :=
  match find (sameKeys subA) subsB with
  | None => Missing
  | Some subB => if attributesEqual subA subB then Matched else Mismatched
  end.

Definition bump (o : Outcome) (n : CompareTally) : CompareTally :=
  match o with
  | Matched => {| matched := S (matched n); missing := missing n; mismatch := mismatch n |}
  | Mismatched => {| matched := matched n; missing := missing n; mismatch := S (mismatch n) |}
  | Missing => {| matched := matched n; missing := S (missing n); mismatch := mismatch n |}
  end.

Definition countOutcome (o : Outcome) (subsA subsB : list SubscriptionInfo) : nat :=
  List.length (filter (fun subA => Outcome_eqb (classify subA subsB) o) subsA).

Definition lineIf (b : bool) (e : Event) : list Event := if b then [e] else [].

Definition differs (format : string) (a b : string) : list Event :=
  lineIf (negb (String.eqb a b)) (Printf format [ArgString a; ArgString b]).

(** The lines [printAttributeDifferences] prints. *)
Definition attributeDifferences (subA subB : SubscriptionInfo) : list Event :=
  let propsA := Properties subA in
  let propsB := Properties subB in
  (differs "      displayName: %q != %q\n" (DisplayName propsA) (DisplayName propsB) ++
   differs "      scope: %q != %q\n" (Scope propsA) (Scope propsB) ++
   differs "      state: %q != %q\n" (State propsA) (State propsB) ++
   differs "      ownerId: %q != %q\n" (OwnerID propsA) (OwnerID propsB) ++
   lineIf (negb (Bool.eqb (AllowTracing propsA) (AllowTracing propsB)))
     (Printf "      allowTracing: %v != %v\n"
        [ArgBool (AllowTracing propsA); ArgBool (AllowTracing propsB)]) ++
   differs "      createdDate: %q != %q\n" (CreatedDate propsA) (CreatedDate propsB) ++
   differs "      startDate: %q != %q\n" (StartDate propsA) (StartDate propsB) ++
   differs "      endDate: %q != %q\n" (EndDate propsA) (EndDate propsB) ++
   differs "      expirationDate: %q != %q\n" (ExpirationDate propsA) (ExpirationDate propsB) ++
   differs "      notificationDate: %q != %q\n" (NotificationDate propsA) (NotificationDate propsB) ++
   differs "      stateComment: %q != %q\n" (StateComment propsA) (StateComment propsB))%list.

(** The lines of the report for one record of A. *)
Definition reportOf (subA : SubscriptionInfo) (subsB : list SubscriptionInfo) : list Event :=
  match find (sameKeys subA) subsB with
  | None =>
      [Printf "  [MISS] %s (primaryKey=%s)\n"
         [ArgString (DisplayName (Properties subA)); ArgString (PrimaryKey (Properties subA))]]
  | Some subB =>
      if attributesEqual subA subB
      then [Printf "  [OK]   %s\n" [ArgString (DisplayName (Properties subA))]]
      else Printf "  [DIFF] %s (keys match, attributes differ)\n"
             [ArgString (DisplayName (Properties subA))]
           :: attributeDifferences subA subB
  end.

(** "Matched" as the specification words it: the key pair is found in B
    with all compared attributes equal. *)
Definition matchedSomewhere (subA : SubscriptionInfo) (subsB : list SubscriptionInfo) : Prop :=
  exists subB, In subB subsB /\ sameKeys subA subB = true /\ attributesEqual subA subB = true.

(** "Matched" as the loop decides it: the FIRST record of B with the key
    pair has all compared attributes equal. *)
Definition matchedByFirst (subA : SubscriptionInfo) (subsB : list SubscriptionInfo) : Prop :=
  exists subB, find (sameKeys subA) subsB = Some subB /\ attributesEqual subA subB = true.


(** What [runDelete] does with a record it does not skip. *)
Definition deletedNormally (env : Env) (f : DeleteFlags) (client : Client)
    (sub : SubscriptionInfo) (n : DeleteTally) (t : Trace) : option DeleteTally * Trace :=
  let sid := Name sub in
  let displayName := DisplayName (Properties sub) in
  if deleteDryRun f then
    (Some {| deleted := S (deleted n); skipped := skipped n; failed := failed n |},
     t ++ [Printf "  [DRY-RUN] Would delete: %s (id=%s)\n" [ArgString displayName; ArgString sid]])%list
  else
    let t1 := (t ++ [Printf "  Deleting: %s (id=%s)...\n" [ArgString displayName; ArgString sid]])%list in
    match sdkDelete env t1 (resourceGroup client) (apimName client) sid "*" with
    | None =>
        (Some {| deleted := S (deleted n); skipped := skipped n; failed := failed n |},
         t1 ++ [EvDelete (resourceGroup client) (apimName client) sid "*";
                Printf "  [OK]   %s\n" [ArgString displayName]])%list
    | Some err =>
        (Some {| deleted := deleted n; skipped := skipped n; failed := S (failed n) |},
         t1 ++ [EvDelete (resourceGroup client) (apimName client) sid "*";
                Printf "  [FAIL] %s: %v\n"
                  [ArgString displayName;
                   ArgError (Errorf "failed to delete subscription %s: %w"
                               [ArgString sid; ArgError err])]])%list
    end.

(** ** Observations on a trace *)

(** The names for which the secrets were asked, the names for which a
    delete call was issued, and the names for which a create call was
    issued, in the order of the calls. *)
Definition secretCalls (w : Trace) : list string :=
  flat_map (fun e => match e with EvListSecrets _ _ sid => [sid] | _ => [] end) w.

Definition deleteCalls (w : Trace) : list string :=
  flat_map (fun e => match e with EvDelete _ _ sid _ => [sid] | _ => [] end) w.

Definition createCalls (w : Trace) : list string :=
  flat_map (fun e => match e with EvCreateOrUpdate _ _ sid _ => [sid] | _ => [] end) w.

Definition isPrint (e : Event) : bool :=
  match e with
  | Printf _ _ | Println _ => true
  | _ => false
  end.

(** The calls of a listing: the pager and the secrets. *)
Definition isListingCall (e : Event) : bool :=
  match e with
  | EvNextPage | EvListSecrets _ _ _ => true
  | _ => false
  end.

(** A call that changes the remote service. *)
Definition isRemoteWrite (e : Event) : bool :=
  match e with
  | EvCreateOrUpdate _ _ _ _ | EvDelete _ _ _ _ => true
  | _ => false
  end.

(** A call that changes the local file system. *)
Definition isFileWrite (e : Event) : bool :=
  match e with
  | EvMkdirAll _ | EvWriteFile _ _ => true
  | _ => false
  end.

(** Any call to the remote service, the authentication included. *)
Definition isRemoteCall (e : Event) : bool :=
  match e with
  | EvNewClient _ _ _ | EvNextPage | EvListSecrets _ _ _
  | EvCreateOrUpdate _ _ _ _ | EvDelete _ _ _ _ => true
  | _ => false
  end.

(** Whatever the trace before and whatever the outcome (a value or a
    panic), the computation only appends events, and every event it appends
    satisfies [P]. *)
Definition appendsOnly {A} (P : Event -> bool) (m : M A) : Prop :=
  forall t, exists w, snd (m t) = (t ++ w)%list /\ forallb P w = true.

(** The name under which a listed contract is kept, if it is kept: nil
    entries and entries without properties are passed over. *)
Definition keptName (v : option SubscriptionContract) : list string :=
  match v with
  | Some sub =>
      match wProperties sub with
      | Some _ => [deref (wName sub)]
      | None => []
      end
  | None => []
  end.

Definition keptNames (pages : list PageResponse) : list string :=
  flat_map (fun p => flat_map keptName (fst p)) pages.

(** Printing, reading a file and authenticating: what a restore does
    besides its create calls. *)
Definition isPrintReadOrAuth (e : Event) : bool :=
  match e with
  | Printf _ _ | Println _ | EvReadFile _ | EvNewClient _ _ _ => true
  | _ => false
  end.

(** Printing and reading a file: all a comparison does. *)
Definition isPrintOrRead (e : Event) : bool :=
  match e with
  | Printf _ _ | Println _ | EvReadFile _ => true
  | _ => false
  end.

(** What a read-only command may do: print, authenticate and list. *)
Definition isPrintAuthOrListing (e : Event) : bool :=
  match e with
  | Printf _ _ | Println _ | EvNewClient _ _ _ | EvNextPage | EvListSecrets _ _ _ => true
  | _ => false
  end.

(** Every byte of the string is one the trimming loop removes. *)
Definition readCalls (w : Trace) : list string :=
  flat_map (fun e => match e with EvReadFile path => [path] | _ => [] end) w.

(** The last byte of [s] is one the trimming loop removes. *)
Definition endsInSpace (s : string) : bool :=
  match String.get (String.length s - 1) s with
  | Some c => isTrailingSpace c
  | None => false
  end.

Fixpoint allTrailingSpace (s : string) : bool :=
  match s with
  | EmptyString => true
  | String c s' => isTrailingSpace c && allTrailingSpace s'
  end.

(** The records the product variant of [runRestore] does not skip. *)
Definition hasProductID (sub : SubscriptionInfo) : bool :=
  match extractProductID (Scope (Properties sub)) with
  | Some productID => negb (String.eqb productID "")
  | None => false
  end.

(** The records [runDelete] does not skip. *)
Definition notSkipped (f : DeleteFlags) (subs : list SubscriptionInfo) : list SubscriptionInfo :=
  filter (fun sub => negb (negb (deleteAll f) && String.eqb (Name sub) "master")) subs.

(** ** Test doubles for the collaborators *)

Definition mkSub (name displayName scope primaryKey secondaryKey createdDate : string)
    : SubscriptionInfo := {|
  ID := "/subscriptions/src/resourceGroups/rg1/providers/Microsoft.ApiManagement/service/apim1/subscriptions/" ++ name;
  Name := name;
  Type_ := "Microsoft.ApiManagement/service/subscriptions";
  Properties := {|
    OwnerID := ""; Scope := scope; DisplayName := displayName; State := "active";
    CreatedDate := createdDate; StartDate := ""; EndDate := ""; ExpirationDate := "";
    NotificationDate := ""; PrimaryKey := primaryKey; SecondaryKey := secondaryKey;
    StateComment := ""; AllowTracing := false
  |}
|}.

Definition mkContract (name : string) : SubscriptionContract := {|
  wID := Some name; wName := Some name; wType := None;
  wProperties := Some {|
    wOwnerID := None; wScope := Some "/scope"; wDisplayName := Some name;
    wState := Some "active"; wStateComment := None; wAllowTracing := None;
    wCreatedDate := None; wStartDate := None; wEndDate := None;
    wExpirationDate := None; wNotificationDate := None
  |}
|}.

(** The record the listing makes of [mkContract name] when the secrets
    are those [fakeEnv] serves. *)
Definition listedSub (name : string) : SubscriptionInfo := {|
  ID := name; Name := name; Type_ := "";
  Properties := {|
    OwnerID := ""; Scope := "/scope"; DisplayName := name; State := "active";
    CreatedDate := ""; StartDate := ""; EndDate := ""; ExpirationDate := "";
    NotificationDate := ""; PrimaryKey := "pk-" ++ name; SecondaryKey := "sk-" ++ name;
    StateComment := ""; AllowTracing := false
  |}
|}.

Definition propsNoState : SubscriptionContractProperties := {|
  wOwnerID := None; wScope := None; wDisplayName := None; wState := None;
  wStateComment := None; wAllowTracing := None; wCreatedDate := None;
  wStartDate := None; wEndDate := None; wExpirationDate := None;
  wNotificationDate := None
|}.

(** A contract as the SDK may deliver it: present, with properties, and
    with a nil state. *)
Definition mkContractNoState (name : string) : SubscriptionContract := {|
  wID := None; wName := Some name; wType := None; wProperties := Some propsNoState
|}.

(** A remote service that serves [pages], refuses the secrets of the
    names in [noSecrets], refuses to delete or create the names in
    [refused], and a file system whose file [path] holds the snapshot
    [files path]. *)
Definition fakeEnv (files : string -> list SubscriptionInfo) (pages : list PageResponse)
    (noSecrets refused : list string) : Env := {|
  azNewClient := fun _ id _ _ => (if String.eqb id "" then "resolved-sub" else id, None);
  sdkListPager := fun _ _ _ => pages;
  sdkProductListPager := fun _ _ _ _ => pages;
  sdkListSecrets := fun _ _ _ sid =>
    if existsb (String.eqb sid) noSecrets
    then ({| kPrimaryKey := None; kSecondaryKey := None |}, Some (ExternalError "secrets unavailable"))
    else ({| kPrimaryKey := Some ("pk-" ++ sid); kSecondaryKey := Some ("sk-" ++ sid) |}, None);
  sdkCreateOrUpdate := fun _ _ _ sid _ =>
    if existsb (String.eqb sid) refused
    then (mkContract sid, Some (ExternalError "create refused"))
    else (mkContract sid, None);
  sdkDelete := fun _ _ _ sid _ =>
    if existsb (String.eqb sid) refused then Some (ExternalError "delete refused") else None;
  osMkdirAll := fun _ _ => None;
  osWriteFile := fun _ _ _ => None;
  osReadFile := fun _ path => (path, None);
  Join := String.concat "/";
  Dir := fun _ => ".";
  MarshalIndent := fun subs _ _ =>
    (match subs with [] => "null" | _ => "[...]" end, None);
  Unmarshal := fun data => (files data, None)
|}.

(** [env] with an Azure CLI that is not logged in. *)
Definition withoutLogin (env : Env) : Env := {|
  azNewClient := fun _ _ _ _ => ("", Some (ExternalError "az login required"));
  sdkListPager := sdkListPager env;
  sdkProductListPager := sdkProductListPager env;
  sdkListSecrets := sdkListSecrets env;
  sdkCreateOrUpdate := sdkCreateOrUpdate env;
  sdkDelete := sdkDelete env;
  osMkdirAll := osMkdirAll env;
  osWriteFile := osWriteFile env;
  osReadFile := osReadFile env;
  Join := Join env;
  Dir := Dir env;
  MarshalIndent := MarshalIndent env;
  Unmarshal := Unmarshal env
|}.

(** [env] with a file system on which no file can be read. *)
Definition withoutFiles (env : Env) : Env := {|
  azNewClient := azNewClient env;
  sdkListPager := sdkListPager env;
  sdkProductListPager := sdkProductListPager env;
  sdkListSecrets := sdkListSecrets env;
  sdkCreateOrUpdate := sdkCreateOrUpdate env;
  sdkDelete := sdkDelete env;
  osMkdirAll := osMkdirAll env;
  osWriteFile := osWriteFile env;
  osReadFile := fun _ _ => ("", Some (ExternalError "no such file"));
  Join := Join env;
  Dir := Dir env;
  MarshalIndent := MarshalIndent env;
  Unmarshal := Unmarshal env
|}.

(** [env] with a service whose answer to a create call has no
    properties. *)
Definition withBareAnswers (env : Env) : Env := {|
  azNewClient := azNewClient env;
  sdkListPager := sdkListPager env;
  sdkProductListPager := sdkProductListPager env;
  sdkListSecrets := sdkListSecrets env;
  sdkCreateOrUpdate := fun _ _ _ sid _ =>
    ({| wID := Some sid; wName := Some sid; wType := None; wProperties := None |}, None);
  sdkDelete := sdkDelete env;
  osMkdirAll := osMkdirAll env;
  osWriteFile := osWriteFile env;
  osReadFile := osReadFile env;
  Join := Join env;
  Dir := Dir env;
  MarshalIndent := MarshalIndent env;
  Unmarshal := Unmarshal env
|}.

(** * Properties *)

(** ** Strings *)

Lemma append_assoc (a b c : string) : (a ++ b) ++ c = a ++ b ++ c.
Proof. induction a as [|x a IH]; simpl; [reflexivity | now rewrite IH]. Qed.

Lemma length_append (a b : string) :
  String.length (a ++ b) = (String.length a + String.length b)%nat.
Proof. induction a as [|x a IH]; simpl; [reflexivity | now rewrite IH]. Qed.

Lemma drop_empty (n : nat) : drop n "" = "".
Proof. destruct n; reflexivity. Qed.

Lemma drop_append_plus (a b : string) (k : nat) :
  drop (String.length a + k) (a ++ b) = drop k b.
Proof. induction a as [|x a IH]; simpl; [reflexivity | exact IH]. Qed.

Lemma drop_append_le (a b : string) (k : nat) :
  (k <= String.length a)%nat -> drop k (a ++ b) = drop k a ++ b.
Proof.
  revert k. induction a as [|x a IH]; intros [|k] Hk; simpl in *; try reflexivity; try lia.
  apply IH. lia.
Qed.

Lemma drop_all (s : string) (k : nat) : (String.length s <= k)%nat -> drop k s = "".
Proof.
  revert k. induction s as [|x s IH]; intros [|k] Hk; simpl in *; try reflexivity; try lia.
  apply IH. lia.
Qed.

Lemma prefix_empty (s : string) : prefix "" s = true.
Proof. destruct s; reflexivity. Qed.

Lemma prefix_cons (a b : ascii) (m s : string) :
  prefix (String a m) (String b s) = Ascii.eqb a b && prefix m s.
Proof.
  simpl. destruct (ascii_dec a b) as [->|Hne].
  - now rewrite Ascii.eqb_refl.
  - apply Ascii.eqb_neq in Hne. now rewrite Hne.
Qed.

Lemma prefix_append (m t : string) : prefix m (m ++ t) = true.
Proof.
  induction m as [|x m IH]; [apply prefix_empty|].
  change (String x m ++ t) with (String x (m ++ t)).
  rewrite prefix_cons, Ascii.eqb_refl. exact IH.
Qed.

Lemma prefix_inv (m s : string) : prefix m s = true -> exists t, s = m ++ t.
Proof.
  revert s. induction m as [|x m IH]; intros s H.
  - now exists s.
  - destruct s as [|y s]; [discriminate|].
    rewrite prefix_cons in H. apply andb_true_iff in H as [Hxy Hp].
    apply Ascii.eqb_eq in Hxy as ->. destruct (IH _ Hp) as [t ->]. now exists t.
Qed.

Lemma prefix_length (m s : string) :
  prefix m s = true -> (String.length m <= String.length s)%nat.
Proof. intros H. destruct (prefix_inv _ _ H) as [t ->]. rewrite length_append. lia. Qed.

(** The position [lastIndexNat] returns is an occurrence, and it survives
    a longer left context. *)
Lemma lastIndexNat_occurrence (s m : string) (i : nat) :
  lastIndexNat s m = Some i -> prefix m (drop i s) = true.
Proof.
  revert i. induction s as [|c s IH]; intros i H; cbn [lastIndexNat] in H.
  - destruct (prefix m "") eqn:E; [|discriminate]. injection H as <-. exact E.
  - destruct (lastIndexNat s m) as [j|] eqn:Ej.
    + injection H as <-. simpl. now apply IH.
    + destruct (prefix m (String c s)) eqn:E; [|discriminate]. injection H as <-. exact E.
Qed.

Lemma lastIndexNat_None (s m : string) (j : nat) :
  lastIndexNat s m = None -> (j <= String.length s)%nat -> prefix m (drop j s) = false.
Proof.
  revert j. induction s as [|c s IH]; intros j H Hj; cbn [lastIndexNat] in H.
  - rewrite drop_empty. now destruct (prefix m "").
  - destruct (lastIndexNat s m); [discriminate|].
    destruct (prefix m (String c s)) eqn:E; [discriminate|].
    destruct j as [|j]; [exact E|]. cbn [drop]. apply IH; [reflexivity|]. simpl in Hj. lia.
Qed.

(** No occurrence starts after the position [lastIndexNat] returns. *)
Lemma lastIndexNat_is_last (s m : string) (i j : nat) :
  lastIndexNat s m = Some i -> (i < j <= String.length s)%nat -> prefix m (drop j s) = false.
Proof.
  revert i j. induction s as [|c s IH]; intros i j H Hj; cbn [lastIndexNat] in H.
  - simpl in Hj. lia.
  - destruct j as [|j]; [lia|]. cbn [drop]. simpl in Hj.
    destruct (lastIndexNat s m) as [i'|] eqn:E.
    + injection H as <-. apply (IH i'); [reflexivity | lia].
    + apply lastIndexNat_None; [exact E | lia].
Qed.

(** The position [indexNat] returns is the first occurrence. *)
Lemma indexNat_is_first (s m : string) (i : nat) :
  indexNat s m = Some i ->
  prefix m (drop i s) = true /\ forall j, (j < i)%nat -> prefix m (drop j s) = false.
Proof.
  revert i. induction s as [|c s IH]; intros i H; cbn [indexNat] in H.
  - destruct (prefix m "") eqn:E; [|discriminate]. injection H as <-.
    split; [exact E | intros j Hj; lia].
  - destruct (prefix m (String c s)) eqn:E.
    + injection H as <-. split; [exact E | intros j Hj; lia].
    + destruct (indexNat s m) as [i'|]; [|discriminate]. injection H as <-.
      destruct (IH i' eq_refl) as [Hocc Hfirst]. split; [exact Hocc|].
      intros [|j] Hj; [exact E|]. cbn [drop]. apply Hfirst. lia.
Qed.

Lemma lastIndexNat_bound (s m : string) (i : nat) :
  lastIndexNat s m = Some i -> (i + String.length m <= String.length s)%nat.
Proof.
  revert i. induction s as [|c s IH]; intros i H; cbn [lastIndexNat] in H.
  - destruct (prefix m "") eqn:E; [|discriminate]. injection H as <-.
    apply prefix_length in E. simpl in *. lia.
  - destruct (lastIndexNat s m) as [j|] eqn:Ej.
    + injection H as <-. specialize (IH _ eq_refl). simpl. lia.
    + destruct (prefix m (String c s)) eqn:E; [|discriminate]. injection H as <-.
      apply prefix_length in E. simpl in *. lia.
Qed.

Lemma lastIndexNat_shift (p s m : string) (i : nat) :
  lastIndexNat s m = Some i -> lastIndexNat (p ++ s) m = Some (String.length p + i)%nat.
Proof.
  intros H. induction p as [|c p IH]; simpl; [exact H | now rewrite IH].
Qed.

Lemma indexNat_bound (s m : string) (i : nat) :
  indexNat s m = Some i -> (i + String.length m <= String.length s)%nat.
Proof.
  revert i. induction s as [|c s IH]; intros i H; cbn [indexNat] in H.
  - destruct m; [|discriminate]. injection H as <-. simpl. lia.
  - destruct (prefix m (String c s)) eqn:E.
    + injection H as <-. apply prefix_length in E. simpl in *. lia.
    + destruct (indexNat s m) as [j|] eqn:Ej; [|discriminate].
      injection H as <-. specialize (IH _ eq_refl). simpl. lia.
Qed.

Lemma indexNat_None_last (s m : string) : indexNat s m = None -> lastIndexNat s m = None.
Proof.
  induction s as [|c s IH]; intros H; cbn [indexNat lastIndexNat] in *.
  - destruct m; [discriminate | reflexivity].
  - destruct (prefix m (String c s)) eqn:E; [discriminate|].
    destruct (indexNat s m); [discriminate|]. now rewrite IH.
Qed.

Lemma Contains_false (s m : string) : Contains s m = false <-> indexNat s m = None.
Proof.
  unfold Contains, Index. destruct (indexNat s m) as [i|]; simpl.
  - split; [|discriminate]. intros H. apply Z.leb_gt in H. lia.
  - split; reflexivity.
Qed.

(** ** The scope extractor *)

Lemma sliceFrom_nat (s : string) (n : nat) :
  (n <= String.length s)%nat -> sliceFrom s (Z.of_nat n) = Some (drop n s).
Proof.
  intros H. unfold sliceFrom, len.
  replace (0 <=? Z.of_nat n) with true by (symmetry; apply Z.leb_le; lia).
  replace (Z.of_nat n <=? Z.of_nat (String.length s)) with true
    by (symmetry; apply Z.leb_le; lia).
  simpl. now rewrite Nat2Z.id.
Qed.

Lemma extractScopeSuffix_absent (scope : string) :
  lastIndexNat scope "/service/" = None -> extractScopeSuffix scope = Some "".
Proof. intros H. unfold extractScopeSuffix, LastIndex. now rewrite H. Qed.

Lemma extractScopeSuffix_at (scope : string) (j : nat) :
  lastIndexNat scope "/service/" = Some j ->
  extractScopeSuffix scope = suffixOfRest (drop (j + 9) scope).
Proof.
  intros H. pose proof (lastIndexNat_bound _ _ _ H) as Hb.
  unfold extractScopeSuffix, LastIndex. rewrite H. cbn [orMinusOne].
  replace (Z.of_nat j =? -1) with false by (symmetry; apply Z.eqb_neq; lia).
  replace (Z.of_nat j + len "/service/") with (Z.of_nat (j + 9)) by (unfold len; simpl; lia).
  rewrite sliceFrom_nat by (simpl in Hb; lia).
  reflexivity.
Qed.

Lemma indexNat_slash_cons (c : ascii) (s : string) :
  indexNat (String c s) "/" =
  if Ascii.eqb "/" c then Some O else option_map S (indexNat s "/").
Proof.
  cbn [indexNat]. rewrite prefix_cons, prefix_empty, andb_true_r. reflexivity.
Qed.

Lemma indexNat_slash_split (inst r : string) :
  indexNat inst "/" = None ->
  indexNat (inst ++ "/" ++ r) "/" = Some (String.length inst).
Proof.
  induction inst as [|c inst IH]; intros H.
  - change ("" ++ "/" ++ r) with (String "/" r). now rewrite indexNat_slash_cons.
  - rewrite indexNat_slash_cons in H.
    change (String c inst ++ "/" ++ r) with (String c (inst ++ "/" ++ r)).
    rewrite indexNat_slash_cons.
    destruct (Ascii.eqb "/" c); [discriminate|].
    destruct (indexNat inst "/"); [discriminate|].
    rewrite IH by reflexivity. reflexivity.
Qed.

Lemma indexNat_slash_drop (s : string) (k : nat) :
  indexNat s "/" = None -> indexNat (drop k s) "/" = None.
Proof.
  revert k. induction s as [|c s IH]; intros k H.
  - now rewrite drop_empty.
  - destruct k as [|k]; [exact H|]. simpl drop. apply IH.
    rewrite indexNat_slash_cons in H.
    destruct (Ascii.eqb "/" c); [discriminate|].
    now destruct (indexNat s "/").
Qed.

Lemma suffixOfRest_no_slash (t : string) :
  indexNat t "/" = None -> suffixOfRest t = Some "".
Proof. intros H. unfold suffixOfRest, Index. now rewrite H. Qed.

Lemma suffixOfRest_split (inst r : string) :
  indexNat inst "/" = None ->
  suffixOfRest (inst ++ "/" ++ r) = Some (TrimRight r "/").
Proof.
  intros H. unfold suffixOfRest, Index.
  rewrite (indexNat_slash_split inst r H). cbn [orMinusOne].
  replace (Z.of_nat (String.length inst) =? -1) with false by (symmetry; apply Z.eqb_neq; lia).
  replace (Z.of_nat (String.length inst) + 1) with (Z.of_nat (String.length inst + 1)) by lia.
  rewrite sliceFrom_nat by (rewrite length_append; simpl; lia).
  rewrite drop_append_plus. reflexivity.
Qed.

(** No marker starts inside the letters of [service]. *)
Lemma no_later_marker (t : string) :
  indexNat ("/" ++ t) "/service/" = None ->
  lastIndexNat ("service/" ++ t) "/service/" = None.
Proof.
  intros H. apply indexNat_None_last in H.
  change ("service/" ++ t) with
    (String "s" (String "e" (String "r" (String "v" (String "i" (String "c" (String "e" ("/" ++ t)))))))).
  cbn [lastIndexNat]. rewrite H. reflexivity.
Qed.

Lemma last_marker_here (p t : string) :
  lastIndexNat ("service/" ++ t) "/service/" = None ->
  lastIndexNat (p ++ "/service/" ++ t) "/service/" = Some (String.length p).
Proof.
  intros H.
  rewrite (lastIndexNat_shift p ("/service/" ++ t) "/service/" 0).
  - f_equal. lia.
  - change ("/service/" ++ t) with (String "/" ("service/" ++ t)).
    cbn [lastIndexNat]. rewrite H.
    change (String "/" ("service/" ++ t)) with ("/service/" ++ t).
    now rewrite prefix_append.
Qed.

Lemma extractScopeSuffix_last (p t : string) :
  lastIndexNat ("service/" ++ t) "/service/" = None ->
  extractScopeSuffix (p ++ "/service/" ++ t) = suffixOfRest t.
Proof.
  intros H. rewrite (extractScopeSuffix_at _ _ (last_marker_here p t H)).
  rewrite drop_append_plus. reflexivity.
Qed.

(** Whatever follows the marker, the rest is a tail of it. *)
Lemma extractScopeSuffix_tail (p t : string) :
  exists k, extractScopeSuffix (p ++ "/service/" ++ t) = suffixOfRest (drop k t).
Proof.
  destruct (lastIndexNat ("/service/" ++ t) "/service/") as [j|] eqn:E.
  - exists j. rewrite (extractScopeSuffix_at _ _ (lastIndexNat_shift p _ _ _ E)).
    replace (String.length p + j + 9)%nat with (String.length p + (9 + j))%nat by lia.
    rewrite drop_append_plus.
    reflexivity.
  - exfalso.
    change ("/service/" ++ t) with (String "/" ("service/" ++ t)) in E.
    cbn [lastIndexNat] in E.
    destruct (lastIndexNat ("service/" ++ t) "/service/"); [discriminate|].
    change (String "/" ("service/" ++ t)) with ("/service/" ++ t) in E.
    rewrite prefix_append in E. discriminate.
Qed.

Lemma extractScopeSuffix_total (scope : string) :
  exists r, extractScopeSuffix scope = Some r.
Proof.
  destruct (lastIndexNat scope "/service/") as [j|] eqn:E.
  - rewrite (extractScopeSuffix_at _ _ E). unfold suffixOfRest, Index.
    destruct (indexNat (drop (j + 9) scope) "/") as [i|] eqn:Ei; cbn [orMinusOne].
    + replace (Z.of_nat i =? -1) with false by (symmetry; apply Z.eqb_neq; lia).
      replace (Z.of_nat i + 1) with (Z.of_nat (i + 1)) by lia.
      apply indexNat_bound in Ei. cbn [String.length] in Ei.
      rewrite sliceFrom_nat by exact Ei. eexists. reflexivity.
    + eexists. reflexivity.
  - rewrite (extractScopeSuffix_absent _ E). eexists. reflexivity.
Qed.

Lemma TrimRight_no_trailing (s : string) :
  HasSuffix s "/" = false -> TrimRight s "/" = s.
Proof.
  induction s as [|c s IH]; intros H; [reflexivity|].
  destruct s as [|d s].
  - unfold HasSuffix in H. cbn in H. cbn.
    destruct (Ascii.eqb c "/") eqn:E; [|reflexivity].
    apply Ascii.eqb_eq in E. subst c. discriminate.
  - assert (Hs : HasSuffix (String d s) "/" = false).
    { unfold HasSuffix, len in *. cbn [String.length] in *.
      replace (Z.of_nat 1 <=? Z.of_nat (S (String.length s))) with true
        by (symmetry; apply Z.leb_le; lia).
      replace (Z.of_nat 1 <=? Z.of_nat (S (S (String.length s)))) with true in H
        by (symmetry; apply Z.leb_le; lia).
      cbn [andb] in *.
      replace (S (S (String.length s)) - 1)%nat with (S (String.length s)) in H by lia.
      replace (S (String.length s) - 1)%nat with (String.length s) by lia.
      exact H. }
    specialize (IH Hs). cbn [TrimRight] in *. rewrite IH. reflexivity.
Qed.

Lemma buildScopeFromSuffix_shape (sub rg inst suffix : string) :
  suffix <> "" ->
  buildScopeFromSuffix sub rg inst suffix =
  ("/subscriptions/" ++ sub ++ "/resourceGroups/" ++ rg ++ "/providers/Microsoft.ApiManagement")
    ++ "/service/" ++ inst ++ "/" ++ suffix.
Proof.
  intros H. unfold buildScopeFromSuffix.
  apply String.eqb_neq in H. rewrite H.
  change ("/providers/Microsoft.ApiManagement/service/" ++ inst)
    with ("/providers/Microsoft.ApiManagement" ++ "/service/" ++ inst).
  now rewrite !append_assoc.
Qed.

(** *** The round trip through [buildScopeFromSuffix] *)

(** C4, as stated, fails: a suffix that ends in a slash is non-empty and
    holds no marker, and comes back without its trailing slash. *)
Lemma extract_build_trailing_slash :
  "products/p1/" <> "" /\
  Contains "products/p1/" "/service/" = false /\
  extractScopeSuffix (buildScopeFromSuffix "sub1" "rg1" "apim1" "products/p1/")
    = Some "products/p1" /\
  extractScopeSuffix (buildScopeFromSuffix "sub1" "rg1" "apim1" "products/p1/")
    <> Some "products/p1/".
Proof.
  split; [discriminate|]. split; [reflexivity|]. split; [reflexivity|].
  vm_compute. discriminate.
Qed.

(** C4, amended: for an instance name that is one path segment, and a
    non-empty suffix such that no [/service/] marker occurs after the one
    [buildScopeFromSuffix] writes (none in [/<instance>/<suffix>]),
    extracting from the built scope returns the suffix without its trailing
    slashes; it is exactly the suffix when the suffix does not end in a
    slash. *)
Theorem extract_build_roundtrip (sub rg inst suffix : string) :
  suffix <> "" ->
  Contains inst "/" = false ->
  Contains ("/" ++ inst ++ "/" ++ suffix) "/service/" = false ->
  extractScopeSuffix (buildScopeFromSuffix sub rg inst suffix) = Some (TrimRight suffix "/") /\
  (HasSuffix suffix "/" = false ->
   extractScopeSuffix (buildScopeFromSuffix sub rg inst suffix) = Some suffix).
Proof.
  intros Hne Hinst Hmark.
  apply Contains_false in Hinst. apply Contains_false in Hmark.
  assert (E : extractScopeSuffix (buildScopeFromSuffix sub rg inst suffix)
              = Some (TrimRight suffix "/")).
  { rewrite buildScopeFromSuffix_shape by exact Hne.
    rewrite extractScopeSuffix_last by (apply no_later_marker; exact Hmark).
    apply suffixOfRest_split. exact Hinst. }
  split; [exact E|].
  intros Hs. rewrite E. now rewrite TrimRight_no_trailing.
Qed.

Lemma extract_build_roundtrip_witness :
  extractScopeSuffix (buildScopeFromSuffix "sub1" "rg1" "apim1" "products/p1")
    = Some "products/p1".
Proof.
  apply (extract_build_roundtrip "sub1" "rg1" "apim1" "products/p1");
    [discriminate | reflexivity | reflexivity | reflexivity].
Defined.

(** *** The algorithm of [extractScopeSuffix] *)

(** C5, as stated, fails: the code removes every trailing slash, not
    one. *)
Lemma extractScopeSuffix_strips_all_slashes :
  extractScopeSuffix "/subscriptions/x/service/myinstance/products/p1//" = Some "products/p1" /\
  ExtractSuffix_spec "/subscriptions/x/service/myinstance/products/p1//" = "products/p1/" /\
  extractScopeSuffix "/subscriptions/x/service/myinstance/products/p1//"
    <> Some (ExtractSuffix_spec "/subscriptions/x/service/myinstance/products/p1//").
Proof.
  split; [reflexivity|]. split; [reflexivity|]. vm_compute. discriminate.
Qed.

(** C5, amended: [extractScopeSuffix] never fails; it returns the empty
    string when the marker does not occur; when the last marker is followed
    by [rest], it returns the empty string if [rest] has no slash, and
    otherwise what follows the first slash of [rest] with ALL its trailing
    slashes removed; it returns the empty string for a scope that ends in
    [/service/<instance>] or [/service/<instance>/]. *)
Theorem extractScopeSuffix_algorithm (scope : string) :
  (exists out, extractScopeSuffix scope = Some out) /\
  (Contains scope "/service/" = false -> extractScopeSuffix scope = Some "") /\
  (forall p rest,
      scope = p ++ "/service/" ++ rest ->
      LastIndex scope "/service/" = len p ->
      (Contains rest "/" = false -> extractScopeSuffix scope = Some "") /\
      (forall inst after,
          rest = inst ++ "/" ++ after ->
          Contains inst "/" = false ->
          extractScopeSuffix scope = Some (TrimRight after "/"))) /\
  (forall p inst,
      Contains inst "/" = false ->
      scope = p ++ "/service/" ++ inst \/ scope = p ++ "/service/" ++ inst ++ "/" ->
      extractScopeSuffix scope = Some "").
Proof.
  split; [apply extractScopeSuffix_total|].
  split.
  { intros H. apply Contains_false in H. apply extractScopeSuffix_absent.
    now apply indexNat_None_last. }
  split.
  - intros p rest Hscope Hlast.
    assert (E : extractScopeSuffix scope = suffixOfRest rest).
    { unfold LastIndex, len in Hlast.
      destruct (lastIndexNat scope "/service/") as [j|] eqn:Ej; cbn [orMinusOne] in Hlast; [|lia].
      apply Nat2Z.inj in Hlast. subst j.
      rewrite (extractScopeSuffix_at _ _ Ej), Hscope.
      rewrite drop_append_plus. reflexivity. }
    split.
    + intros H. apply Contains_false in H. rewrite E. now apply suffixOfRest_no_slash.
    + intros inst after Hrest H. apply Contains_false in H.
      rewrite E, Hrest. now apply suffixOfRest_split.
  - intros p inst H Hscope. apply Contains_false in H.
    destruct Hscope as [-> | ->].
    + destruct (extractScopeSuffix_tail p inst) as [k ->].
      apply suffixOfRest_no_slash. now apply indexNat_slash_drop.
    + destruct (extractScopeSuffix_tail p (inst ++ "/")) as [k ->].
      destruct (Nat.le_gt_cases k (String.length inst)) as [Hk|Hk].
      * rewrite drop_append_le by exact Hk.
        exact (suffixOfRest_split (drop k inst) "" (indexNat_slash_drop _ k H)).
      * rewrite drop_all by (rewrite length_append; simpl; lia). reflexivity.
Qed.

Lemma extractScopeSuffix_algorithm_witness :
  extractScopeSuffix "/subscriptions/x/service/myinstance/products/p1//" = Some "products/p1" /\
  extractScopeSuffix "/subscriptions/x/service/myinstance/" = Some "".
Proof.
  split.
  - destruct (extractScopeSuffix_algorithm "/subscriptions/x/service/myinstance/products/p1//")
      as (_ & _ & H & _).
    exact (proj2 (H "/subscriptions/x" "myinstance/products/p1//" eq_refl eq_refl)
             "myinstance" "products/p1//" eq_refl eq_refl).
  - destruct (extractScopeSuffix_algorithm "/subscriptions/x/service/myinstance/")
      as (_ & _ & _ & H).
    exact (H "/subscriptions/x" "myinstance" eq_refl (or_intror eq_refl)).
Defined.

(** ** Running a computation *)

Lemma bind_run {A B} (m : M A) (k : A -> M B) (t t' : Trace) (a : A) :
  m t = (Some a, t') -> bind m k t = k a t'.
Proof. intros H. unfold bind. now rewrite H. Qed.

Lemma bind_emit {B} (e : Event) (k : unit -> M B) (t : Trace) :
  bind (emit e) k t = k tt (t ++ [e])%list.
Proof. reflexivity. Qed.

Lemma bind_ret {A B} (a : A) (k : A -> M B) (t : Trace) : bind (ret a) k t = k a t.
Proof. reflexivity. Qed.

Lemma bind_call {A B} (e : Event) (answer : Trace -> A) (k : A -> M B) (t : Trace) :
  bind (call e answer) k t = k (answer t) (t ++ [e])%list.
Proof. reflexivity. Qed.

Lemma when_run (b : bool) (e : Event) (t : Trace) :
  when b (emit e) t = (Some tt, (t ++ lineIf b e)%list).
Proof. destruct b; simpl; [reflexivity | now rewrite app_nil_r]. Qed.

(** ** The comparator *)

Lemma printIfDiffers_run (format a b : string) (t : Trace) :
  printIfDiffers format a b t = (Some tt, (t ++ differs format a b)%list).
Proof. apply when_run. Qed.

Lemma printAttributeDifferences_run (subA subB : SubscriptionInfo) (t : Trace) :
  printAttributeDifferences subA subB t = (Some tt, (t ++ attributeDifferences subA subB)%list).
Proof.
  unfold printAttributeDifferences, attributeDifferences.
  repeat (first [ erewrite bind_run by apply printIfDiffers_run
                | erewrite bind_run by apply when_run ]).
  rewrite printIfDiffers_run. rewrite <- !app_assoc. reflexivity.
Qed.

Lemma compareWithB_run (subA : SubscriptionInfo) (subsB : list SubscriptionInfo)
    (n : CompareTally) (t : Trace) :
  compareWithB subA subsB n t =
  match find (sameKeys subA) subsB with
  | None => (Some (false, n), t)
  | Some _ => (Some (true, bump (classify subA subsB) n), (t ++ reportOf subA subsB)%list)
  end.
Proof.
  induction subsB as [|subB subsB IH]; [reflexivity|].
  unfold classify, reportOf. cbn [compareWithB find].
  destruct (sameKeys subA subB) eqn:K.
  - destruct (attributesEqual subA subB) eqn:E.
    + reflexivity.
    + rewrite bind_emit. erewrite bind_run by apply printAttributeDifferences_run.
      cbn [ret bump]. rewrite <- app_assoc. reflexivity.
  - rewrite IH. unfold classify, reportOf. reflexivity.
Qed.

Lemma compareOne_run (subA : SubscriptionInfo) (subsB : list SubscriptionInfo)
    (n : CompareTally) (t : Trace) :
  compareOne subA subsB n t =
  (Some (bump (classify subA subsB) n), (t ++ reportOf subA subsB)%list).
Proof.
  unfold compareOne, bind. rewrite compareWithB_run.
  unfold classify, reportOf.
  destruct (find (sameKeys subA) subsB) as [subB|]; reflexivity.
Qed.

Lemma countOutcome_cons (o : Outcome) (subA : SubscriptionInfo) (subsA subsB : list SubscriptionInfo) :
  countOutcome o (subA :: subsA) subsB =
  ((if Outcome_eqb (classify subA subsB) o then 1 else 0) + countOutcome o subsA subsB)%nat.
Proof.
  unfold countOutcome. cbn [filter].
  destruct (Outcome_eqb (classify subA subsB) o); reflexivity.
Qed.

Lemma compareLoop_run (subsA subsB : list SubscriptionInfo) (n : CompareTally) (t : Trace) :
  compareLoop subsA subsB n t =
  (Some {| matched := matched n + countOutcome Matched subsA subsB;
           missing := missing n + countOutcome Missing subsA subsB;
           mismatch := mismatch n + countOutcome Mismatched subsA subsB |},
   (t ++ flat_map (fun subA => reportOf subA subsB) subsA)%list).
Proof.
  revert n t. induction subsA as [|subA subsA IH]; intros n t.
  - cbn. rewrite !Nat.add_0_r, app_nil_r. now destruct n.
  - cbn [compareLoop flat_map].
    erewrite bind_run by apply compareOne_run. rewrite IH.
    rewrite !countOutcome_cons, <- app_assoc.
    destruct (classify subA subsB); cbn; f_equal; f_equal; f_equal; lia.
Qed.

Lemma countOutcome_total (subsA subsB : list SubscriptionInfo) :
  (countOutcome Matched subsA subsB + countOutcome Mismatched subsA subsB
   + countOutcome Missing subsA subsB = List.length subsA)%nat.
Proof.
  induction subsA as [|subA subsA IH]; [reflexivity|].
  rewrite !countOutcome_cons. cbn [List.length].
  destruct (classify subA subsB); cbn; lia.
Qed.

Lemma all_matched_iff (subsA subsB : list SubscriptionInfo) :
  countOutcome Missing subsA subsB = O /\ countOutcome Mismatched subsA subsB = O <->
  forall subA, In subA subsA -> classify subA subsB = Matched.
Proof.
  induction subsA as [|subA subsA IH].
  - split; [intros _ x [] | intros _; split; reflexivity].
  - rewrite !countOutcome_cons. split.
    + intros [Hmiss Hmism] x [E | Hx].
      * subst x. destruct (classify subA subsB); cbn in *; [reflexivity | lia | lia].
      * apply IH; [|exact Hx].
        destruct (classify subA subsB); cbn in *; split; lia.
    + intros H.
      rewrite (H subA (or_introl eq_refl)). cbn.
      apply IH. intros x Hx. apply H. now right.
Qed.

Lemma classify_Matched_iff (subA : SubscriptionInfo) (subsB : list SubscriptionInfo) :
  classify subA subsB = Matched <-> matchedByFirst subA subsB.
Proof.
  unfold classify, matchedByFirst. split.
  - destruct (find (sameKeys subA) subsB) as [subB|]; [|discriminate].
    destruct (attributesEqual subA subB) eqn:E; [|discriminate].
    intros _. now exists subB.
  - intros [subB [-> ->]]. reflexivity.
Qed.

Lemma matchedByFirst_somewhere (subA : SubscriptionInfo) (subsB : list SubscriptionInfo) :
  matchedByFirst subA subsB -> matchedSomewhere subA subsB.
Proof.
  intros [subB [Hf He]]. apply find_some in Hf as [Hin Hk]. now exists subB.
Qed.

Lemma sameKeys_trans_l (a b b' : SubscriptionInfo) :
  sameKeys a b = true -> sameKeys a b' = true -> sameKeys b b' = true.
Proof.
  unfold sameKeys. intros H H'.
  apply andb_true_iff in H as [H1 H2]. apply andb_true_iff in H' as [H1' H2'].
  apply String.eqb_eq in H1, H2, H1', H2'.
  rewrite <- H1, <- H2, H1', H2', !String.eqb_refl. reflexivity.
Qed.

(** When no two records of B share a key pair, the two readings of
    "matched" agree. *)
Lemma matchedSomewhere_unique_keys (subA : SubscriptionInfo) (subsB : list SubscriptionInfo) :
  (forall b b', In b subsB -> In b' subsB -> sameKeys b b' = true -> b = b') ->
  matchedSomewhere subA subsB -> matchedByFirst subA subsB.
Proof.
  intros Huniq [subB (Hin & Hk & He)]. unfold matchedByFirst.
  destruct (find (sameKeys subA) subsB) as [b'|] eqn:Hf.
  - exists b'. split; [reflexivity|].
    apply find_some in Hf as [Hin' Hk'].
    now rewrite <- (Huniq subB b' Hin Hin' (sameKeys_trans_l _ _ _ Hk Hk')).
  - rewrite (find_none _ _ Hf subB Hin) in Hk. discriminate.
Qed.

(** C6, as stated, fails: the key pair of the only record of A is found
    in B with all compared attributes equal (the second record of B is
    that very record), and the comparison still fails, because an earlier
    record of B carries the same key pair with another display name. *)
Lemma compare_first_key_pair_decides :
  let a := mkSub "s1" "App" "/scope" "k1" "k2" "" in
  let b := mkSub "s9" "Other" "/scope" "k1" "k2" "" in
  (forall subA, In subA (filterOutMaster [a]) -> matchedSomewhere subA (filterOutMaster [b; a])) /\
  fst (compareSnapshots [a] [b; a] []) =
    Some (Some (Errorf "%d key(s) missing or attributes differ" [ArgInt 1])).
Proof.
  split.
  - intros subA [<- | []]. exists (mkSub "s1" "App" "/scope" "k1" "k2" "").
    split; [right; left; reflexivity | split; reflexivity].
  - reflexivity.
Qed.

(** C6, amended: the comparison returns no error if and only if, after
    the master records are dropped from both sides, every record of A is
    matched by the FIRST record of B that carries its key pair (that record
    has all compared attributes equal); otherwise the error carries the
    count missing + mismatched; in both cases the whole report (the lines
    of every record of A, then the summary) has been printed before the
    return. *)
Theorem compareSnapshots_result (subsA subsB : list SubscriptionInfo) (t : Trace) :
  let A := filterOutMaster subsA in
  let B := filterOutMaster subsB in
  let mism := countOutcome Mismatched A B in
  let miss := countOutcome Missing A B in
  exists res,
    compareSnapshots subsA subsB t =
      (Some res,
       (t ++ [Printf "\nFile A: %d subscription(s) (master excluded)\n" [ArgInt (List.length A)];
              Printf "File B: %d subscription(s) (master excluded)\n" [ArgInt (List.length B)]]
          ++ flat_map (fun subA => reportOf subA B) A
          ++ [Printf "\nComparison complete: %d matched, %d mismatched, %d missing (out of %d total)\n"
                [ArgInt (countOutcome Matched A B); ArgInt mism; ArgInt miss;
                 ArgInt (List.length A)]])%list) /\
    (res = None <-> forall subA, In subA A -> matchedByFirst subA B) /\
    (res <> None ->
     res = Some (Errorf "%d key(s) missing or attributes differ" [ArgInt (miss + mism)])) /\
    (countOutcome Matched A B + mism + miss = List.length A)%nat.
Proof.
  intros A B mism miss.
  pose proof (all_matched_iff A B) as Hall. fold miss mism in Hall.
  exists (if (0 <? miss)%nat || (0 <? mism)%nat
          then Some (Errorf "%d key(s) missing or attributes differ" [ArgInt (miss + mism)])
          else None).
  split; [|split; [|split]].
  - unfold compareSnapshots. fold A B.
    rewrite !bind_emit. erewrite bind_run by apply compareLoop_run.
    rewrite bind_emit. cbn [matched missing mismatch Nat.add]. fold miss mism.
    rewrite <- !app_assoc. cbn [app].
    destruct ((0 <? miss)%nat || (0 <? mism)%nat); reflexivity.
  - split.
    + intros H x Hx. apply classify_Matched_iff. apply Hall; [|exact Hx].
      destruct (0 <? miss)%nat eqn:E1; [discriminate|].
      destruct (0 <? mism)%nat eqn:E2; [discriminate|].
      apply Nat.ltb_ge in E1, E2. split; lia.
    + intros H.
      assert (Hz : miss = O /\ mism = O).
      { apply Hall. intros x Hx. apply classify_Matched_iff. now apply H. }
      destruct Hz as [-> ->]. reflexivity.
  - destruct ((0 <? miss)%nat || (0 <? mism)%nat); [reflexivity | congruence].
  - apply countOutcome_total.
Qed.

Lemma in_differs (e : Event) (format a b : string) :
  In e (differs format a b) -> e = Printf format [ArgString a; ArgString b] /\ a <> b.
Proof.
  unfold differs, lineIf. destruct (String.eqb a b) eqn:E; cbn; [intros []|].
  intros [<- | []]. split; [reflexivity | now apply String.eqb_neq].
Qed.

Lemma in_lineIf (e e' : Event) (b : bool) : In e (lineIf b e') -> e = e'.
Proof. destruct b; cbn; [intros [<- | []]; reflexivity | intros []]. Qed.

Lemma createdDate_line_printed (subA subB : SubscriptionInfo) :
  In (Printf "      createdDate: %q != %q\n"
        [ArgString (CreatedDate (Properties subA)); ArgString (CreatedDate (Properties subB))])
     (attributeDifferences subA subB)
  <-> CreatedDate (Properties subA) <> CreatedDate (Properties subB).
Proof.
  unfold attributeDifferences. split.
  - intros H.
    repeat (apply in_app_or in H; destruct H as [H | H]);
      try (apply in_differs in H; destruct H as [H Hne]; first [discriminate H | exact Hne]).
    apply in_lineIf in H. discriminate H.
  - intros Hne. do 5 (apply in_or_app; right). apply in_or_app; left.
    unfold differs, lineIf. apply String.eqb_neq in Hne. rewrite Hne. now left.
Qed.

(** C7: a pair with equal key pairs that agrees on displayName, scope,
    state, ownerId, allowTracing, startDate, endDate, expirationDate,
    notificationDate and stateComment is classified as matched, whatever
    the two createdDate values are; createdDate is read only by
    [printAttributeDifferences], which prints its line exactly when the two
    values differ. *)
Theorem createdDate_not_compared (subA subB : SubscriptionInfo)
    (subsB : list SubscriptionInfo) (n : CompareTally) (t : Trace) :
  PrimaryKey (Properties subA) = PrimaryKey (Properties subB) ->
  SecondaryKey (Properties subA) = SecondaryKey (Properties subB) ->
  DisplayName (Properties subA) = DisplayName (Properties subB) ->
  Scope (Properties subA) = Scope (Properties subB) ->
  State (Properties subA) = State (Properties subB) ->
  OwnerID (Properties subA) = OwnerID (Properties subB) ->
  AllowTracing (Properties subA) = AllowTracing (Properties subB) ->
  StartDate (Properties subA) = StartDate (Properties subB) ->
  EndDate (Properties subA) = EndDate (Properties subB) ->
  ExpirationDate (Properties subA) = ExpirationDate (Properties subB) ->
  NotificationDate (Properties subA) = NotificationDate (Properties subB) ->
  StateComment (Properties subA) = StateComment (Properties subB) ->
  attributesEqual subA subB = true /\
  classify subA (subB :: subsB) = Matched /\
  compareOne subA (subB :: subsB) n t =
    (Some {| matched := S (matched n); missing := missing n; mismatch := mismatch n |},
     (t ++ [Printf "  [OK]   %s\n" [ArgString (DisplayName (Properties subA))]])%list) /\
  (forall t', printAttributeDifferences subA subB t'
              = (Some tt, (t' ++ attributeDifferences subA subB)%list)) /\
  (In (Printf "      createdDate: %q != %q\n"
         [ArgString (CreatedDate (Properties subA)); ArgString (CreatedDate (Properties subB))])
      (attributeDifferences subA subB)
   <-> CreatedDate (Properties subA) <> CreatedDate (Properties subB)).
Proof.
  intros Hpk Hsk Hdn Hsc Hst How Hat Hsd Hed Hxd Hnd Hcm.
  assert (Heq : attributesEqual subA subB = true).
  { unfold attributesEqual.
    rewrite Hpk, Hsk, Hdn, Hsc, Hst, How, Hat, Hsd, Hed, Hxd, Hnd, Hcm.
    rewrite !String.eqb_refl, Bool.eqb_reflx. reflexivity. }
  assert (Hkeys : sameKeys subA subB = true).
  { unfold sameKeys. rewrite Hpk, Hsk, !String.eqb_refl. reflexivity. }
  assert (Hcl : classify subA (subB :: subsB) = Matched).
  { unfold classify. cbn [find]. now rewrite Hkeys, Heq. }
  split; [exact Heq|]. split; [exact Hcl|]. split.
  - rewrite compareOne_run, Hcl. unfold reportOf. cbn [find].
    now rewrite Hkeys, Heq.
  - split; [intros t'; apply printAttributeDifferences_run | apply createdDate_line_printed].
Qed.

Lemma createdDate_not_compared_witness :
  compareOne (mkSub "s1" "App" "/scope" "k1" "k2" "2024-01-01T00:00:00Z")
    [mkSub "s1" "App" "/scope" "k1" "k2" "2025-06-30T12:00:00Z"]
    {| matched := 0; missing := 0; mismatch := 0 |} []
  = (Some {| matched := 1; missing := 0; mismatch := 0 |},
     [Printf "  [OK]   %s\n" [ArgString "App"]]).
Proof.
  apply (createdDate_not_compared
           (mkSub "s1" "App" "/scope" "k1" "k2" "2024-01-01T00:00:00Z")
           (mkSub "s1" "App" "/scope" "k1" "k2" "2025-06-30T12:00:00Z")
           [] {| matched := 0; missing := 0; mismatch := 0 |} []);
    reflexivity.
Defined.

Lemma filterOutMaster_In (sub : SubscriptionInfo) (subs : list SubscriptionInfo) :
  In sub (filterOutMaster subs) <-> In sub subs /\ Name sub <> "master".
Proof.
  unfold filterOutMaster. rewrite filter_In, negb_true_iff, String.eqb_neq. reflexivity.
Qed.

(** C10: the comparator joins on string equality of the key pair alone: a
    record of A that is not the master record and whose two keys are empty
    is processed, and is classified matched or mismatched, never missing,
    as soon as B holds a record that is not the master record and whose two
    keys are empty. *)
Theorem empty_keys_are_joined (subsA subsB : list SubscriptionInfo) (subA : SubscriptionInfo)
    (n : CompareTally) (t : Trace) :
  In subA subsA ->
  Name subA <> "master" ->
  PrimaryKey (Properties subA) = "" ->
  SecondaryKey (Properties subA) = "" ->
  (exists subB, In subB subsB /\ Name subB <> "master" /\
                PrimaryKey (Properties subB) = "" /\ SecondaryKey (Properties subB) = "") ->
  In subA (filterOutMaster subsA) /\
  classify subA (filterOutMaster subsB) <> Missing /\
  exists n' lines,
    compareOne subA (filterOutMaster subsB) n t = (Some n', (t ++ lines)%list) /\
    missing n' = missing n /\
    (matched n' + mismatch n' = S (matched n + mismatch n))%nat /\
    ~ In (Printf "  [MISS] %s (primaryKey=%s)\n"
            [ArgString (DisplayName (Properties subA)); ArgString (PrimaryKey (Properties subA))])
         lines.
Proof.
  intros HinA HnA Hpk Hsk [subB (HinB & HnB & Hpk' & Hsk')].
  assert (HB : In subB (filterOutMaster subsB)) by now apply filterOutMaster_In.
  assert (Hk : sameKeys subA subB = true).
  { unfold sameKeys. now rewrite Hpk, Hsk, Hpk', Hsk'. }
  split; [now apply filterOutMaster_In|].
  destruct (find (sameKeys subA) (filterOutMaster subsB)) as [b|] eqn:Hf.
  2:{ rewrite (find_none _ _ Hf subB HB) in Hk. discriminate. }
  split.
  - unfold classify. rewrite Hf. destruct (attributesEqual subA b); discriminate.
  - exists (bump (classify subA (filterOutMaster subsB)) n),
           (reportOf subA (filterOutMaster subsB)).
    split; [apply compareOne_run|].
    unfold classify, reportOf. rewrite Hf.
    destruct (attributesEqual subA b); cbn [bump matched missing mismatch].
    + split; [reflexivity|]. split; [lia|].
      intros [H | []]. discriminate H.
    + split; [reflexivity|]. split; [lia|].
      intros [H | H]; [discriminate H|].
      unfold attributeDifferences in H.
      repeat (apply in_app_or in H; destruct H as [H | H]);
        try (apply in_differs in H; destruct H as [H _]; discriminate H).
      apply in_lineIf in H. discriminate H.
Qed.

Lemma empty_keys_are_joined_witness :
  classify (mkSub "s1" "App" "/scope" "" "" "")
    (filterOutMaster [mkSub "master" "Built-in" "/scope" "m1" "m2" "";
                      mkSub "s7" "Other" "/scope" "" "" ""]) <> Missing.
Proof.
  apply (empty_keys_are_joined
           [mkSub "s1" "App" "/scope" "" "" ""]
           [mkSub "master" "Built-in" "/scope" "m1" "m2" ""; mkSub "s7" "Other" "/scope" "" "" ""]
           (mkSub "s1" "App" "/scope" "" "" "")
           {| matched := 0; missing := 0; mismatch := 0 |} []).
  - left. reflexivity.
  - discriminate.
  - reflexivity.
  - reflexivity.
  - exists (mkSub "s7" "Other" "/scope" "" "" "").
    split; [right; left; reflexivity|]. split; [discriminate|]. split; reflexivity.
Defined.

(** ** The listing *)

(** The loop over a page can be cut at any record. *)
Lemma listPage_app (env : Env) (c : Client) (before after : list (option SubscriptionContract))
    (results : list SubscriptionInfo) (t : Trace) :
  listPage env c (before ++ after) results t =
  match listPage env c before results t with
  | (Some (inl results'), t') => listPage env c after results' t'
  | other => other
  end.
Proof.
  revert results t. induction before as [|sub before IH]; intros results t; [reflexivity|].
  cbn [app listPage].
  destruct sub as [sub|]; [|apply IH].
  destruct (wProperties sub) as [props|]; [|apply IH].
  destruct (wState props) as [state|]; [|reflexivity].
  cbn [orPanic]. rewrite !bind_ret, !bind_call.
  destruct (sdkListSecrets env t (resourceGroup c) (apimName c) (deref (wName sub)))
    as [secrets [err|]]; [reflexivity | apply IH].
Qed.

(** C3, as stated, fails: the secrets of the first of two listed records
    cannot be fetched; the listing returns that error and no record, and it
    never asks for the secrets of the second record. *)
Lemma listing_stops_at_secret_failure :
  let env := fakeEnv (fun _ => []) [([Some (mkContract "s1"); Some (mkContract "s2")], None)]
               ["s1"] [] in
  let client := {| subscriptionID := "sub1"; resourceGroup := "rg1"; apimName := "apim1" |} in
  ListSubscriptions env client "" [] =
    (Some ([], Some (Errorf "failed to get secrets for subscription %s: %w"
                       [ArgString "s1"; ArgError (ExternalError "secrets unavailable")])),
     [EvNextPage; EvListSecrets "rg1" "apim1" "s1"]) /\
  ~ In (EvListSecrets "rg1" "apim1" "s2") (snd (ListSubscriptions env client "" [])).
Proof.
  split; [reflexivity|].
  cbn. intros [H | [H | []]]; discriminate H.
Qed.

(** C3, amended: when the secret-fetch call of a listed record fails, the
    listing stops at that call: it returns the failure, wrapped with the
    name of the record, and no record at all (the records collected so far
    are dropped), and neither the records after it nor the later pages are
    processed. *)
Theorem secret_failure_aborts_listing (env : Env) (c : Client)
    (before after : list (option SubscriptionContract)) (pages : list PageResponse)
    (sub : SubscriptionContract) (props : SubscriptionContractProperties) (state : string)
    (results collected : list SubscriptionInfo) (t t1 : Trace)
    (secrets : SubscriptionKeysContract) (err : error) :
  wProperties sub = Some props ->
  wState props = Some state ->
  listPage env c before results (t ++ [EvNextPage])%list = (Some (inl collected), t1) ->
  sdkListSecrets env t1 (resourceGroup c) (apimName c) (deref (wName sub)) = (secrets, Some err) ->
  listPages env c ((before ++ Some sub :: after, None) :: pages)%list results t =
    (Some ([], Some (Errorf "failed to get secrets for subscription %s: %w"
                       [ArgString (deref (wName sub)); ArgError err])),
     (t1 ++ [EvListSecrets (resourceGroup c) (apimName c) (deref (wName sub))])%list).
Proof.
  intros Hprops Hstate Hbefore Hsecrets.
  cbn [listPages]. rewrite bind_emit.
  unfold bind at 1. rewrite listPage_app, Hbefore.
  cbn [listPage]. rewrite Hprops, Hstate. cbn [orPanic].
  rewrite bind_ret, bind_call, Hsecrets. reflexivity.
Qed.

Lemma secret_failure_aborts_listing_witness :
  listPages (fakeEnv (fun _ => []) [] ["s2"] [])
    {| subscriptionID := "sub1"; resourceGroup := "rg1"; apimName := "apim1" |}
    [([Some (mkContract "s1"); Some (mkContract "s2"); Some (mkContract "s3")], None);
     ([Some (mkContract "s4")], None)] [] []
  = (Some ([], Some (Errorf "failed to get secrets for subscription %s: %w"
                       [ArgString "s2"; ArgError (ExternalError "secrets unavailable")])),
     [EvNextPage; EvListSecrets "rg1" "apim1" "s1"; EvListSecrets "rg1" "apim1" "s2"]).
Proof.
  apply (secret_failure_aborts_listing
           (fakeEnv (fun _ => []) [] ["s2"] [])
           {| subscriptionID := "sub1"; resourceGroup := "rg1"; apimName := "apim1" |}
           [Some (mkContract "s1")] [Some (mkContract "s3")] [([Some (mkContract "s4")], None)]
           (mkContract "s2")
           {| wOwnerID := None; wScope := Some "/scope"; wDisplayName := Some "s2";
              wState := Some "active"; wStateComment := None; wAllowTracing := None;
              wCreatedDate := None; wStartDate := None; wEndDate := None;
              wExpirationDate := None; wNotificationDate := None |}
           "active" []
           [{| ID := "s1"; Name := "s1"; Type_ := "";
               Properties := {| OwnerID := ""; Scope := "/scope"; DisplayName := "s1";
                                State := "active"; CreatedDate := ""; StartDate := "";
                                EndDate := ""; ExpirationDate := ""; NotificationDate := "";
                                PrimaryKey := "pk-s1"; SecondaryKey := "sk-s1";
                                StateComment := ""; AllowTracing := false |} |}]
           [] [EvNextPage; EvListSecrets "rg1" "apim1" "s1"]
           {| kPrimaryKey := None; kSecondaryKey := None |}
           (ExternalError "secrets unavailable"));
    reflexivity.
Defined.

(** ** Delete *)

Lemma deleteOne_skip (env : Env) (f : DeleteFlags) (client : Client) (sub : SubscriptionInfo)
    (n : DeleteTally) (t : Trace) :
  deleteAll f = false ->
  Name sub = "master" ->
  deleteOne env f client sub n t =
  (Some {| deleted := deleted n; skipped := S (skipped n); failed := failed n |},
   (t ++ [Printf "  [SKIP] %s (built-in)\n" [ArgString (DisplayName (Properties sub))]])%list).
Proof. intros Hall Hname. unfold deleteOne. rewrite Hall, Hname. reflexivity. Qed.

Lemma deleteOne_normal (env : Env) (f : DeleteFlags) (client : Client) (sub : SubscriptionInfo)
    (n : DeleteTally) (t : Trace) :
  deleteAll f = true \/ Name sub <> "master" ->
  deleteOne env f client sub n t = deletedNormally env f client sub n t.
Proof.
  intros H. unfold deleteOne, deletedNormally.
  replace (negb (deleteAll f) && String.eqb (Name sub) "master") with false.
  2:{ destruct H as [-> | H]; [reflexivity|].
      apply String.eqb_neq in H. rewrite H. now rewrite andb_false_r. }
  destruct (deleteDryRun f); [reflexivity|].
  rewrite bind_emit. unfold DeleteSubscription. unfold bind at 1. rewrite bind_call.
  destruct (sdkDelete env _ (resourceGroup client) (apimName client) (Name sub) "*");
    cbn; rewrite <- !app_assoc; reflexivity.
Qed.





(** ** Restore and the master record *)

(** C1 does not hold of the code: neither variant of [runRestore] looks at
    the name of a record.  For a backup that holds the master record alone,
    the suffix variant issues the create call for [master] and counts it as
    succeeded; the product variant counts it as failed (its scope is the
    instance itself, so no product id can be extracted).  No tally of
    skipped records exists, and no flag includes or excludes the record. *)
Theorem restore_does_not_skip_master :
  let master :=
    mkSub "master" "Built-in all-access subscription"
      "/subscriptions/src/resourceGroups/rg1/providers/Microsoft.ApiManagement/service/apim1/"
      "m1" "m2" "" in
  let env := fakeEnv (fun _ => [master]) [] [] [] in
  let f := {| restoreResourceGroup := "rg2"; restoreAPIMName := "apim2";
              restoreSubscription := "sub2"; restoreInput := "backup.json";
              restoreDryRun := false |} in
  RestoreBySuffix.runRestore env f [] =
    (Some None,
     [Printf "Restoring subscription keys to APIM instance: %s\n" [ArgString "apim2"];
      Printf "Resource Group: %s\n" [ArgString "rg2"];
      Printf "Input file: %s\n" [ArgString "backup.json"];
      Printf "Subscription ID: %s\n" [ArgString "sub2"];
      EvReadFile "backup.json";
      Printf "\nFound %d subscription(s) to restore\n" [ArgInt 1];
      Println "\nAuthenticating with Azure CLI...";
      EvNewClient "sub2" "rg2" "apim2";
      Println "Successfully authenticated with Azure CLI";
      Printf "  Restoring: %s (sid=%s, scope=%s)...\n"
        [ArgString "Built-in all-access subscription"; ArgString "master"; ArgString "(instance)"];
      EvCreateOrUpdate "rg2" "apim2" "master"
        {| pScope := Some "/subscriptions/sub2/resourceGroups/rg2/providers/Microsoft.ApiManagement/service/apim2";
           pDisplayName := Some "Built-in all-access subscription";
           pPrimaryKey := Some "m1"; pSecondaryKey := Some "m2"; pOwnerID := None;
           pAllowTracing := Some false; pState := Some "active" |};
      EvListSecrets "rg2" "apim2" "master";
      Printf "  [OK]   %s\n" [ArgString "Built-in all-access subscription"];
      Printf "\nRestore complete: %d succeeded, %d failed (out of %d total)\n"
        [ArgInt 1; ArgInt 0; ArgInt 1]]) /\
  RestoreByProduct.runRestore env f [] =
    (Some (Some (Errorf "%d subscription(s) failed to restore" [ArgInt 1])),
     [Printf "Restoring subscription keys to APIM instance: %s\n" [ArgString "apim2"];
      Printf "Resource Group: %s\n" [ArgString "rg2"];
      Printf "Input file: %s\n" [ArgString "backup.json"];
      Printf "Subscription ID: %s\n" [ArgString "sub2"];
      EvReadFile "backup.json";
      Printf "\nFound %d subscription(s) to restore\n" [ArgInt 1];
      Println "\nAuthenticating with Azure CLI...";
      EvNewClient "sub2" "rg2" "apim2";
      Println "Successfully authenticated with Azure CLI";
      Printf "  [SKIP] %s (%s) — could not extract product ID from scope\n"
        [ArgString "Built-in all-access subscription"; ArgString "master"];
      Printf "\nRestore complete: %d succeeded, %d failed (out of %d total)\n"
        [ArgInt 0; ArgInt 1; ArgInt 1]]).
Proof. split; reflexivity. Qed.

(** ** Backup and a failed listing *)

(** C2 does not hold of the code: [runBackup] never reads the error of
    [ListSubscriptions] (the variable is overwritten by the result of
    [MarshalIndent]).  When the first page of the listing fails, both
    variants write the marshalled empty listing to the snapshot file and
    return no error. *)
Theorem backup_ignores_listing_error :
  let env := fakeEnv (fun _ => []) [([], Some (ExternalError "listing failed"))] [] [] in
  let f := {| backupResourceGroup := "rg1"; backupAPIMName := "apim1";
              backupSubscription := "sub1"; backupProductID := ""; backupOutput := "" |} in
  let client := {| subscriptionID := "sub1"; resourceGroup := "rg1"; apimName := "apim1" |} in
  ListSubscriptions env client "" [] =
    (Some ([], Some (Errorf "failed to list subscriptions: %w"
                       [ArgError (ExternalError "listing failed")])),
     [EvNextPage]) /\
  BackupWithOutput.runBackup env f [] =
    (Some None,
     [Printf "Backing up subscription keys from APIM instance: %s\n" [ArgString "apim1"];
      Printf "Resource Group: %s\n" [ArgString "rg1"];
      Printf "Subscription ID: %s\n" [ArgString "sub1"];
      EvMkdirAll "backup/rg1/apim1";
      Printf "Backup directory: %s\n" [ArgString "backup/rg1/apim1"];
      Println "\nAuthenticating with Azure CLI...";
      EvNewClient "sub1" "rg1" "apim1";
      Println "\nFetching subscriptions...";
      EvNextPage;
      Printf "\nFound %d subscription(s)\n" [ArgInt 0];
      EvWriteFile "backup/rg1/apim1/subscriptions.json" "null";
      Printf "Backup saved to: %s\n" [ArgString "backup/rg1/apim1/subscriptions.json"];
      Println "Backup completed successfully"]) /\
  BackupToDir.runBackup env f [] =
    (Some None,
     [Printf "Backing up subscription keys from APIM instance: %s\n" [ArgString "apim1"];
      Printf "Resource Group: %s\n" [ArgString "rg1"];
      Printf "Subscription ID: %s\n" [ArgString "sub1"];
      EvMkdirAll "backup/rg1/apim1";
      Printf "Backup directory: %s\n" [ArgString "backup/rg1/apim1"];
      Println "\nAuthenticating with Azure CLI...";
      EvNewClient "sub1" "rg1" "apim1";
      Println "Successfully authenticated with Azure CLI";
      Println "\nFetching subscriptions...";
      EvNextPage;
      Printf "\nFound %d subscription(s)\n" [ArgInt 0];
      EvWriteFile "backup/rg1/apim1/subscriptions.json" "null";
      Printf "Backup saved to: %s\n" [ArgString "backup/rg1/apim1/subscriptions.json"];
      Println "Backup completed successfully"]).
Proof. split; [|split]; reflexivity. Qed.

(** ** The two restore variants *)


Lemma indexNat_slash_None_cons (c : ascii) (s : string) :
  indexNat (String c s) "/" = None -> Ascii.eqb "/" c = false /\ indexNat s "/" = None.
Proof.
  rewrite indexNat_slash_cons. destruct (Ascii.eqb "/" c); [discriminate|].
  destruct (indexNat s "/"); [discriminate|]. now split.
Qed.

Lemma TrimRight_no_slash (s : string) : indexNat s "/" = None -> TrimRight s "/" = s.
Proof.
  induction s as [|c s IH]; intros H; [reflexivity|].
  apply indexNat_slash_None_cons in H as [Hc Hs].
  cbn [TrimRight]. rewrite (IH Hs).
  destruct s; [|reflexivity].
  cbn [inCutset]. rewrite Ascii.eqb_sym, Hc. reflexivity.
Qed.

Lemma TrimRight_append_no_slash (x s : string) :
  indexNat s "/" = None -> s <> "" -> TrimRight (x ++ s) "/" = x ++ s.
Proof.
  intros Hs Hne. induction x as [|c x IH]; [now apply TrimRight_no_slash|].
  change (String c x ++ s) with (String c (x ++ s)). cbn [TrimRight]. rewrite IH.
  destruct (x ++ s) eqn:E; [|reflexivity].
  destruct x; [|discriminate]. now elim Hne.
Qed.

Lemma lastIndexNat_no_slash (s m : string) :
  indexNat s "/" = None -> lastIndexNat s (String "/" m) = None.
Proof.
  induction s as [|c s IH]; intros H; [reflexivity|].
  apply indexNat_slash_None_cons in H as [Hc Hs].
  cbn [lastIndexNat]. rewrite (IH Hs), prefix_cons, Hc. reflexivity.
Qed.

Lemma prefix_products_no_slash (id : string) :
  indexNat id "/" = None -> prefix "products/" id = false.
Proof.
  intros H. destruct (prefix "products/" id) eqn:E; [|reflexivity].
  destruct (prefix_inv _ _ E) as [t ->].
  change ("products/" ++ t) with
    (String "p" (String "r" (String "o" (String "d" (String "u" (String "c"
       (String "t" (String "s" (String "/" t))))))))) in H.
  rewrite !indexNat_slash_cons in H. cbn in H. discriminate.
Qed.

Lemma extractProductID_last (p id : string) :
  indexNat id "/" = None -> extractProductID (p ++ "/products/" ++ id) = Some id.
Proof.
  intros H.
  assert (L : lastIndexNat (p ++ "/products/" ++ id) "/products/" = Some (String.length p)).
  { rewrite (lastIndexNat_shift p ("/products/" ++ id) "/products/" 0); [f_equal; lia|].
    change ("/products/" ++ id) with
      (String "/" (String "p" (String "r" (String "o" (String "d" (String "u" (String "c"
         (String "t" (String "s" (String "/" id)))))))))).
    cbn [lastIndexNat]. rewrite (lastIndexNat_no_slash id _ H).
    rewrite (prefix_cons "/" "/" "products/" id), (prefix_products_no_slash id H).
    cbn. now rewrite prefix_empty. }
  unfold extractProductID, LastIndex. rewrite L. cbn [orMinusOne].
  replace (Z.of_nat (String.length p) =? -1) with false by (symmetry; apply Z.eqb_neq; lia).
  replace (Z.of_nat (String.length p) + len "/products/")
    with (Z.of_nat (String.length p + 10)) by (unfold len; simpl; lia).
  rewrite sliceFrom_nat by (rewrite length_append; simpl; lia).
  rewrite drop_append_plus. reflexivity.
Qed.

Lemma append_assoc6 (a b c d e f tail : string) :
  (a ++ b ++ c ++ d ++ e ++ f) ++ tail = a ++ b ++ c ++ d ++ e ++ f ++ tail.
Proof. now rewrite !append_assoc. Qed.

(** Where the two restore variants do build the same target scope: the
    instance name is one path segment and no [/service/] marker follows the
    one before it. *)
Lemma restore_scopes_agree (p inst id sub rg apim : string) :
  id <> "" ->
  Contains id "/" = false ->
  Contains inst "/" = false ->
  Contains ("/" ++ inst ++ "/products/" ++ id) "/service/" = false ->
  extractScopeSuffix (p ++ "/service/" ++ inst ++ "/products/" ++ id) = Some ("products/" ++ id) /\
  extractProductID (p ++ "/service/" ++ inst ++ "/products/" ++ id) = Some id /\
  buildScopeFromSuffix sub rg apim ("products/" ++ id) = buildScope sub rg apim id.
Proof.
  intros Hne Hid Hinst Hmark.
  apply Contains_false in Hid, Hinst, Hmark.
  split; [|split].
  - rewrite extractScopeSuffix_last by (apply no_later_marker; exact Hmark).
    change (inst ++ "/products/" ++ id) with (inst ++ "/" ++ "products/" ++ id).
    rewrite (suffixOfRest_split inst _ Hinst).
    now rewrite TrimRight_append_no_slash.
  - replace (p ++ "/service/" ++ inst ++ "/products/" ++ id)
      with ((p ++ "/service/" ++ inst) ++ "/products/" ++ id)
      by now rewrite !append_assoc.
    now apply extractProductID_last.
  - unfold buildScopeFromSuffix, buildScope.
    change (String.eqb ("products/" ++ id) "") with false. cbv iota.
    apply (append_assoc6 "/subscriptions/" sub "/resourceGroups/" rg
             "/providers/Microsoft.ApiManagement/service/" apim ("/products/" ++ id)).
Qed.

(** ** Restore, backup and compare as whole commands *)

(** Without [--dry-run], the suffix variant issues the create call for
    every record, under the record's own name. *)
Lemma restoreOne_always_creates (env : Env) (f : RestoreFlags) (client : Client)
    (azureSubID : string) (sub : SubscriptionInfo) (n : RestoreTally) (t : Trace) :
  restoreDryRun f = false ->
  exists scopeSuffix r rest,
    extractScopeSuffix (Scope (Properties sub)) = Some scopeSuffix /\
    RestoreBySuffix.restoreOne env f client azureSubID sub n t =
      (r, (t ++ [Printf "  Restoring: %s (sid=%s, scope=%s)...\n"
                   [ArgString (DisplayName (Properties sub)); ArgString (Name sub);
                    ArgString (if String.eqb scopeSuffix "" then "(instance)" else scopeSuffix)];
                 EvCreateOrUpdate (resourceGroup client) (apimName client) (Name sub)
                   {| pScope := Some (buildScopeFromSuffix azureSubID (restoreResourceGroup f)
                                        (restoreAPIMName f) scopeSuffix);
                      pDisplayName := Some (DisplayName (Properties sub));
                      pPrimaryKey := nonEmpty (PrimaryKey (Properties sub));
                      pSecondaryKey := nonEmpty (SecondaryKey (Properties sub));
                      pOwnerID := nonEmpty (oOwnerID (restoreOptions sub));
                      pAllowTracing := Some (AllowTracing (Properties sub));
                      pState := nonEmpty (State (Properties sub)) |}]
          ++ rest)%list).
Proof.
  intros Hdry.
  destruct (extractScopeSuffix_total (Scope (Properties sub))) as [scopeSuffix Hs].
  exists scopeSuffix. unfold RestoreBySuffix.restoreOne. rewrite Hs, Hdry.
  cbn [orPanic]. rewrite bind_ret, bind_emit.
  unfold CreateSubscription. unfold bind at 1. rewrite bind_call.
  cbn [oPrimaryKey oSecondaryKey oState oAllowTracing restoreOptions].
  match goal with |- context [sdkCreateOrUpdate ?e ?t0 ?a ?b ?c ?d] =>
    destruct (sdkCreateOrUpdate e t0 a b c d) as [w [err|]] end.
  - eexists _, [_]. split; [reflexivity|]. cbn. rewrite <- !app_assoc. reflexivity.
  - destruct (wProperties w) as [props|]; cbn [orPanic].
    2:{ eexists _, []. split; [reflexivity|]. cbn. rewrite <- !app_assoc. reflexivity. }
    rewrite bind_ret.
    destruct (wState props) as [state|]; cbn [orPanic].
    2:{ eexists _, []. split; [reflexivity|]. cbn. rewrite <- !app_assoc. reflexivity. }
    rewrite bind_ret, bind_call.
    match goal with |- context [sdkListSecrets ?e ?t0 ?a ?b ?c] =>
      destruct (sdkListSecrets e t0 a b c) as [k [err|]] end.
    + eexists _, [_; _]. split; [reflexivity|]. cbn. rewrite <- !app_assoc. reflexivity.
    + eexists _, [_; _]. split; [reflexivity|]. cbn. rewrite <- !app_assoc. reflexivity.
Qed.

(** Whatever error the listing returns, the backup goes on to write what
    the listing returned as records. *)
Lemma backupListAndWrite_ignores_error (env : Env) (f : BackupFlags) (client : Client)
    (filePath json : string) (subs : list SubscriptionInfo) (err : option error) (t t1 : Trace) :
  ListSubscriptions env client (backupProductID f)
    (t ++ [Println "\nFetching subscriptions..."])%list = (Some (subs, err), t1) ->
  MarshalIndent env subs "" "  " = (json, None) ->
  osWriteFile env (t1 ++ [Printf "\nFound %d subscription(s)\n" [ArgInt (List.length subs)]])%list
    filePath json = None ->
  backupListAndWrite env f client filePath false t =
    (Some None,
     (t1 ++ [Printf "\nFound %d subscription(s)\n" [ArgInt (List.length subs)];
             EvWriteFile filePath json;
             Printf "Backup saved to: %s\n" [ArgString filePath];
             Println "Backup completed successfully"])%list).
Proof.
  intros Hlist Hjson Hwrite. unfold backupListAndWrite.
  rewrite bind_emit. erewrite bind_run by exact Hlist.
  cbn [fst]. rewrite bind_emit, Hjson. cbn [andb].
  rewrite bind_ret, bind_call, Hwrite, !bind_emit.
  cbn [ret]. rewrite <- !app_assoc. reflexivity.
Qed.

(** [runCompare] with two positional arguments and two readable files is
    the comparison of the two loaded snapshots. *)
Lemma runCompare_loaded (env : Env) (f : CompareFlags) (fileA fileB dataA dataB : string)
    (subsA subsB : list SubscriptionInfo) (t : Trace) :
  let t0 := (t ++ [Printf "Comparing backup files:\n" [];
                   Printf "  File A: %s\n" [ArgString fileA];
                   Printf "  File B: %s\n" [ArgString fileB]])%list in
  osReadFile env t0 fileA = (dataA, None) ->
  Unmarshal env dataA = (subsA, None) ->
  osReadFile env (t0 ++ [EvReadFile fileA])%list fileB = (dataB, None) ->
  Unmarshal env dataB = (subsB, None) ->
  runCompare env f [fileA; fileB] t =
  compareSnapshots subsA subsB (t0 ++ [EvReadFile fileA; EvReadFile fileB])%list.
Proof.
  intros t0 HrA HuA HrB HuB. unfold runCompare. cbn [compareFiles].
  rewrite !bind_emit. rewrite <- !app_assoc. cbn [app]. fold t0.
  unfold loadBackupFile at 1. unfold bind at 1. rewrite bind_call, HrA, HuA. cbn [ret].
  unfold loadBackupFile. unfold bind at 1. rewrite bind_call, HrB, HuB. cbn [ret].
  rewrite <- app_assoc. reflexivity.
Qed.

(** * Further properties of the code *)

(** ** Occurrences of a marker *)

Lemma substring_drop (s : string) (i : nat) : substring 0 i s ++ drop i s = s.
Proof.
  revert s. induction i as [|i IH]; intros [|c s]; cbn; try reflexivity.
  now rewrite IH.
Qed.

Lemma length_substring (s : string) (i : nat) :
  (i <= String.length s)%nat -> String.length (substring 0 i s) = i.
Proof.
  revert s. induction i as [|i IH]; intros [|c s] H; cbn in *; try reflexivity; try lia.
  rewrite IH; [reflexivity | lia].
Qed.

Lemma drop_drop (s : string) (i j : nat) : drop j (drop i s) = drop (i + j) s.
Proof.
  revert s. induction i as [|i IH]; intros s; [reflexivity|].
  destruct s as [|c s]; cbn [drop Nat.add]; [now rewrite drop_empty | apply IH].
Qed.

(** A string in which the marker occurs nowhere has no last occurrence. *)
Lemma lastIndexNat_nowhere (s m : string) :
  (forall j, (j <= String.length s)%nat -> prefix m (drop j s) = false) ->
  lastIndexNat s m = None.
Proof.
  intros H. destruct (lastIndexNat s m) as [i|] eqn:E; [|reflexivity].
  pose proof (lastIndexNat_occurrence _ _ _ E) as Hocc.
  pose proof (lastIndexNat_bound _ _ _ E) as Hb.
  rewrite H in Hocc by lia. discriminate.
Qed.

Lemma length_drop (s : string) (i : nat) :
  String.length (drop i s) = (String.length s - i)%nat.
Proof.
  revert i. induction s as [|c s IH]; intros [|i]; cbn; try reflexivity. apply IH.
Qed.

(** The last occurrence cuts the string in three, and the marker does not
    occur again after its own first byte. *)
Lemma last_marker_split (s m : string) (i : nat) :
  m <> "" ->
  lastIndexNat s m = Some i ->
  exists p t,
    s = p ++ m ++ t /\ String.length p = i /\
    lastIndexNat (drop 1 (m ++ t)) m = None.
Proof.
  intros Hm H.
  pose proof (lastIndexNat_occurrence _ _ _ H) as Hocc.
  pose proof (lastIndexNat_bound _ _ _ H) as Hb.
  destruct (prefix_inv _ _ Hocc) as [t Ht].
  assert (Hs : s = substring 0 i s ++ m ++ t) by now rewrite <- Ht, substring_drop.
  exists (substring 0 i s), t. split; [exact Hs|].
  split; [apply length_substring; lia|].
  assert (Hlen : (0 < String.length m)%nat) by (destruct m; [now elim Hm | simpl; lia]).
  apply lastIndexNat_nowhere. intros j Hj.
  rewrite <- Ht in Hj |- *. rewrite !length_drop in Hj. rewrite !drop_drop.
  apply (lastIndexNat_is_last s m i); [exact H | lia].
Qed.

(** ** [extractProductID] and [buildScope] *)

Lemma extractProductID_absent (scope : string) :
  lastIndexNat scope "/products/" = None -> extractProductID scope = Some "".
Proof. intros H. unfold extractProductID, LastIndex. now rewrite H. Qed.

Lemma extractProductID_at (scope : string) (j : nat) :
  lastIndexNat scope "/products/" = Some j ->
  extractProductID scope = Some (drop (j + 10) scope).
Proof.
  intros H. pose proof (lastIndexNat_bound _ _ _ H) as Hb.
  unfold extractProductID, LastIndex. rewrite H. cbn [orMinusOne].
  replace (Z.of_nat j =? -1) with false by (symmetry; apply Z.eqb_neq; lia).
  replace (Z.of_nat j + len "/products/") with (Z.of_nat (j + 10)) by (unfold len; simpl; lia).
  apply sliceFrom_nat. simpl in Hb. lia.
Qed.

Lemma extractProductID_here (p pid : string) :
  lastIndexNat ("products/" ++ pid) "/products/" = None ->
  extractProductID (p ++ "/products/" ++ pid) = Some pid.
Proof.
  intros H.
  assert (L : lastIndexNat (p ++ "/products/" ++ pid) "/products/" = Some (String.length p)).
  { rewrite (lastIndexNat_shift p ("/products/" ++ pid) "/products/" 0); [f_equal; lia|].
    change ("/products/" ++ pid) with (String "/" ("products/" ++ pid)).
    cbn [lastIndexNat]. rewrite H.
    change (String "/" ("products/" ++ pid)) with ("/products/" ++ pid).
    now rewrite prefix_append. }
  rewrite (extractProductID_at _ _ L), drop_append_plus. reflexivity.
Qed.

Lemma buildScope_shape (sub rg apim pid : string) :
  buildScope sub rg apim pid =
  ("/subscriptions/" ++ sub ++ "/resourceGroups/" ++ rg
     ++ "/providers/Microsoft.ApiManagement/service/" ++ apim) ++ "/products/" ++ pid.
Proof. unfold buildScope. now rewrite !append_assoc. Qed.

(** X1: [extractProductID] never fails (its slice is always in range); it
    returns the empty string when the marker [/products/] does not occur,
    and otherwise exactly the text after the last occurrence of the
    marker. *)
Theorem extractProductID_algorithm (scope : string) :
  (exists out, extractProductID scope = Some out) /\
  (Contains scope "/products/" = false -> extractProductID scope = Some "") /\
  (forall p rest,
      scope = p ++ "/products/" ++ rest ->
      LastIndex scope "/products/" = len p ->
      extractProductID scope = Some rest).
Proof.
  split; [|split].
  - destruct (lastIndexNat scope "/products/") as [j|] eqn:E.
    + rewrite (extractProductID_at _ _ E). eexists. reflexivity.
    + rewrite (extractProductID_absent _ E). eexists. reflexivity.
  - intros H. apply Contains_false in H. apply extractProductID_absent.
    now apply indexNat_None_last.
  - intros p rest Hscope Hlast. unfold LastIndex, len in Hlast.
    destruct (lastIndexNat scope "/products/") as [j|] eqn:E; cbn [orMinusOne] in Hlast; [|lia].
    apply Nat2Z.inj in Hlast. subst j.
    rewrite (extractProductID_at _ _ E), Hscope, drop_append_plus. reflexivity.
Qed.

Lemma extractProductID_algorithm_witness :
  extractProductID "/subscriptions/x/service/apim1/products/p1" = Some "p1".
Proof.
  destruct (extractProductID_algorithm "/subscriptions/x/service/apim1/products/p1")
    as (_ & _ & H).
  exact (H "/subscriptions/x/service/apim1" "p1" eq_refl eq_refl).
Defined.

(** X2: the product id written by [buildScope] is read back by
    [extractProductID], for every product id after which the marker
    [/products/] does not occur again. *)
Theorem extractProductID_buildScope (sub rg apim pid : string) :
  Contains ("products/" ++ pid) "/products/" = false ->
  extractProductID (buildScope sub rg apim pid) = Some pid.
Proof.
  intros H. apply Contains_false in H.
  rewrite buildScope_shape. apply extractProductID_here. now apply indexNat_None_last.
Qed.

Lemma extractProductID_buildScope_witness :
  extractProductID (buildScope "sub1" "rg1" "apim1" "starter") = Some "starter".
Proof. apply (extractProductID_buildScope "sub1" "rg1" "apim1" "starter"). reflexivity. Defined.

(** X3: retargeting by product id is stable: the product id extracted from
    any scope is extracted again, unchanged, from the scope [buildScope]
    builds with it for any target. *)
Theorem extractProductID_stable (scope pid sub rg apim : string) :
  extractProductID scope = Some pid ->
  extractProductID (buildScope sub rg apim pid) = Some pid.
Proof.
  intros H. rewrite buildScope_shape. apply extractProductID_here.
  destruct (lastIndexNat scope "/products/") as [i|] eqn:E.
  - destruct (last_marker_split scope "/products/" i) as (p & t & Hs & Hp & Hno);
      [discriminate | exact E |].
    rewrite (extractProductID_at _ _ E) in H. injection H as <-.
    rewrite Hs, <- Hp, drop_append_plus. exact Hno.
  - rewrite (extractProductID_absent _ E) in H. injection H as <-. reflexivity.
Qed.

Lemma extractProductID_stable_witness :
  extractProductID (buildScope "sub2" "rg2" "apim2" "p1") = Some "p1".
Proof.
  apply (extractProductID_stable
           "/subscriptions/s/resourceGroups/g/providers/Microsoft.ApiManagement/service/a/products/p1"
           "p1" "sub2" "rg2" "apim2").
  reflexivity.
Defined.

(** ** [extractScopeSuffix] and [buildScopeFromSuffix] *)

Lemma HasSuffix_slash_cons2 (c d : ascii) (s : string) :
  HasSuffix (String c (String d s)) "/" = HasSuffix (String d s) "/".
Proof.
  unfold HasSuffix, len. cbn [String.length].
  replace (Z.of_nat 1 <=? Z.of_nat (S (String.length s))) with true
    by (symmetry; apply Z.leb_le; lia).
  replace (Z.of_nat 1 <=? Z.of_nat (S (S (String.length s)))) with true
    by (symmetry; apply Z.leb_le; lia).
  cbn [andb].
  replace (S (S (String.length s)) - 1)%nat with (S (String.length s)) by lia.
  replace (S (String.length s) - 1)%nat with (String.length s) by lia.
  reflexivity.
Qed.

Lemma TrimRight_slash_trimmed (s : string) : HasSuffix (TrimRight s "/") "/" = false.
Proof.
  induction s as [|c s IH]; [reflexivity|].
  cbn [TrimRight]. destruct (TrimRight s "/") as [|d r] eqn:E.
  - cbn [inCutset]. rewrite orb_false_r.
    destruct (Ascii.eqb c "/") eqn:Ec; [reflexivity|].
    unfold HasSuffix. cbn. destruct (ascii_dec c "/") as [->|Hne].
    + now rewrite Ascii.eqb_refl in Ec.
    + apply Ascii.eqb_neq in Hne. rewrite Hne. reflexivity.
  - rewrite HasSuffix_slash_cons2. exact IH.
Qed.

(** What is cut off by [TrimRight] is a tail. *)
Lemma TrimRight_prefix (s cutset : string) : exists z, s = TrimRight s cutset ++ z.
Proof.
  induction s as [|c s [z IH]]; [now exists ""|].
  cbn [TrimRight]. destruct (TrimRight s cutset) as [|d r] eqn:E.
  - destruct (inCutset c cutset).
    + now exists (String c s).
    + exists z. cbn. f_equal. exact IH.
  - exists z. cbn. f_equal. exact IH.
Qed.

Lemma TrimRight_idempotent (s : string) : TrimRight (TrimRight s "/") "/" = TrimRight s "/".
Proof. apply TrimRight_no_trailing, TrimRight_slash_trimmed. Qed.

(** A non-empty result of [extractScopeSuffix]: where it comes from. *)
Lemma extractScopeSuffix_inv (scope out : string) :
  extractScopeSuffix scope = Some out ->
  out <> "" ->
  exists p rest k,
    scope = p ++ "/service/" ++ rest /\
    lastIndexNat ("service/" ++ rest) "/service/" = None /\
    indexNat rest "/" = Some k /\
    out = TrimRight (drop (k + 1) rest) "/".
Proof.
  intros H Hne. destruct (lastIndexNat scope "/service/") as [i|] eqn:E.
  2:{ rewrite (extractScopeSuffix_absent _ E) in H. injection H as <-. now elim Hne. }
  destruct (last_marker_split scope "/service/" i) as (p & rest & Hs & Hp & Hno);
    [discriminate | exact E |].
  rewrite (extractScopeSuffix_at _ _ E), Hs, <- Hp, drop_append_plus in H.
  change (drop 9 ("/service/" ++ rest)) with rest in H.
  unfold suffixOfRest, Index in H.
  destruct (indexNat rest "/") as [k|] eqn:Ek; cbn [orMinusOne] in H.
  2:{ cbn in H. injection H as <-. now elim Hne. }
  replace (Z.of_nat k =? -1) with false in H by (symmetry; apply Z.eqb_neq; lia).
  replace (Z.of_nat k + 1) with (Z.of_nat (k + 1)) in H by lia.
  pose proof (indexNat_bound _ _ _ Ek) as Hb. cbn [String.length] in Hb.
  rewrite sliceFrom_nat in H by exact Hb. injection H as <-.
  exists p, rest, k. repeat split; assumption.
Qed.

(** X4: the suffix [extractScopeSuffix] returns never ends in a slash. *)
Theorem extractScopeSuffix_no_trailing_slash (scope out : string) :
  extractScopeSuffix scope = Some out -> HasSuffix out "/" = false.
Proof.
  intros H. destruct (String.eqb_spec out "") as [-> | Hne]; [reflexivity|].
  destruct (extractScopeSuffix_inv _ _ H Hne) as (p & rest & k & _ & _ & _ & ->).
  apply TrimRight_slash_trimmed.
Qed.

Lemma extractScopeSuffix_no_trailing_slash_witness :
  HasSuffix "products/p1" "/" = false.
Proof.
  apply (extractScopeSuffix_no_trailing_slash
           "/subscriptions/x/service/apim1/products/p1///" "products/p1").
  reflexivity.
Defined.

Lemma append_assoc5 (a b c d e tail : string) :
  (a ++ b ++ c ++ d ++ e) ++ tail = a ++ b ++ c ++ d ++ e ++ tail.
Proof. now rewrite !append_assoc. Qed.

Lemma buildScopeFromSuffix_instance (sub rg inst : string) :
  buildScopeFromSuffix sub rg inst "" =
  ("/subscriptions/" ++ sub ++ "/resourceGroups/" ++ rg ++ "/providers/Microsoft.ApiManagement")
    ++ "/service/" ++ inst.
Proof.
  symmetry.
  exact (append_assoc5 "/subscriptions/" sub "/resourceGroups/" rg
           "/providers/Microsoft.ApiManagement" ("/service/" ++ inst)).
Qed.

Lemma extract_instance_scope (sub rg inst : string) :
  indexNat inst "/" = None ->
  extractScopeSuffix (buildScopeFromSuffix sub rg inst "") = Some "".
Proof.
  intros Hinst. rewrite buildScopeFromSuffix_instance.
  destruct (extractScopeSuffix_tail
              ("/subscriptions/" ++ sub ++ "/resourceGroups/" ++ rg
                 ++ "/providers/Microsoft.ApiManagement") inst) as [k ->].
  apply suffixOfRest_no_slash. now apply indexNat_slash_drop.
Qed.

(** X5: an instance-level scope makes the round trip: from the scope that
    [buildScopeFromSuffix] builds for the empty suffix and an instance name
    without slash, [extractScopeSuffix] returns the empty suffix (whatever
    the subscription id and the resource group contain). *)
Theorem instance_scope_roundtrip (sub rg inst : string) :
  Contains inst "/" = false ->
  extractScopeSuffix (buildScopeFromSuffix sub rg inst "") = Some "".
Proof. intros H. apply Contains_false in H. now apply extract_instance_scope. Qed.

Lemma instance_scope_roundtrip_witness :
  extractScopeSuffix (buildScopeFromSuffix "sub1/service/x" "rg1" "apim1" "") = Some "".
Proof. apply (instance_scope_roundtrip "sub1/service/x" "rg1" "apim1"). reflexivity. Defined.

Lemma lastIndexNat_drop_None (s m : string) (j : nat) :
  lastIndexNat s m = None -> lastIndexNat (drop j s) m = None.
Proof.
  revert j. induction s as [|c s IH]; intros j H; [now rewrite drop_empty|].
  destruct j as [|j]; [exact H|]. cbn [drop]. apply IH.
  cbn [lastIndexNat] in H. now destruct (lastIndexNat s m).
Qed.

Lemma prefix_append_l (m x z : string) : prefix m x = true -> prefix m (x ++ z) = true.
Proof.
  intros H. destruct (prefix_inv _ _ H) as [t ->].
  rewrite append_assoc. apply prefix_append.
Qed.

Lemma lastIndexNat_prefix_None (x z : string) (c : ascii) (m : string) :
  lastIndexNat (x ++ z) (String c m) = None -> lastIndexNat x (String c m) = None.
Proof.
  induction x as [|d x IH]; intros H; [reflexivity|].
  change (String d x ++ z) with (String d (x ++ z)) in H. cbn [lastIndexNat] in *.
  destruct (lastIndexNat (x ++ z) (String c m)); [discriminate|].
  rewrite IH by reflexivity.
  destruct (prefix (String c m) (String d x)) eqn:E; [|reflexivity].
  apply (prefix_append_l _ _ z) in E.
  change (String d x ++ z) with (String d (x ++ z)) in E. rewrite E in H. discriminate.
Qed.

Lemma lastIndexNat_skip_no_slash (x y m : string) :
  indexNat x "/" = None ->
  lastIndexNat y (String "/" m) = None ->
  lastIndexNat (x ++ y) (String "/" m) = None.
Proof.
  intros Hx Hy. induction x as [|c x IH]; [exact Hy|].
  apply indexNat_slash_None_cons in Hx as [Hc Hx].
  change (String c x ++ y) with (String c (x ++ y)). cbn [lastIndexNat].
  rewrite (IH Hx), prefix_cons, Hc. reflexivity.
Qed.

Lemma append_inj_length (a b x y : string) :
  a ++ x = b ++ y -> String.length a = String.length b -> a = b.
Proof.
  revert b. induction a as [|c a IH]; intros [|d b] H Hl; try discriminate; [reflexivity|].
  cbn in H. injection H as -> H. f_equal. apply IH; [exact H|]. simpl in Hl. lia.
Qed.

Lemma prefix_service_instance (inst r : string) :
  indexNat inst "/" = None -> inst <> "service" ->
  prefix "service/" (inst ++ "/" ++ r) = false.
Proof.
  intros Hinst Hne. destruct (prefix "service/" (inst ++ "/" ++ r)) eqn:E; [|reflexivity].
  destruct (prefix_inv _ _ E) as [t Ht]. exfalso. apply Hne.
  pose proof (indexNat_slash_split inst r Hinst) as Hi. rewrite Ht in Hi.
  change ("service/" ++ t) with
    (String "s" (String "e" (String "r" (String "v" (String "i" (String "c"
       (String "e" (String "/" t)))))))) in Hi.
  rewrite !indexNat_slash_cons in Hi. cbn in Hi. injection Hi as Hi.
  apply (append_inj_length inst "service" ("/" ++ r) ("/" ++ t)); [exact Ht | now symmetry].
Qed.

(** X6: retargeting by suffix is stable: the suffix extracted from any
    scope is extracted again, unchanged, from the scope
    [buildScopeFromSuffix] builds with it, for every target instance whose
    name has no slash and is not [service]. *)
Theorem extractScopeSuffix_stable (scope out sub rg inst : string) :
  Contains inst "/" = false ->
  inst <> "service" ->
  extractScopeSuffix scope = Some out ->
  extractScopeSuffix (buildScopeFromSuffix sub rg inst out) = Some out.
Proof.
  intros Hinst Hne H. apply Contains_false in Hinst.
  destruct (String.eqb_spec out "") as [-> | Hout]; [now apply extract_instance_scope|].
  destruct (extractScopeSuffix_inv _ _ H Hout) as (p & rest & k & _ & Hno & Hk & Hout').
  assert (Hr : lastIndexNat (String "/" out) "/service/" = None).
  { destruct (indexNat_is_first _ _ _ Hk) as [Hocc _].
    destruct (prefix_inv _ _ Hocc) as [t Ht].
    assert (Hsuf : drop (k + 1) rest = t).
    { rewrite <- drop_drop, Ht. reflexivity. }
    destruct (TrimRight_prefix t "/") as [z Hz].
    rewrite Hsuf in Hout'. subst out.
    apply (lastIndexNat_prefix_None _ z).
    change (String "/" (TrimRight t "/") ++ z) with ("/" ++ (TrimRight t "/" ++ z)).
    rewrite <- Hz, <- Ht.
    apply (lastIndexNat_drop_None _ _ (8 + k)) in Hno.
    exact Hno. }
  rewrite buildScopeFromSuffix_shape by exact Hout.
  rewrite extractScopeSuffix_last.
  - rewrite (suffixOfRest_split inst out Hinst). f_equal.
    subst out. apply TrimRight_idempotent.
  - change ("service/" ++ inst ++ "/" ++ out) with ("service" ++ String "/" (inst ++ "/" ++ out)).
    apply lastIndexNat_skip_no_slash; [reflexivity|].
    cbn [lastIndexNat].
    rewrite (lastIndexNat_skip_no_slash inst ("/" ++ out) "service/" Hinst Hr).
    rewrite (prefix_cons "/" "/" "service/" (inst ++ "/" ++ out)).
    now rewrite prefix_service_instance.
Qed.

Lemma extractScopeSuffix_stable_witness :
  extractScopeSuffix (buildScopeFromSuffix "sub2" "rg2" "apim2" "apis/echo") = Some "apis/echo".
Proof.
  apply (extractScopeSuffix_stable
           "/subscriptions/s/resourceGroups/g/providers/Microsoft.ApiManagement/service/a/apis/echo/"
           "apis/echo" "sub2" "rg2" "apim2");
    [reflexivity | discriminate | reflexivity].
Defined.

(** ** More on the comparator *)


Lemma filterOutMaster_app (l1 l2 : list SubscriptionInfo) :
  filterOutMaster (l1 ++ l2) = (filterOutMaster l1 ++ filterOutMaster l2)%list.
Proof. apply filter_app. Qed.

Lemma filterOutMaster_drops (l1 l2 : list SubscriptionInfo) (m : SubscriptionInfo) :
  Name m = "master" -> filterOutMaster (l1 ++ m :: l2) = filterOutMaster (l1 ++ l2).
Proof.
  intros H. rewrite !filterOutMaster_app. f_equal.
  unfold filterOutMaster. cbn [filter]. now rewrite H.
Qed.

(** X7: records named [master] never influence a comparison: wherever
    such a record stands in either snapshot, and whatever its keys and
    attributes are, the result and the whole report are those of the
    snapshots without it. *)
Theorem compare_ignores_master (l1 l2 other : list SubscriptionInfo) (m : SubscriptionInfo)
    (t : Trace) :
  Name m = "master" ->
  compareSnapshots (l1 ++ m :: l2) other t = compareSnapshots (l1 ++ l2) other t /\
  compareSnapshots other (l1 ++ m :: l2) t = compareSnapshots other (l1 ++ l2) t.
Proof.
  intros H. unfold compareSnapshots.
  rewrite (filterOutMaster_drops l1 l2 m H). split; reflexivity.
Qed.

Lemma compare_ignores_master_witness :
  compareSnapshots [mkSub "s1" "App" "/scope" "k1" "k2" ""; mkSub "master" "Built-in" "/" "m1" "m2" ""]
    [mkSub "s1" "App" "/scope" "k1" "k2" ""] [] =
  compareSnapshots [mkSub "s1" "App" "/scope" "k1" "k2" ""]
    [mkSub "s1" "App" "/scope" "k1" "k2" ""] [].
Proof.
  apply (compare_ignores_master [mkSub "s1" "App" "/scope" "k1" "k2" ""] []
           [mkSub "s1" "App" "/scope" "k1" "k2" ""] (mkSub "master" "Built-in" "/" "m1" "m2" "") []).
  reflexivity.
Defined.









(** X10: a record of A is counted as missing, and reported by the [MISS]
    line alone, exactly when no record of B has both of its keys. *)
Theorem missing_iff_no_key_pair (subA : SubscriptionInfo) (subsB : list SubscriptionInfo)
    (n : CompareTally) (t : Trace) :
  (forall subB, In subB subsB -> sameKeys subA subB = false) <->
  compareOne subA subsB n t =
    (Some {| matched := matched n; missing := S (missing n); mismatch := mismatch n |},
     (t ++ [Printf "  [MISS] %s (primaryKey=%s)\n"
              [ArgString (DisplayName (Properties subA));
               ArgString (PrimaryKey (Properties subA))]])%list).
Proof.
  rewrite compareOne_run. unfold classify, reportOf. split.
  - intros H. destruct (find (sameKeys subA) subsB) as [b|] eqn:Hf; [|reflexivity].
    apply find_some in Hf as [Hb Hk]. rewrite (H b Hb) in Hk. discriminate.
  - destruct (find (sameKeys subA) subsB) as [b|] eqn:Hf.
    + destruct (attributesEqual subA b); cbn [bump]; intros H; injection H as H1 H2 H3;
        exfalso; lia.
    + intros _ subB Hb. exact (find_none _ _ Hf subB Hb).
Qed.

(** ** What a computation appends to the trace *)

Lemma appendsOnly_ret {A} (P : Event -> bool) (a : A) : appendsOnly P (ret a).
Proof. intros t. exists []. split; [symmetry; apply app_nil_r | reflexivity]. Qed.

Lemma appendsOnly_panic {A} (P : Event -> bool) : appendsOnly P (@panic A).
Proof. intros t. exists []. split; [symmetry; apply app_nil_r | reflexivity]. Qed.

Lemma appendsOnly_ask {A} (P : Event -> bool) (answer : Trace -> A) : appendsOnly P (ask answer).
Proof. intros t. exists []. split; [symmetry; apply app_nil_r | reflexivity]. Qed.

Lemma appendsOnly_emit (P : Event -> bool) (e : Event) : P e = true -> appendsOnly P (emit e).
Proof. intros H t. exists [e]. split; [reflexivity | cbn; now rewrite H]. Qed.

Lemma appendsOnly_call {A} (P : Event -> bool) (e : Event) (answer : Trace -> A) :
  P e = true -> appendsOnly P (call e answer).
Proof. intros H t. exists [e]. split; [reflexivity | cbn; now rewrite H]. Qed.

Lemma appendsOnly_bind {A B} (P : Event -> bool) (m : M A) (k : A -> M B) :
  appendsOnly P m -> (forall a, appendsOnly P (k a)) -> appendsOnly P (bind m k).
Proof.
  intros Hm Hk t. destruct (Hm t) as (w1 & E1 & F1). unfold bind.
  destruct (m t) as [[a|] t1]; cbn [snd] in E1; subst t1.
  - destruct (Hk a (t ++ w1)%list) as (w2 & E2 & F2).
    exists (w1 ++ w2)%list. split; [now rewrite E2, app_assoc|].
    now rewrite forallb_app, F1, F2.
  - now exists w1.
Qed.

Lemma appendsOnly_when (P : Event -> bool) (b : bool) (m : M unit) :
  appendsOnly P m -> appendsOnly P (when b m).
Proof. destruct b; [trivial | intros _; apply appendsOnly_ret]. Qed.

Lemma appendsOnly_orPanic {A} (P : Event -> bool) (p : option A) : appendsOnly P (orPanic p).
Proof. destruct p; [apply appendsOnly_ret | apply appendsOnly_panic]. Qed.

Lemma appendsOnly_weaken {A} (P Q : Event -> bool) (m : M A) :
  (forall e, P e = true -> Q e = true) -> appendsOnly P m -> appendsOnly Q m.
Proof.
  intros HPQ Hm t. destruct (Hm t) as (w & E & F). exists w. split; [exact E|].
  rewrite forallb_forall in *. intros e He. apply HPQ, F, He.
Qed.

(** The shape of the computation decides the rule; a [match] or an [if]
    is decided by cases. *)
Ltac appends_step :=
  lazymatch goal with
  | |- appendsOnly _ (bind _ _) => apply appendsOnly_bind; [|intro]
  | |- appendsOnly _ (ret _) => apply appendsOnly_ret
  | |- appendsOnly _ panic => apply appendsOnly_panic
  | |- appendsOnly _ (ask _) => apply appendsOnly_ask
  | |- appendsOnly _ (orPanic _) => apply appendsOnly_orPanic
  | |- appendsOnly _ (emit _) => apply appendsOnly_emit; reflexivity
  | |- appendsOnly _ (call _ _) => apply appendsOnly_call; reflexivity
  | |- appendsOnly _ (when _ _) => apply appendsOnly_when
  | |- appendsOnly _ (match ?x with _ => _ end) => destruct x
  end.

Ltac appends := repeat appends_step.

(** ** More on the listing *)

Lemma listPage_appendsOnly (env : Env) (c : Client) (values : list (option SubscriptionContract))
    (results : list SubscriptionInfo) :
  appendsOnly isListingCall (listPage env c values results).
Proof.
  revert results. induction values as [|v values IH]; intros results; cbn [listPage];
    appends; apply IH.
Qed.

Lemma listPages_appendsOnly (env : Env) (c : Client) (pages : list PageResponse)
    (results : list SubscriptionInfo) :
  appendsOnly isListingCall (listPages env c pages results).
Proof.
  revert results. induction pages as [|[values perr] pages IH]; intros results;
    cbn [listPages]; appends; first [apply listPage_appendsOnly | apply IH].
Qed.

Lemma ListSubscriptions_appendsOnly (env : Env) (c : Client) (productID : string) :
  appendsOnly isListingCall (ListSubscriptions env c productID).
Proof.
  unfold ListSubscriptions. apply appendsOnly_bind; [apply appendsOnly_ask|].
  intros pages. apply listPages_appendsOnly.
Qed.

(** X11: [ListSubscriptions] only reads: whether it returns records, an
    error or panics, all it does is to call the pager and to ask for
    secrets; it prints nothing and issues no create or delete call. *)
Theorem ListSubscriptions_only_lists (env : Env) (c : Client) (productID : string)
    (t : Trace) :
  exists w,
    snd (ListSubscriptions env c productID t) = (t ++ w)%list /\
    forallb isListingCall w = true /\
    createCalls w = [] /\ deleteCalls w = [] /\ forallb (fun e => negb (isPrint e)) w = true.
Proof.
  destruct (ListSubscriptions_appendsOnly env c productID t) as (w & E & F).
  exists w. split; [exact E|]. split; [exact F|].
  clear E. induction w as [|e w IH]; [repeat split|].
  cbn [forallb] in F. apply andb_true_iff in F as [Fe Fw].
  destruct (IH Fw) as (Hc & Hd & Hp).
  unfold createCalls, deleteCalls in *.
  destruct e; try discriminate Fe; cbn [flat_map forallb isPrint negb andb app];
    rewrite Hc, Hd, Hp; repeat split.
Qed.

Lemma secretCalls_app (w1 w2 : Trace) :
  secretCalls (w1 ++ w2)%list = (secretCalls w1 ++ secretCalls w2)%list.
Proof. apply flat_map_app. Qed.

Lemma listPage_success (env : Env) (c : Client) (values : list (option SubscriptionContract))
    (results out : list SubscriptionInfo) (t t' : Trace) :
  listPage env c values results t = (Some (inl out), t') ->
  exists w,
    t' = (t ++ w)%list /\
    map Name out = (map Name results ++ flat_map keptName values)%list /\
    secretCalls w = flat_map keptName values.
Proof.
  revert results t. induction values as [|v values IH]; intros results t H; cbn [listPage] in H.
  - injection H as <- <-. exists []. cbn. now rewrite !app_nil_r.
  - destruct v as [sub|]; [|exact (IH _ _ H)].
    cbn [flat_map keptName].
    destruct (wProperties sub) as [props|]; [|exact (IH _ _ H)].
    destruct (wState props) as [state|]; [|discriminate H].
    cbn [orPanic] in H. rewrite bind_ret, bind_call in H.
    destruct (sdkListSecrets env t (resourceGroup c) (apimName c) (deref (wName sub)))
      as [secrets [err|]]; [discriminate H|].
    destruct (IH _ _ H) as (w & -> & Hn & Hs).
    exists (EvListSecrets (resourceGroup c) (apimName c) (deref (wName sub)) :: w).
    split; [now rewrite <- app_assoc|]. split.
    + rewrite Hn, map_app, <- app_assoc. reflexivity.
    + unfold secretCalls in *. cbn [flat_map app]. now rewrite Hs.
Qed.

Lemma listPages_success (env : Env) (c : Client) (pages : list PageResponse)
    (results out : list SubscriptionInfo) (t t' : Trace) :
  listPages env c pages results t = (Some (out, None), t') ->
  exists w,
    t' = (t ++ w)%list /\
    map Name out = (map Name results ++ keptNames pages)%list /\
    secretCalls w = keptNames pages.
Proof.
  revert results t. induction pages as [|[values perr] pages IH]; intros results t H;
    cbn [listPages] in H.
  - injection H as <- <-. exists []. cbn. now rewrite !app_nil_r.
  - rewrite bind_emit in H. destruct perr as [err|]; [discriminate H|].
    unfold bind in H.
    destruct (listPage env c values results (t ++ [EvNextPage])%list) as [[[results'|err]|] t1] eqn:E;
      try discriminate H.
    destruct (listPage_success _ _ _ _ _ _ _ E) as (w1 & -> & Hn1 & Hs1).
    destruct (IH _ _ H) as (w2 & -> & Hn2 & Hs2).
    exists (EvNextPage :: w1 ++ w2)%list.
    split; [now rewrite <- !app_assoc|]. unfold keptNames. cbn [flat_map fst]. split.
    + rewrite Hn2, Hn1, <- app_assoc. reflexivity.
    + change (secretCalls (EvNextPage :: w1 ++ w2)%list) with (secretCalls (w1 ++ w2)%list).
      rewrite secretCalls_app, Hs1, Hs2. reflexivity.
Qed.

(** X12: a listing that succeeds returns one record for every listed
    contract that is present and has properties (nil entries and entries
    without properties are passed over), in the order of the pages, and it
    has asked for the secrets of exactly these records, once each and in
    that order. *)
Theorem listing_success_one_record_per_contract (env : Env) (c : Client) (productID : string)
    (out : list SubscriptionInfo) (t t' : Trace) :
  ListSubscriptions env c productID t = (Some (out, None), t') ->
  let pages := if negb (String.eqb productID "")
               then sdkProductListPager env t (resourceGroup c) (apimName c) productID
               else sdkListPager env t (resourceGroup c) (apimName c) in
  exists w,
    t' = (t ++ w)%list /\
    map Name out = keptNames pages /\
    secretCalls w = keptNames pages.
Proof.
  intros H pages. unfold ListSubscriptions, bind, ask in H. fold pages in H.
  destruct (listPages_success _ _ _ _ _ _ _ H) as (w & E & Hn & Hs).
  now exists w.
Qed.

Lemma listing_success_one_record_per_contract_witness :
  map Name
    (fst (match fst (ListSubscriptions
                       (fakeEnv (fun _ => [])
                          [([Some (mkContract "s1"); None], None); ([Some (mkContract "s2")], None)]
                          [] [])
                       {| subscriptionID := "sub1"; resourceGroup := "rg1"; apimName := "apim1" |}
                       "" []) with
          | Some r => r
          | None => ([], None)
          end)) = ["s1"; "s2"].
Proof.
  destruct (listing_success_one_record_per_contract
              (fakeEnv (fun _ => [])
                 [([Some (mkContract "s1"); None], None); ([Some (mkContract "s2")], None)] [] [])
              {| subscriptionID := "sub1"; resourceGroup := "rg1"; apimName := "apim1" |}
              "" _ [] _ eq_refl) as (w & _ & H & _).
  exact H.
Defined.

(** X13: a listed contract whose state pointer is nil makes the listing
    panic, at that contract and before its secrets are asked for: the
    records before it were fetched for nothing. *)
Theorem listing_panics_on_nil_state (env : Env) (c : Client)
    (before after : list (option SubscriptionContract)) (pages : list PageResponse)
    (sub : SubscriptionContract) (props : SubscriptionContractProperties)
    (results collected : list SubscriptionInfo) (t t1 : Trace) :
  wProperties sub = Some props ->
  wState props = None ->
  listPage env c before results (t ++ [EvNextPage])%list = (Some (inl collected), t1) ->
  listPages env c ((before ++ Some sub :: after, None) :: pages)%list results t = (None, t1).
Proof.
  intros Hprops Hstate Hbefore.
  cbn [listPages]. rewrite bind_emit.
  unfold bind at 1. rewrite listPage_app, Hbefore.
  cbn [listPage]. rewrite Hprops, Hstate. reflexivity.
Qed.

Lemma listing_panics_on_nil_state_witness :
  listPages (fakeEnv (fun _ => []) [] [] [])
    {| subscriptionID := "sub1"; resourceGroup := "rg1"; apimName := "apim1" |}
    [([Some (mkContract "s1"); Some (mkContractNoState "s2"); Some (mkContract "s3")], None)]
    [] []
  = (None, [EvNextPage; EvListSecrets "rg1" "apim1" "s1"]).
Proof.
  apply (listing_panics_on_nil_state (fakeEnv (fun _ => []) [] [] [])
           {| subscriptionID := "sub1"; resourceGroup := "rg1"; apimName := "apim1" |}
           [Some (mkContract "s1")] [Some (mkContract "s3")] []
           (mkContractNoState "s2") propsNoState []
           [{| ID := "s1"; Name := "s1"; Type_ := "";
               Properties := {| OwnerID := ""; Scope := "/scope"; DisplayName := "s1";
                                State := "active"; CreatedDate := ""; StartDate := "";
                                EndDate := ""; ExpirationDate := ""; NotificationDate := "";
                                PrimaryKey := "pk-s1"; SecondaryKey := "sk-s1";
                                StateComment := ""; AllowTracing := false |} |}]
           [] [EvNextPage; EvListSecrets "rg1" "apim1" "s1"]); reflexivity.
Defined.

Lemma listPages_app (env : Env) (c : Client) (first rest : list PageResponse)
    (results : list SubscriptionInfo) (t : Trace) :
  listPages env c (first ++ rest) results t =
  match listPages env c first results t with
  | (Some (results', None), t') => listPages env c rest results' t'
  | other => other
  end.
Proof.
  revert results t. induction first as [|[values perr] first IH]; intros results t; [reflexivity|].
  cbn [app listPages]. rewrite !bind_emit.
  destruct perr as [err|]; [reflexivity|].
  unfold bind.
  destruct (listPage env c values results (t ++ [EvNextPage])%list) as [[[results'|err]|] t1];
    [apply IH | reflexivity | reflexivity].
Qed.

(** X14: when a later page of the listing fails, the records of the pages
    before it are dropped: the listing returns the wrapped page error and no
    record, and asks for no further page. *)
Theorem page_failure_drops_collected (env : Env) (c : Client) (first rest : list PageResponse)
    (values : list (option SubscriptionContract)) (err : error)
    (results collected : list SubscriptionInfo) (t t1 : Trace) :
  listPages env c first results t = (Some (collected, None), t1) ->
  listPages env c (first ++ (values, Some err) :: rest)%list results t =
    (Some ([], Some (Errorf "failed to list subscriptions: %w" [ArgError err])),
     (t1 ++ [EvNextPage])%list).
Proof. intros H. rewrite listPages_app, H. reflexivity. Qed.

Lemma page_failure_drops_collected_witness :
  listPages (fakeEnv (fun _ => []) [] [] [])
    {| subscriptionID := "sub1"; resourceGroup := "rg1"; apimName := "apim1" |}
    [([Some (mkContract "s1")], None); ([], Some (ExternalError "throttled"));
     ([Some (mkContract "s2")], None)] [] []
  = (Some ([], Some (Errorf "failed to list subscriptions: %w"
                       [ArgError (ExternalError "throttled")])),
     [EvNextPage; EvListSecrets "rg1" "apim1" "s1"; EvNextPage]).
Proof.
  apply (page_failure_drops_collected (fakeEnv (fun _ => []) [] [] [])
           {| subscriptionID := "sub1"; resourceGroup := "rg1"; apimName := "apim1" |}
           [([Some (mkContract "s1")], None)] [([Some (mkContract "s2")], None)]
           [] (ExternalError "throttled") [] [listedSub "s1"] []
           [EvNextPage; EvListSecrets "rg1" "apim1" "s1"]).
  reflexivity.
Defined.

(** ** More on delete *)

Lemma deleteCalls_app (w1 w2 : Trace) :
  deleteCalls (w1 ++ w2)%list = (deleteCalls w1 ++ deleteCalls w2)%list.
Proof. apply flat_map_app. Qed.

Lemma no_remote_write (w : Trace) :
  forallb (fun e => negb (isRemoteWrite e)) w = true ->
  deleteCalls w = [] /\ createCalls w = [].
Proof.
  induction w as [|e w IH]; [split; reflexivity|].
  cbn [forallb]. intros H. apply andb_true_iff in H as [He Hw].
  destruct (IH Hw) as [Hd Hc]. unfold deleteCalls, createCalls in *.
  destruct e; try discriminate He; cbn [flat_map app]; now rewrite Hd, Hc.
Qed.

Lemma deleteOne_dry_run (env : Env) (f : DeleteFlags) (client : Client) (sub : SubscriptionInfo)
    (n : DeleteTally) :
  deleteDryRun f = true -> appendsOnly isPrint (deleteOne env f client sub n).
Proof. intros Hdry. unfold deleteOne. rewrite Hdry. appends. Qed.

Lemma deleteLoop_dry_run (env : Env) (f : DeleteFlags) (client : Client)
    (subs : list SubscriptionInfo) (n : DeleteTally) :
  deleteDryRun f = true -> appendsOnly isPrint (deleteLoop env f client subs n).
Proof.
  intros Hdry. revert n. induction subs as [|sub subs IH]; intros n; cbn [deleteLoop];
    appends; [now apply deleteOne_dry_run | apply IH].
Qed.

Lemma NewClient_appendsOnly (P : Event -> bool) (env : Env) (id rg apim : string) :
  P (EvNewClient id rg apim) = true -> appendsOnly P (NewClient env id rg apim).
Proof.
  intros H. unfold NewClient. apply appendsOnly_bind; [now apply appendsOnly_call|].
  intros [x [err|]]; appends.
Qed.

Lemma listing_no_remote_write (env : Env) (c : Client) (productID : string) :
  appendsOnly (fun e => negb (isRemoteWrite e)) (ListSubscriptions env c productID).
Proof.
  eapply appendsOnly_weaken; [|apply ListSubscriptions_appendsOnly].
  intros e He. now destruct e.
Qed.

Lemma print_no_remote_write {A} (m : M A) :
  appendsOnly isPrint m -> appendsOnly (fun e => negb (isRemoteWrite e)) m.
Proof. apply appendsOnly_weaken. intros e He. now destruct e. Qed.

(** X15: [delete --dry-run] deletes nothing: whatever the service
    answers, the whole run issues no delete call and no create call. *)
Theorem delete_dry_run_deletes_nothing (env : Env) (f : DeleteFlags) (t : Trace) :
  deleteDryRun f = true ->
  exists w,
    snd (runDelete env f t) = (t ++ w)%list /\ deleteCalls w = [] /\ createCalls w = [].
Proof.
  intros Hdry.
  assert (H : appendsOnly (fun e => negb (isRemoteWrite e)) (runDelete env f)).
  { unfold runDelete. appends.
    - now apply NewClient_appendsOnly.
    - apply listing_no_remote_write.
    - now apply print_no_remote_write, deleteLoop_dry_run. }
  destruct (H t) as (w & E & F). exists w. split; [exact E|]. now apply no_remote_write.
Qed.

Lemma delete_dry_run_deletes_nothing_witness :
  deleteCalls
    (snd (runDelete (fakeEnv (fun _ => []) [([Some (mkContract "s1")], None)] [] [])
            {| deleteResourceGroup := "rg1"; deleteAPIMName := "apim1"; deleteSubscription := "";
               deleteProductID := ""; deleteDryRun := true; deleteAll := true |} [])) = [].
Proof.
  destruct (delete_dry_run_deletes_nothing
              (fakeEnv (fun _ => []) [([Some (mkContract "s1")], None)] [] [])
              {| deleteResourceGroup := "rg1"; deleteAPIMName := "apim1"; deleteSubscription := "";
                 deleteProductID := ""; deleteDryRun := true; deleteAll := true |} [] eq_refl)
    as (w & E & Hd & _).
  rewrite E. exact Hd.
Defined.

Lemma notSkipped_cons (f : DeleteFlags) (sub : SubscriptionInfo) (subs : list SubscriptionInfo) :
  notSkipped f (sub :: subs) =
  if negb (deleteAll f) && String.eqb (Name sub) "master"
  then notSkipped f subs else sub :: notSkipped f subs.
Proof.
  unfold notSkipped. cbn [filter].
  now destruct (negb (deleteAll f) && String.eqb (Name sub) "master").
Qed.

Lemma deleteOne_real_run (env : Env) (f : DeleteFlags) (client : Client) (sub : SubscriptionInfo)
    (n : DeleteTally) (t : Trace) :
  deleteDryRun f = false ->
  exists n' w,
    deleteOne env f client sub n t = (Some n', (t ++ w)%list) /\
    deleteCalls w = map Name (notSkipped f [sub]) /\
    (deleted n' + failed n' = deleted n + failed n + List.length (notSkipped f [sub]))%nat /\
    (skipped n' + List.length (notSkipped f [sub]) = S (skipped n))%nat /\
    ((forall t' sid, sdkDelete env t' (resourceGroup client) (apimName client) sid "*" = None) ->
     failed n' = failed n).
Proof.
  intros Hdry. rewrite notSkipped_cons.
  destruct (negb (deleteAll f) && String.eqb (Name sub) "master") eqn:Hskip.
  - apply andb_true_iff in Hskip as [Hall Hname].
    apply negb_true_iff in Hall. apply String.eqb_eq in Hname.
    rewrite (deleteOne_skip env f client sub n t Hall Hname).
    eexists _, _. split; [reflexivity|]. cbn. repeat split; lia.
  - rewrite deleteOne_normal.
    2:{ apply andb_false_iff in Hskip as [H | H].
        - left. now apply negb_false_iff in H.
        - right. now apply String.eqb_neq in H. }
    unfold deletedNormally. rewrite Hdry.
    destruct (sdkDelete env _ (resourceGroup client) (apimName client) (Name sub) "*") eqn:Hd.
    + eexists _, _. split; [rewrite <- app_assoc; reflexivity|]. cbn.
      split; [reflexivity|]. split; [lia|]. split; [lia|].
      intros Hok. rewrite Hok in Hd. discriminate.
    + eexists _, _. split; [rewrite <- app_assoc; reflexivity|]. cbn.
      split; [reflexivity|]. split; [lia|]. split; [lia|]. reflexivity.
Qed.

(** X16: without [--dry-run], a failed delete call does not stop the run:
    [runDelete]'s loop issues exactly one delete call for every record it
    does not skip, in the order of the listing; every such record is counted
    as deleted or as failed and every other record as skipped; no record is
    counted as failed when the service refuses no call. *)
Theorem delete_calls_every_record (env : Env) (f : DeleteFlags) (client : Client)
    (subs : list SubscriptionInfo) (n : DeleteTally) (t : Trace) :
  deleteDryRun f = false ->
  exists n' w,
    deleteLoop env f client subs n t = (Some n', (t ++ w)%list) /\
    deleteCalls w = map Name (notSkipped f subs) /\
    (deleted n' + failed n' = deleted n + failed n + List.length (notSkipped f subs))%nat /\
    (skipped n' + List.length (notSkipped f subs) = skipped n + List.length subs)%nat /\
    ((forall t' sid, sdkDelete env t' (resourceGroup client) (apimName client) sid "*" = None) ->
     failed n' = failed n).
Proof.
  intros Hdry. revert n t. induction subs as [|sub subs IH]; intros n t.
  - exists n, []. cbn. rewrite app_nil_r. repeat split; lia.
  - destruct (deleteOne_real_run env f client sub n t Hdry) as (n1 & w1 & E1 & C1 & D1 & S1 & F1).
    destruct (IH n1 (t ++ w1)%list) as (n' & w2 & E2 & C2 & D2 & S2 & F2).
    exists n', (w1 ++ w2)%list. cbn [deleteLoop].
    erewrite bind_run by exact E1. rewrite E2, app_assoc.
    split; [reflexivity|].
    assert (Hcons : notSkipped f (sub :: subs) = (notSkipped f [sub] ++ notSkipped f subs)%list).
    { rewrite !notSkipped_cons.
      destruct (negb (deleteAll f) && String.eqb (Name sub) "master"); reflexivity. }
    rewrite Hcons, map_app, length_app, deleteCalls_app, C1, C2. cbn [List.length].
    split; [reflexivity|]. split; [lia|]. split; [lia|].
    intros Hok. rewrite (F2 Hok). exact (F1 Hok).
Qed.

Lemma delete_calls_every_record_witness :
  deleteCalls
    (snd (deleteLoop (fakeEnv (fun _ => []) [] [] ["s1"])
            {| deleteResourceGroup := "rg1"; deleteAPIMName := "apim1"; deleteSubscription := "";
               deleteProductID := ""; deleteDryRun := false; deleteAll := false |}
            {| subscriptionID := "sub1"; resourceGroup := "rg1"; apimName := "apim1" |}
            [listedSub "s1"; listedSub "master"; listedSub "s2"]
            {| deleted := 0; skipped := 0; failed := 0 |} []))
  = ["s1"; "s2"].
Proof.
  destruct (delete_calls_every_record
              (fakeEnv (fun _ => []) [] [] ["s1"])
              {| deleteResourceGroup := "rg1"; deleteAPIMName := "apim1"; deleteSubscription := "";
                 deleteProductID := ""; deleteDryRun := false; deleteAll := false |}
              {| subscriptionID := "sub1"; resourceGroup := "rg1"; apimName := "apim1" |}
              [listedSub "s1"; listedSub "master"; listedSub "s2"]
              {| deleted := 0; skipped := 0; failed := 0 |} [] eq_refl) as (n' & w & E & C & _).
  rewrite E. exact C.
Defined.

(** ** More on restore *)

Lemma createCalls_app (w1 w2 : Trace) :
  createCalls (w1 ++ w2)%list = (createCalls w1 ++ createCalls w2)%list.
Proof. apply flat_map_app. Qed.

Lemma print_or_auth_quiet (w : Trace) :
  forallb isPrintReadOrAuth w = true ->
  createCalls w = [] /\ secretCalls w = [] /\ deleteCalls w = [].
Proof.
  induction w as [|e w IH]; [repeat split|].
  cbn [forallb]. intros H. apply andb_true_iff in H as [He Hw].
  destruct (IH Hw) as (Hc & Hs & Hd). unfold createCalls, secretCalls, deleteCalls in *.
  destruct e; try discriminate He; cbn [flat_map app]; now rewrite Hc, Hs, Hd.
Qed.

Lemma restoreCommand_appendsOnly (env : Env) (f : RestoreFlags)
    (loop : Client -> string -> list SubscriptionInfo -> RestoreTally -> M RestoreTally) :
  (forall client azureSubID subs n, appendsOnly isPrintReadOrAuth (loop client azureSubID subs n)) ->
  appendsOnly isPrintReadOrAuth (restoreCommand env f loop).
Proof.
  intros Hloop. unfold restoreCommand. appends.
  - now apply NewClient_appendsOnly.
  - apply Hloop.
Qed.

Lemma restoreBySuffix_dry_run (env : Env) (f : RestoreFlags) (client : Client) (azureSubID : string)
    (subs : list SubscriptionInfo) (n : RestoreTally) :
  restoreDryRun f = true ->
  appendsOnly isPrintReadOrAuth (RestoreBySuffix.restoreLoop env f client azureSubID subs n).
Proof.
  intros Hdry. revert n.
  induction subs as [|sub subs IH]; intros n; cbn [RestoreBySuffix.restoreLoop]; appends.
  - unfold RestoreBySuffix.restoreOne. rewrite Hdry. appends.
  - apply IH.
Qed.

Lemma restoreByProduct_dry_run (env : Env) (f : RestoreFlags) (client : Client) (azureSubID : string)
    (subs : list SubscriptionInfo) (n : RestoreTally) :
  restoreDryRun f = true ->
  appendsOnly isPrintReadOrAuth (RestoreByProduct.restoreLoop env f client azureSubID subs n).
Proof.
  intros Hdry. revert n.
  induction subs as [|sub subs IH]; intros n; cbn [RestoreByProduct.restoreLoop]; appends.
  - unfold RestoreByProduct.restoreOne. rewrite Hdry. appends.
  - apply IH.
Qed.

(** X17: [restore --dry-run] creates nothing: in both variants of
    [runRestore], whatever the file holds and whatever the service answers,
    the whole run issues no create call and asks for no secrets; all it does
    is to print, to read the input file and to authenticate. *)
Theorem restore_dry_run_creates_nothing (env : Env) (f : RestoreFlags) (t : Trace) :
  restoreDryRun f = true ->
  (exists w,
     snd (RestoreBySuffix.runRestore env f t) = (t ++ w)%list /\
     forallb isPrintReadOrAuth w = true /\ createCalls w = [] /\ secretCalls w = []) /\
  (exists w,
     snd (RestoreByProduct.runRestore env f t) = (t ++ w)%list /\
     forallb isPrintReadOrAuth w = true /\ createCalls w = [] /\ secretCalls w = []).
Proof.
  intros Hdry. split.
  - destruct (restoreCommand_appendsOnly env f (RestoreBySuffix.restoreLoop env f)
                (fun c a s n => restoreBySuffix_dry_run env f c a s n Hdry) t) as (w & E & F).
    exists w. split; [exact E|]. split; [exact F|].
    destruct (print_or_auth_quiet w F) as (Hc & Hs & _). now split.
  - destruct (restoreCommand_appendsOnly env f (RestoreByProduct.restoreLoop env f)
                (fun c a s n => restoreByProduct_dry_run env f c a s n Hdry) t) as (w & E & F).
    exists w. split; [exact E|]. split; [exact F|].
    destruct (print_or_auth_quiet w F) as (Hc & Hs & _). now split.
Qed.

Lemma restore_dry_run_creates_nothing_witness :
  createCalls
    (snd (RestoreBySuffix.runRestore
            (fakeEnv (fun _ => [mkSub "s1" "App" "/x/service/a/products/p1" "k1" "k2" ""]) [] [] [])
            {| restoreResourceGroup := "rg2"; restoreAPIMName := "apim2";
               restoreSubscription := "sub2"; restoreInput := "backup.json";
               restoreDryRun := true |} [])) = [].
Proof.
  destruct (restore_dry_run_creates_nothing
              (fakeEnv (fun _ => [mkSub "s1" "App" "/x/service/a/products/p1" "k1" "k2" ""]) [] [] [])
              {| restoreResourceGroup := "rg2"; restoreAPIMName := "apim2";
                 restoreSubscription := "sub2"; restoreInput := "backup.json";
                 restoreDryRun := true |} [] eq_refl) as [(w & E & _ & Hc & _) _].
  rewrite E. exact Hc.
Defined.

(** One create call, whatever comes of it. *)
Lemma CreateSubscription_one_call (env : Env) (c : Client) (sid scope displayName : string)
    (opts : option CreateSubscriptionOptions) (t : Trace) :
  exists w,
    snd (CreateSubscription env c sid scope displayName opts t) = (t ++ w)%list /\
    createCalls w = [sid].
Proof.
  unfold CreateSubscription. rewrite bind_call.
  match goal with |- context [sdkCreateOrUpdate ?e ?t0 ?a ?b ?x ?d] =>
    destruct (sdkCreateOrUpdate e t0 a b x d) as [w [err|]] end.
  - eexists [_]. split; reflexivity.
  - destruct (wProperties w) as [props|]; cbn [orPanic]; [|eexists [_]; split; reflexivity].
    rewrite bind_ret.
    destruct (wState props) as [state|]; cbn [orPanic]; [|eexists [_]; split; reflexivity].
    rewrite bind_ret, bind_call.
    match goal with |- context [sdkListSecrets ?e ?t0 ?a ?b ?x] =>
      destruct (sdkListSecrets e t0 a b x) as [k [err|]] end;
      (eexists [_; _]; split; [cbn; rewrite <- app_assoc; reflexivity | reflexivity]).
Qed.

Lemma restoreBySuffix_one (env : Env) (f : RestoreFlags) (client : Client) (azureSubID : string)
    (sub : SubscriptionInfo) (n : RestoreTally) (t : Trace) :
  restoreDryRun f = false ->
  exists r w,
    RestoreBySuffix.restoreOne env f client azureSubID sub n t = (r, (t ++ w)%list) /\
    createCalls w = [Name sub] /\
    (forall n', r = Some n' -> (restored n' + rfailed n' = S (restored n + rfailed n))%nat).
Proof.
  intros Hdry.
  destruct (extractScopeSuffix_total (Scope (Properties sub))) as [scopeSuffix Hs].
  unfold RestoreBySuffix.restoreOne. rewrite Hs, Hdry.
  cbn [orPanic]. rewrite bind_ret, bind_emit. unfold bind at 1.
  match goal with |- context [CreateSubscription ?e ?c ?a ?b ?d ?o ?t0] =>
    destruct (CreateSubscription_one_call e c a b d o t0) as (w & E & C);
    destruct (CreateSubscription e c a b d o t0) as [[[x [err|]]|] t1]
  end; cbn [snd] in E; subst t1.
  - eexists _, (_ :: w ++ [_])%list.
    split; [cbn; rewrite <- !app_assoc; reflexivity|].
    split; [change (createCalls (?e :: w ++ [?e'])%list) with (createCalls (w ++ [e'])%list);
            rewrite createCalls_app, C; reflexivity|].
    intros n' H. injection H as <-. cbn. lia.
  - eexists _, (_ :: w ++ [_])%list.
    split; [cbn; rewrite <- !app_assoc; reflexivity|].
    split; [change (createCalls (?e :: w ++ [?e'])%list) with (createCalls (w ++ [e'])%list);
            rewrite createCalls_app, C; reflexivity|].
    intros n' H. injection H as <-. cbn. lia.
  - eexists _, (_ :: w)%list.
    split; [cbn; rewrite <- !app_assoc; reflexivity|].
    split; [exact C|]. intros n' H. discriminate H.
Qed.

(** X18: without [--dry-run], a failed create call does not stop the
    restore: when the suffix variant's loop runs to its end, it has issued
    exactly one create call for every record of the backup, under the
    record's own name and in the order of the file, and every record is
    counted either as succeeded or as failed. *)
Theorem restore_calls_every_record (env : Env) (f : RestoreFlags) (client : Client)
    (azureSubID : string) (subs : list SubscriptionInfo) (n n' : RestoreTally) (t t' : Trace) :
  restoreDryRun f = false ->
  RestoreBySuffix.restoreLoop env f client azureSubID subs n t = (Some n', t') ->
  exists w,
    t' = (t ++ w)%list /\
    createCalls w = map Name subs /\
    (restored n' + rfailed n' = restored n + rfailed n + List.length subs)%nat.
Proof.
  intros Hdry. revert n t. induction subs as [|sub subs IH]; intros n t H.
  - cbn in H. injection H as <- <-. exists []. cbn. rewrite app_nil_r. repeat split; lia.
  - cbn [RestoreBySuffix.restoreLoop] in H.
    destruct (restoreBySuffix_one env f client azureSubID sub n t Hdry) as (r & w1 & E1 & C1 & T1).
    unfold bind in H. rewrite E1 in H. destruct r as [n1|]; [|discriminate H].
    destruct (IH _ _ H) as (w2 & -> & C2 & T2).
    exists (w1 ++ w2)%list. split; [now rewrite app_assoc|].
    split; [rewrite createCalls_app, C1, C2; reflexivity|].
    specialize (T1 n1 eq_refl). cbn [List.length]. lia.
Qed.

Lemma restore_calls_every_record_witness :
  exists w,
    [Printf "  Restoring: %s (sid=%s, scope=%s)...\n"
       [ArgString "App"; ArgString "s1"; ArgString "products/p1"];
     EvCreateOrUpdate "rg2" "apim2" "s1"
       {| pScope := Some "/subscriptions/sub2/resourceGroups/rg2/providers/Microsoft.ApiManagement/service/apim2/products/p1";
          pDisplayName := Some "App"; pPrimaryKey := Some "k1"; pSecondaryKey := Some "k2";
          pOwnerID := None; pAllowTracing := Some false; pState := Some "active" |};
     Printf "  [FAIL] %s: %v\n"
       [ArgString "App";
        ArgError (Errorf "failed to create subscription %s: %w"
                    [ArgString "s1"; ArgError (ExternalError "create refused")])]]
    = ([] ++ w)%list /\
    createCalls w = map Name [mkSub "s1" "App" "/x/service/a/products/p1" "k1" "k2" ""] /\
    (0 + 1 = 0 + 0 + 1)%nat.
Proof.
  apply (restore_calls_every_record
           (fakeEnv (fun _ => []) [] [] ["s1"])
           {| restoreResourceGroup := "rg2"; restoreAPIMName := "apim2";
              restoreSubscription := "sub2"; restoreInput := "backup.json";
              restoreDryRun := false |}
           {| subscriptionID := "sub2"; resourceGroup := "rg2"; apimName := "apim2" |}
           "sub2" [mkSub "s1" "App" "/x/service/a/products/p1" "k1" "k2" ""]
           {| restored := 0; rfailed := 0 |} {| restored := 0; rfailed := 1 |} []);
    reflexivity.
Defined.

Lemma extractProductID_some (scope : string) : exists out, extractProductID scope = Some out.
Proof.
  destruct (lastIndexNat scope "/products/") as [j|] eqn:E.
  - rewrite (extractProductID_at _ _ E). eexists. reflexivity.
  - rewrite (extractProductID_absent _ E). eexists. reflexivity.
Qed.

Lemma restoreByProduct_one (env : Env) (f : RestoreFlags) (client : Client) (azureSubID : string)
    (sub : SubscriptionInfo) (n : RestoreTally) (t : Trace) :
  exists r w,
    RestoreByProduct.restoreOne env f client azureSubID sub n t = (r, (t ++ w)%list) /\
    createCalls w = (if restoreDryRun f then [] else map Name (filter hasProductID [sub])) /\
    (forall n', r = Some n' ->
       (restored n' + rfailed n' = S (restored n + rfailed n))%nat /\
       (restored n' <= S (restored n))%nat /\
       (hasProductID sub = false -> restored n' = restored n)).
Proof.
  destruct (extractProductID_some (Scope (Properties sub))) as [productID Hp].
  unfold RestoreByProduct.restoreOne, hasProductID. cbn [filter]. rewrite Hp.
  cbn [orPanic]. rewrite bind_ret.
  destruct (String.eqb productID "") eqn:Hempty; cbn [negb].
  - eexists _, [_]. split; [reflexivity|]. split; [now destruct (restoreDryRun f)|].
    intros n' H. injection H as <-. cbn. split; [lia|]. split; [lia | reflexivity].
  - destruct (restoreDryRun f).
    + eexists _, [_]. split; [reflexivity|]. split; [reflexivity|].
      intros n' H. injection H as <-. cbn. split; [lia|]. split; [lia | discriminate].
    + rewrite bind_emit. unfold bind at 1.
      match goal with |- context [CreateSubscription ?e ?c ?a ?b ?d ?o ?t0] =>
        destruct (CreateSubscription_one_call e c a b d o t0) as (w & E & C);
        destruct (CreateSubscription e c a b d o t0) as [[[x [err|]]|] t1]
      end; cbn [snd] in E; subst t1.
      * eexists _, (_ :: w ++ [_])%list.
        split; [cbn; rewrite <- !app_assoc; reflexivity|].
        split; [change (createCalls (?e :: w ++ [?e'])%list) with (createCalls (w ++ [e'])%list);
                rewrite createCalls_app, C; reflexivity|].
        intros n' H. injection H as <-. cbn. split; [lia|]. split; [lia | discriminate].
      * eexists _, (_ :: w ++ [_])%list.
        split; [cbn; rewrite <- !app_assoc; reflexivity|].
        split; [change (createCalls (?e :: w ++ [?e'])%list) with (createCalls (w ++ [e'])%list);
                rewrite createCalls_app, C; reflexivity|].
        intros n' H. injection H as <-. cbn. split; [lia|]. split; [lia | discriminate].
      * eexists _, (_ :: w)%list.
        split; [cbn; rewrite <- !app_assoc; reflexivity|].
        split; [exact C|]. intros n' H. discriminate H.
Qed.

(** X19: the product variant of [runRestore] restores product scopes only:
    when its loop runs to its end, it has issued a create call exactly for
    the records from whose scope a non-empty product id is extracted (none
    at all with [--dry-run]); every other record, an instance-level record
    for one, is counted as failed, also with [--dry-run]. *)
Theorem restore_by_product_skips_other_scopes (env : Env) (f : RestoreFlags) (client : Client)
    (azureSubID : string) (subs : list SubscriptionInfo) (n n' : RestoreTally) (t t' : Trace) :
  RestoreByProduct.restoreLoop env f client azureSubID subs n t = (Some n', t') ->
  exists w,
    t' = (t ++ w)%list /\
    createCalls w = (if restoreDryRun f then [] else map Name (filter hasProductID subs)) /\
    (restored n' + rfailed n' = restored n + rfailed n + List.length subs)%nat /\
    (restored n' <= restored n + List.length (filter hasProductID subs))%nat.
Proof.
  revert n t. induction subs as [|sub subs IH]; intros n t H.
  - cbn in H. injection H as <- <-. exists []. cbn. rewrite app_nil_r.
    split; [reflexivity|]. split; [now destruct (restoreDryRun f)|]. split; lia.
  - cbn [RestoreByProduct.restoreLoop] in H.
    destruct (restoreByProduct_one env f client azureSubID sub n t) as (r & w1 & E1 & C1 & T1).
    unfold bind in H. rewrite E1 in H. destruct r as [n1|]; [|discriminate H].
    destruct (IH _ _ H) as (w2 & -> & C2 & T2 & L2).
    destruct (T1 n1 eq_refl) as (T1a & T1c & T1b).
    exists (w1 ++ w2)%list. split; [now rewrite app_assoc|].
    cbn [filter] in *. split; [|split].
    + rewrite createCalls_app, C1, C2.
      destruct (restoreDryRun f); [reflexivity|].
      destruct (hasProductID sub); reflexivity.
    + cbn [List.length]. lia.
    + destruct (hasProductID sub); cbn [List.length]; [lia|].
      specialize (T1b eq_refl). lia.
Qed.

Lemma restore_by_product_skips_other_scopes_witness :
  exists w,
    [Printf "  [SKIP] %s (%s) — could not extract product ID from scope\n"
       [ArgString "Portal"; ArgString "s1"]] = ([] ++ w)%list /\
    createCalls w = [] /\
    (0 + 1 = 0 + 0 + 1)%nat /\ (0 <= 0 + 0)%nat.
Proof.
  apply (restore_by_product_skips_other_scopes
           (fakeEnv (fun _ => []) [] [] [])
           {| restoreResourceGroup := "rg2"; restoreAPIMName := "apim2";
              restoreSubscription := "sub2"; restoreInput := "backup.json";
              restoreDryRun := false |}
           {| subscriptionID := "sub2"; resourceGroup := "rg2"; apimName := "apim2" |}
           "sub2" [mkSub "s1" "Portal" "/x/service/a" "k1" "k2" ""]
           {| restored := 0; rfailed := 0 |} {| restored := 0; rfailed := 1 |} []).
  reflexivity.
Defined.

(** X20: what a restore sends: without [--dry-run], the suffix variant
    prints the [Restoring] line and then issues the create call under the
    record's own name with the rebuilt scope, the record's display name,
    its two keys, owner and state (each left out when empty) and its tracing
    flag. *)
Theorem restore_sends_the_record (env : Env) (f : RestoreFlags) (client : Client)
    (azureSubID : string) (sub : SubscriptionInfo) (n : RestoreTally) (t : Trace) :
  restoreDryRun f = false ->
  exists scopeSuffix r rest,
    extractScopeSuffix (Scope (Properties sub)) = Some scopeSuffix /\
    RestoreBySuffix.restoreOne env f client azureSubID sub n t =
      (r, (t ++ [Printf "  Restoring: %s (sid=%s, scope=%s)...\n"
                   [ArgString (DisplayName (Properties sub)); ArgString (Name sub);
                    ArgString (if String.eqb scopeSuffix "" then "(instance)" else scopeSuffix)];
                 EvCreateOrUpdate (resourceGroup client) (apimName client) (Name sub)
                   {| pScope := Some (buildScopeFromSuffix azureSubID (restoreResourceGroup f)
                                        (restoreAPIMName f) scopeSuffix);
                      pDisplayName := Some (DisplayName (Properties sub));
                      pPrimaryKey := nonEmpty (PrimaryKey (Properties sub));
                      pSecondaryKey := nonEmpty (SecondaryKey (Properties sub));
                      pOwnerID := nonEmpty (OwnerID (Properties sub));
                      pAllowTracing := Some (AllowTracing (Properties sub));
                      pState := nonEmpty (State (Properties sub)) |}]
          ++ rest)%list).
Proof.
  intros Hdry.
  destruct (restoreOne_always_creates env f client azureSubID sub n t Hdry)
    as (scopeSuffix & r & rest & Hs & E).
  exists scopeSuffix, r, rest. split; [exact Hs|]. rewrite E.
  replace (nonEmpty (OwnerID (Properties sub))) with (nonEmpty (oOwnerID (restoreOptions sub)));
    [reflexivity|].
  unfold restoreOptions, nonEmpty. cbn [oOwnerID].
  destruct (String.eqb (OwnerID (Properties sub)) "") eqn:E0; cbn [negb];
    [reflexivity | now rewrite E0].
Qed.

Lemma restore_sends_the_record_witness :
  exists scopeSuffix r rest,
    extractScopeSuffix "/x/service/a/products/p1" = Some scopeSuffix /\
    RestoreBySuffix.restoreOne (fakeEnv (fun _ => []) [] [] [])
      {| restoreResourceGroup := "rg2"; restoreAPIMName := "apim2";
         restoreSubscription := "sub2"; restoreInput := "backup.json"; restoreDryRun := false |}
      {| subscriptionID := "sub2"; resourceGroup := "rg2"; apimName := "apim2" |} "sub2"
      (mkSub "s1" "App" "/x/service/a/products/p1" "k1" "" "")
      {| restored := 0; rfailed := 0 |} [] =
      (r, ([] ++ [Printf "  Restoring: %s (sid=%s, scope=%s)...\n"
                    [ArgString "App"; ArgString "s1";
                     ArgString (if String.eqb scopeSuffix "" then "(instance)" else scopeSuffix)];
                  EvCreateOrUpdate "rg2" "apim2" "s1"
                    {| pScope := Some (buildScopeFromSuffix "sub2" "rg2" "apim2" scopeSuffix);
                       pDisplayName := Some "App";
                       pPrimaryKey := Some "k1";
                       pSecondaryKey := None;
                       pOwnerID := None;
                       pAllowTracing := Some false;
                       pState := Some "active" |}]
           ++ rest)%list).
Proof.
  apply (restore_sends_the_record (fakeEnv (fun _ => []) [] [] [])
           {| restoreResourceGroup := "rg2"; restoreAPIMName := "apim2";
              restoreSubscription := "sub2"; restoreInput := "backup.json"; restoreDryRun := false |}
           {| subscriptionID := "sub2"; resourceGroup := "rg2"; apimName := "apim2" |} "sub2"
           (mkSub "s1" "App" "/x/service/a/products/p1" "k1" "" "")
           {| restored := 0; rfailed := 0 |} []).
  reflexivity.
Defined.

Lemma forallb_weaken (P Q : Event -> bool) (w : Trace) :
  (forall e, P e = true -> Q e = true) -> forallb P w = true -> forallb Q w = true.
Proof.
  intros HPQ H. rewrite forallb_forall in *. intros e He. apply HPQ, H, He.
Qed.

Lemma forallb_lineIf (P : Event -> bool) (b : bool) (e : Event) :
  P e = true -> forallb P (lineIf b e) = true.
Proof. intros H. destruct b; cbn; [now rewrite H | reflexivity]. Qed.

(** The lines both variants of [runRestore] print before they read the
    input file. *)
Lemma restoreCommand_start (env : Env) (f : RestoreFlags)
    (loop : Client -> string -> list SubscriptionInfo -> RestoreTally -> M RestoreTally)
    (t : Trace) :
  exists banner,
    forallb isPrint banner = true /\
    restoreCommand env f loop t =
      (let t0 := (t ++ banner ++ [EvReadFile (restoreInput f)])%list in
       match osReadFile env (t ++ banner)%list (restoreInput f) with
       | (_, Some err) =>
           (Some (Some (Errorf "failed to read input file %s: %w"
                          [ArgString (restoreInput f); ArgError err])), t0)
       | (data, None) =>
           match Unmarshal env data with
           | (_, Some err) =>
               (Some (Some (Errorf "failed to parse input file: %w" [ArgError err])), t0)
           | ([], None) =>
               (Some None,
                (t0 ++ [Println "No subscriptions found in input file. Nothing to restore."])%list)
           | (sub :: subs, None) =>
               restoreCommand env f loop t
           end
       end).
Proof.
  exists ([Printf "Restoring subscription keys to APIM instance: %s\n" [ArgString (restoreAPIMName f)];
           Printf "Resource Group: %s\n" [ArgString (restoreResourceGroup f)];
           Printf "Input file: %s\n" [ArgString (restoreInput f)]]
          ++ lineIf (negb (String.eqb (restoreSubscription f) ""))
               (Printf "Subscription ID: %s\n" [ArgString (restoreSubscription f)])
          ++ lineIf (restoreDryRun f)
               (Println "\nRunning in DRY-RUN mode. No changes will be applied."))%list.
  split.
  - cbn [app forallb isPrint andb]. rewrite forallb_app, !forallb_lineIf; reflexivity.
  - remember (restoreCommand env f loop t) as run eqn:Hrun.
    unfold restoreCommand in Hrun. rewrite !bind_emit in Hrun.
    erewrite bind_run in Hrun by apply when_run.
    erewrite bind_run in Hrun by apply when_run.
    rewrite bind_call in Hrun. repeat rewrite <- app_assoc in Hrun. cbn [app] in Hrun.
    cbn zeta. repeat rewrite <- app_assoc. cbn [app].
    destruct (osReadFile env _ (restoreInput f)) as [data [err|]]; [exact Hrun|].
    destruct (Unmarshal env data) as [[|sub subs] [err|]]; try exact Hrun; [|reflexivity].
    rewrite bind_emit in Hrun. unfold ret in Hrun.
    repeat first [rewrite <- app_assoc in Hrun | progress cbn [app] in Hrun]. exact Hrun.
Qed.

(** X21: a restore whose input cannot be used stops before it contacts
    Azure, in both variants: when the file cannot be read or parsed the run
    returns the wrapped error, and when the file holds no record it returns
    no error; in all three cases it has only printed and read the file, and
    has not authenticated. *)
Theorem restore_stops_before_authentication (env : Env) (f : RestoreFlags)
    (loop : Client -> string -> list SubscriptionInfo -> RestoreTally -> M RestoreTally)
    (t : Trace) (data : string) (err : error) :
  ((forall t', osReadFile env t' (restoreInput f) = (data, Some err)) ->
   exists w,
     restoreCommand env f loop t =
       (Some (Some (Errorf "failed to read input file %s: %w"
                      [ArgString (restoreInput f); ArgError err])), (t ++ w)%list) /\
     forallb (fun e => negb (isRemoteCall e)) w = true) /\
  ((forall t', osReadFile env t' (restoreInput f) = (data, None)) ->
   (forall subs, Unmarshal env data = (subs, Some err) ->
    exists w,
      restoreCommand env f loop t =
        (Some (Some (Errorf "failed to parse input file: %w" [ArgError err])), (t ++ w)%list) /\
      forallb (fun e => negb (isRemoteCall e)) w = true) /\
   (Unmarshal env data = ([], None) ->
    exists w,
      restoreCommand env f loop t = (Some None, (t ++ w)%list) /\
      forallb (fun e => negb (isRemoteCall e)) w = true)).
Proof.
  destruct (restoreCommand_start env f loop t) as (banner & Hb & E).
  assert (Hq : forall tail,
             forallb isPrint tail = true ->
             forallb (fun e => negb (isRemoteCall e))
               (banner ++ EvReadFile (restoreInput f) :: tail) = true).
  { intros tail Ht. rewrite forallb_app. cbn [forallb isRemoteCall negb andb].
    apply andb_true_iff. split; (eapply forallb_weaken; [|eassumption]);
      intros e He; now destruct e. }
  split; [|split].
  - intros Hr. rewrite E, Hr. eexists. split; [reflexivity|]. apply (Hq []). reflexivity.
  - intros subs Hp. rewrite E, H, Hp.
    destruct subs; (eexists; split; [reflexivity|]; apply (Hq []); reflexivity).
  - intros Hp. rewrite E, H, Hp. eexists.
    split; [cbn zeta; rewrite <- !app_assoc; reflexivity|].
    apply (Hq [_]). reflexivity.
Qed.

Lemma restore_stops_before_authentication_witness :
  exists w,
    restoreCommand (fakeEnv (fun _ => []) [] [] [])
      {| restoreResourceGroup := "rg2"; restoreAPIMName := "apim2";
         restoreSubscription := "sub2"; restoreInput := "backup.json"; restoreDryRun := false |}
      (fun _ _ _ n => ret n) [] = (Some None, ([] ++ w)%list) /\
    forallb (fun e => negb (isRemoteCall e)) w = true.
Proof.
  destruct (restore_stops_before_authentication (fakeEnv (fun _ => []) [] [] [])
              {| restoreResourceGroup := "rg2"; restoreAPIMName := "apim2";
                 restoreSubscription := "sub2"; restoreInput := "backup.json";
                 restoreDryRun := false |}
              (fun _ _ _ n => ret n) [] "backup.json" (ExternalError "unused")) as (_ & H).
  destruct (H (fun _ => eq_refl)) as [_ Hempty]. exact (Hempty eq_refl).
Defined.

(** ** Backup, list and compare: what they leave alone *)

Lemma backupListAndWrite_appendsOnly (env : Env) (f : BackupFlags) (client : Client)
    (filePath : string) (mk : bool) :
  appendsOnly (fun e => negb (isRemoteWrite e)) (backupListAndWrite env f client filePath mk).
Proof. unfold backupListAndWrite. appends. apply listing_no_remote_write. Qed.

Lemma EnsureBackupDir_appendsOnly (env : Env) (rg name pid : string) :
  appendsOnly (fun e => negb (isRemoteWrite e)) (EnsureBackupDir env rg name pid).
Proof. unfold EnsureBackupDir. appends. Qed.

Lemma listLoop_appendsOnly (i : nat) (subs : list SubscriptionInfo) :
  appendsOnly isPrintAuthOrListing (listLoop i subs).
Proof.
  revert i. induction subs as [|sub subs IH]; intros i; cbn [listLoop]; appends; [|apply IH].
  unfold printSubscription. appends.
Qed.

Lemma runList_appendsOnly (env : Env) (f : ListFlags) :
  appendsOnly isPrintAuthOrListing (runList env f).
Proof.
  unfold runList. appends.
  - now apply NewClient_appendsOnly.
  - eapply appendsOnly_weaken; [|apply ListSubscriptions_appendsOnly].
    intros e He. now destruct e.
  - apply listLoop_appendsOnly.
Qed.

Lemma read_only_trace (w : Trace) :
  forallb isPrintAuthOrListing w = true ->
  createCalls w = [] /\ deleteCalls w = [] /\ forallb (fun e => negb (isFileWrite e)) w = true.
Proof.
  induction w as [|e w IH]; [repeat split|].
  cbn [forallb]. intros H. apply andb_true_iff in H as [He Hw].
  destruct (IH Hw) as (Hc & Hd & Hf). unfold createCalls, deleteCalls in *.
  destruct e; try discriminate He; cbn [flat_map app forallb isFileWrite negb andb];
    now rewrite Hc, Hd, Hf.
Qed.

(** X22: [list] is read-only: whatever the service answers, the run
    prints, authenticates and lists, and does nothing else; it issues no
    create or delete call and touches no file or directory. *)
Theorem list_is_read_only (env : Env) (f : ListFlags) (t : Trace) :
  exists w,
    snd (runList env f t) = (t ++ w)%list /\
    forallb isPrintAuthOrListing w = true /\
    createCalls w = [] /\ deleteCalls w = [] /\
    forallb (fun e => negb (isFileWrite e)) w = true.
Proof.
  destruct (runList_appendsOnly env f t) as (w & E & F).
  exists w. split; [exact E|]. split; [exact F|]. now apply read_only_trace.
Qed.

(** X23: [backup] never changes the remote service: in both variants of
    [runBackup], whatever the collaborators answer, the run issues no create
    call and no delete call. *)
Theorem backup_never_writes_remote (env : Env) (f : BackupFlags) (t : Trace) :
  (exists w,
     snd (BackupWithOutput.runBackup env f t) = (t ++ w)%list /\
     deleteCalls w = [] /\ createCalls w = []) /\
  (exists w,
     snd (BackupToDir.runBackup env f t) = (t ++ w)%list /\
     deleteCalls w = [] /\ createCalls w = []).
Proof.
  split.
  - assert (H : appendsOnly (fun e => negb (isRemoteWrite e)) (BackupWithOutput.runBackup env f)).
    { unfold BackupWithOutput.runBackup. appends.
      - unfold backupBanner. appends.
      - apply EnsureBackupDir_appendsOnly.
      - now apply NewClient_appendsOnly.
      - apply backupListAndWrite_appendsOnly. }
    destruct (H t) as (w & E & F). exists w. split; [exact E|]. now apply no_remote_write.
  - assert (H : appendsOnly (fun e => negb (isRemoteWrite e)) (BackupToDir.runBackup env f)).
    { unfold BackupToDir.runBackup. appends.
      - unfold backupBanner. appends.
      - apply EnsureBackupDir_appendsOnly.
      - now apply NewClient_appendsOnly.
      - apply backupListAndWrite_appendsOnly. }
    destruct (H t) as (w & E & F). exists w. split; [exact E|]. now apply no_remote_write.
Qed.

Lemma printAttributeDifferences_appendsOnly (subA subB : SubscriptionInfo) :
  appendsOnly isPrintOrRead (printAttributeDifferences subA subB).
Proof. unfold printAttributeDifferences, printIfDiffers. appends. Qed.

Lemma compareWithB_appendsOnly (subA : SubscriptionInfo) (subsB : list SubscriptionInfo)
    (n : CompareTally) :
  appendsOnly isPrintOrRead (compareWithB subA subsB n).
Proof.
  induction subsB as [|subB subsB IH]; cbn [compareWithB]; appends;
    first [apply printAttributeDifferences_appendsOnly | apply IH].
Qed.

Lemma compareLoop_appendsOnly (subsA subsB : list SubscriptionInfo) (n : CompareTally) :
  appendsOnly isPrintOrRead (compareLoop subsA subsB n).
Proof.
  revert n. induction subsA as [|subA subsA IH]; intros n; cbn [compareLoop]; appends;
    [|apply IH].
  unfold compareOne. appends. apply compareWithB_appendsOnly.
Qed.

Lemma runCompare_appendsOnly (env : Env) (f : CompareFlags) (args : list string) :
  appendsOnly isPrintOrRead (runCompare env f args).
Proof.
  unfold runCompare. appends.
  - unfold loadBackupFile. appends.
  - unfold loadBackupFile. appends.
  - unfold compareSnapshots. appends. apply compareLoop_appendsOnly.
Qed.

(** X24: [compare] works on the two files alone: whatever its arguments
    and whatever the files hold, the run prints and reads files and does
    nothing else; it never contacts Azure (it does not even authenticate) and
    writes no file. *)
Theorem compare_is_local (env : Env) (f : CompareFlags) (args : list string) (t : Trace) :
  exists w,
    snd (runCompare env f args t) = (t ++ w)%list /\
    forallb isPrintOrRead w = true /\
    forallb (fun e => negb (isRemoteCall e)) w = true /\
    forallb (fun e => negb (isFileWrite e)) w = true.
Proof.
  destruct (runCompare_appendsOnly env f args t) as (w & E & F).
  exists w. split; [exact E|]. split; [exact F|].
  split; (eapply forallb_weaken; [|exact F]); intros e He; now destruct e.
Qed.

(** ** Errors before the work starts *)

Lemma bind_assoc {A B C} (m : M A) (f : A -> M B) (g : B -> M C) (t : Trace) :
  bind (bind m f) g t = bind m (fun x => bind (f x) g) t.
Proof. unfold bind. destruct (m t) as [[a|] t']; reflexivity. Qed.

Lemma backupBanner_run (f : BackupFlags) :
  exists banner,
    forallb isPrint banner = true /\
    forall t, backupBanner f t = (Some tt, (t ++ banner)%list).
Proof.
  exists ([Printf "Backing up subscription keys from APIM instance: %s\n" [ArgString (backupAPIMName f)];
           Printf "Resource Group: %s\n" [ArgString (backupResourceGroup f)]]
          ++ lineIf (negb (String.eqb (backupSubscription f) ""))
               (Printf "Subscription ID: %s\n" [ArgString (backupSubscription f)])
          ++ lineIf (negb (String.eqb (backupProductID f) ""))
               (Printf "Product ID: %s\n" [ArgString (backupProductID f)]))%list.
  split.
  - cbn [app forallb isPrint andb]. rewrite forallb_app, !forallb_lineIf; reflexivity.
  - intros t. unfold backupBanner. rewrite !bind_emit.
    erewrite bind_run by apply when_run. rewrite when_run.
    repeat first [rewrite <- app_assoc | progress cbn [app]]. reflexivity.
Qed.

(** X25: no snapshot without authentication: when the authentication
    fails, both variants of [runBackup] return an error, write no file and
    make no listing call; the variant that writes under the backup
    directory has by then created that directory at most. *)
Theorem backup_needs_authentication (env : Env) (f : BackupFlags) (t : Trace)
    (id : string) (err : error) :
  (forall t' sub rg apim, azNewClient env t' sub rg apim = (id, Some err)) ->
  (exists e w,
     BackupWithOutput.runBackup env f t = (Some (Some e), (t ++ w)%list) /\
     forallb (fun e => negb (isListingCall e)) w = true /\
     forallb (fun e => match e with EvWriteFile _ _ => false | _ => true end) w = true) /\
  (exists e w,
     BackupToDir.runBackup env f t = (Some (Some e), (t ++ w)%list) /\
     forallb (fun e => negb (isListingCall e)) w = true /\
     forallb (fun e => match e with EvWriteFile _ _ => false | _ => true end) w = true).
Proof.
  intros Hauth. destruct (backupBanner_run f) as (banner & Hb & Hrun).
  assert (Hq : forall tail,
             forallb (fun e => negb (isListingCall e)
                               && match e with EvWriteFile _ _ => false | _ => true end) tail = true ->
             forallb (fun e => negb (isListingCall e)) (banner ++ tail) = true /\
             forallb (fun e => match e with EvWriteFile _ _ => false | _ => true end)
               (banner ++ tail) = true).
  { intros tail Ht. rewrite !forallb_app. split; apply andb_true_iff; split;
      try (eapply forallb_weaken; [|exact Hb]; intros e He; now destruct e);
      (eapply forallb_weaken; [|exact Ht]); intros e He;
      apply andb_true_iff in He; tauto. }
  split.
  - unfold BackupWithOutput.runBackup. erewrite bind_run by apply Hrun.
    destruct (negb (String.eqb (backupOutput f) "")).
    + rewrite bind_assoc, bind_emit, bind_ret, bind_emit. unfold NewClient.
      rewrite bind_assoc, bind_call. rewrite Hauth. cbn [bind ret].
      eexists _, (banner ++ [_; _; _])%list.
      split; [repeat first [rewrite <- app_assoc | progress cbn [app]]; reflexivity|].
      apply Hq. reflexivity.
    + unfold EnsureBackupDir. rewrite !bind_assoc, bind_call.
      destruct (osMkdirAll env _ _) as [e|].
      * eexists _, (banner ++ [_])%list.
        split; [cbn; rewrite <- app_assoc; reflexivity|]. apply Hq. reflexivity.
      * rewrite bind_ret. rewrite bind_assoc, bind_emit, bind_ret, bind_emit.
        unfold NewClient. rewrite bind_assoc, bind_call. rewrite Hauth. cbn [bind ret].
        eexists _, (banner ++ [_; _; _; _])%list.
        split; [repeat first [rewrite <- app_assoc | progress cbn [app]]; reflexivity|].
        apply Hq. reflexivity.
  - unfold BackupToDir.runBackup. erewrite bind_run by apply Hrun.
    unfold EnsureBackupDir. rewrite bind_assoc, bind_call.
    destruct (osMkdirAll env _ _) as [e|].
    + eexists _, (banner ++ [_])%list.
      split; [cbn; rewrite <- app_assoc; reflexivity|]. apply Hq. reflexivity.
    + rewrite bind_ret. rewrite !bind_emit.
      unfold NewClient. rewrite bind_assoc, bind_call. rewrite Hauth. cbn [bind ret].
      eexists _, (banner ++ [_; _; _; _])%list.
      split; [repeat first [rewrite <- app_assoc | progress cbn [app]]; reflexivity|].
      apply Hq. reflexivity.
Qed.

Lemma backup_needs_authentication_witness :
  exists e w,
    BackupToDir.runBackup (withoutLogin (fakeEnv (fun _ => []) [] [] []))
      {| backupResourceGroup := "rg1"; backupAPIMName := "apim1"; backupSubscription := "";
         backupProductID := ""; backupOutput := "" |} [] = (Some (Some e), ([] ++ w)%list) /\
    forallb (fun e => negb (isListingCall e)) w = true /\
    forallb (fun e => match e with EvWriteFile _ _ => false | _ => true end) w = true.
Proof.
  apply (backup_needs_authentication (withoutLogin (fakeEnv (fun _ => []) [] [] []))
           {| backupResourceGroup := "rg1"; backupAPIMName := "apim1"; backupSubscription := "";
              backupProductID := ""; backupOutput := "" |} []
           "" (ExternalError "az login required")).
  reflexivity.
Defined.

(** X26: the two ways [CreateSubscription] fails at its create call.  When the
    service refuses the call, the wrapped error is returned and the secrets
    are not asked for.  When the service accepts the call but its answer has
    no properties, or properties without a state, the function panics, after
    the subscription has been created or updated remotely. *)
Theorem CreateSubscription_failures (env : Env) (c : Client) (sid scope displayName : string)
    (opts : option CreateSubscriptionOptions) (t : Trace) (answer : SubscriptionContract) :
  (forall err,
     (forall params,
        sdkCreateOrUpdate env t (resourceGroup c) (apimName c) sid params = (answer, Some err)) ->
     exists w,
       CreateSubscription env c sid scope displayName opts t =
         (Some (None, Some (Errorf "failed to create subscription %s: %w"
                              [ArgString sid; ArgError err])), (t ++ w)%list) /\
       createCalls w = [sid] /\ secretCalls w = []) /\
  ((forall params,
      sdkCreateOrUpdate env t (resourceGroup c) (apimName c) sid params = (answer, None)) ->
   (forall props, wProperties answer = Some props -> wState props = None) ->
   exists w,
     CreateSubscription env c sid scope displayName opts t = (None, (t ++ w)%list) /\
     createCalls w = [sid] /\ secretCalls w = []).
Proof.
  split.
  - intros err H. unfold CreateSubscription. rewrite bind_call, H.
    eexists [_]. split; [reflexivity | split; reflexivity].
  - intros H Hstate. unfold CreateSubscription. rewrite bind_call, H.
    destruct (wProperties answer) as [props|] eqn:E; cbn [orPanic].
    + rewrite bind_ret, (Hstate props eq_refl). cbn [orPanic].
      eexists [_]. split; [reflexivity | split; reflexivity].
    + eexists [_]. split; [reflexivity | split; reflexivity].
Qed.

Lemma CreateSubscription_failures_witness :
  (exists w,
     CreateSubscription (fakeEnv (fun _ => []) [] [] ["s1"])
       {| subscriptionID := "sub2"; resourceGroup := "rg2"; apimName := "apim2" |}
       "s1" "/scope" "S 1" None [] =
       (Some (None, Some (Errorf "failed to create subscription %s: %w"
                            [ArgString "s1"; ArgError (ExternalError "create refused")])),
        ([] ++ w)%list) /\
     createCalls w = ["s1"] /\ secretCalls w = []) /\
  (exists w,
     CreateSubscription (withBareAnswers (fakeEnv (fun _ => []) [] [] []))
       {| subscriptionID := "sub2"; resourceGroup := "rg2"; apimName := "apim2" |}
       "s1" "/scope" "S 1" None [] = (None, ([] ++ w)%list) /\
     createCalls w = ["s1"] /\ secretCalls w = []).
Proof.
  split.
  - apply (CreateSubscription_failures (fakeEnv (fun _ => []) [] [] ["s1"])
             {| subscriptionID := "sub2"; resourceGroup := "rg2"; apimName := "apim2" |}
             "s1" "/scope" "S 1" None [] (mkContract "s1")).
    reflexivity.
  - apply (CreateSubscription_failures (withBareAnswers (fakeEnv (fun _ => []) [] [] []))
             {| subscriptionID := "sub2"; resourceGroup := "rg2"; apimName := "apim2" |}
             "s1" "/scope" "S 1" None []
             {| wID := Some "s1"; wName := Some "s1"; wType := None; wProperties := None |}).
    + reflexivity.
    + discriminate.
Defined.

(** X27: [runCompare] fails before it reads anything when it is given one
    positional argument, or no two positional arguments and an empty [-a] or
    [-b] flag; two positional arguments win over the flags; and when file A
    cannot be read, the run fails with the wrapped error and file B is never
    read. *)
Theorem compare_fails_early (env : Env) (f : CompareFlags) (t : Trace) :
  (forall arg,
     runCompare env f [arg] t = (Some (Some (Errorf "expected 2 files, got 1" [])), t)) /\
  (forall args,
     List.length args <> 1%nat -> List.length args <> 2%nat ->
     compareFileA f = "" \/ compareFileB f = "" ->
     runCompare env f args t =
       (Some (Some (Errorf "must provide either two positional arguments or both -a and -b flags"
                      [])), t)) /\
  (forall fileA fileB data err,
     (forall t', osReadFile env t' fileA = (data, Some err)) ->
     exists w,
       runCompare env f [fileA; fileB] t =
         (Some (Some (Errorf "failed to load file A: %w" [ArgError err])), (t ++ w)%list) /\
       readCalls w = [fileA]).
Proof.
  split; [|split].
  - reflexivity.
  - intros args H1 H2 Hflag. unfold runCompare.
    assert (E : compareFiles f args =
                inr (Errorf "must provide either two positional arguments or both -a and -b flags"
                       [])).
    { unfold compareFiles.
      assert (Hb : String.eqb (compareFileA f) "" || String.eqb (compareFileB f) "" = true).
      { destruct Hflag as [-> | ->]; [reflexivity | apply orb_true_r]. }
      destruct args as [|a [|b [|c rest]]]; cbn in H1, H2; try congruence;
        rewrite Hb; reflexivity. }
    rewrite E. reflexivity.
  - intros fileA fileB data err Hread. unfold runCompare. cbn [compareFiles].
    rewrite !bind_emit.
    unfold loadBackupFile at 1. unfold bind at 1. rewrite bind_call, Hread. cbn [ret].
    eexists. split.
    + rewrite <- !app_assoc. reflexivity.
    + reflexivity.
Qed.

Lemma compare_fails_early_witness :
  exists w,
    runCompare (withoutFiles (fakeEnv (fun _ => []) [] [] []))
      {| compareFileA := ""; compareFileB := "" |} ["a.json"; "b.json"] [] =
      (Some (Some (Errorf "failed to load file A: %w" [ArgError (ExternalError "no such file")])),
       ([] ++ w)%list) /\
    readCalls w = ["a.json"].
Proof.
  destruct (compare_fails_early (withoutFiles (fakeEnv (fun _ => []) [] [] []))
              {| compareFileA := ""; compareFileB := "" |} []) as [_ [_ H]].
  apply (H "a.json" "b.json" "" (ExternalError "no such file")).
  reflexivity.
Defined.

Lemma append_empty_r (s : string) : s ++ "" = s.
Proof. induction s as [|c s IH]; [reflexivity|]. cbn [append]. now rewrite IH. Qed.

Lemma get_last_split (s : string) (c : ascii) :
  String.get (String.length s - 1) s = Some c ->
  s = substring 0 (String.length s - 1) s ++ String c "".
Proof.
  induction s as [|a s IH]; [discriminate|].
  destruct s as [|b s'].
  - cbn. intros H. injection H as <-. reflexivity.
  - intros H.
    replace (String.length (String a (String b s')) - 1)%nat
      with (S (String.length s'))%nat in * by (cbn [String.length]; lia).
    replace (String.length (String b s') - 1)%nat
      with (String.length s')%nat in IH by (cbn [String.length]; lia).
    cbn [String.get] in H. cbn [substring append].
    f_equal. apply IH. exact H.
Qed.

Lemma allTrailingSpace_app (a b : string) :
  allTrailingSpace (a ++ b) = allTrailingSpace a && allTrailingSpace b.
Proof.
  induction a as [|c a IH]; [reflexivity|].
  cbn [append allTrailingSpace]. rewrite IH. apply andb_assoc.
Qed.

Lemma get_last_some (s : string) :
  s <> "" -> exists c, String.get (String.length s - 1) s = Some c.
Proof.
  induction s as [|a s IH]; [congruence|]. intros _.
  destruct s as [|b s'].
  - exists a. reflexivity.
  - destruct IH as [c Hc]; [discriminate|]. exists c.
    replace (String.length (String a (String b s')) - 1)%nat
      with (S (String.length (String b s') - 1))%nat by (cbn [String.length]; lia).
    exact Hc.
Qed.

(** The loop runs to its end within [String.length id] rounds: what it
    removed is a run of trimmed bytes, and what it leaves does not end in
    one. *)
Lemma trimLoop_spec (rounds : nat) (id : string) :
  (String.length id <= rounds)%nat ->
  exists ws,
    id = trimLoop rounds id ++ ws /\
    allTrailingSpace ws = true /\
    endsInSpace (trimLoop rounds id) = false.
Proof.
  revert id. induction rounds as [|n IH]; intros id Hlen.
  - destruct id; [|cbn in Hlen; lia]. exists "". split; [reflexivity | split; reflexivity].
  - cbn [trimLoop].
    destruct (0 <? String.length id)%nat eqn:Epos.
    + apply Nat.ltb_lt in Epos.
      destruct (get_last_some id) as [c Hc]; [destruct id; [cbn in Epos; lia | discriminate]|].
      rewrite Hc. destruct (isTrailingSpace c) eqn:Ec.
      * destruct (IH (substring 0 (String.length id - 1) id)) as [ws [H1 [H2 H3]]].
        { rewrite length_substring; lia. }
        exists (ws ++ String c ""). split; [|split].
        -- rewrite <- append_assoc, <- H1. apply get_last_split. exact Hc.
        -- rewrite allTrailingSpace_app, H2. cbn. rewrite Ec. reflexivity.
        -- exact H3.
      * exists "". split; [|split].
        -- symmetry. apply append_empty_r.
        -- reflexivity.
        -- unfold endsInSpace. rewrite Hc. exact Ec.
    + apply Nat.ltb_ge in Epos. destruct id; [|cbn in Epos; lia].
      exists "". split; [reflexivity | split; reflexivity].
Qed.

(** X28: [resolveSubscriptionID] returns either a non-empty id and no error,
    or the empty id and an error.  On the primary path the id is the
    command's output without its trailing newlines, carriage returns and
    spaces: the output is the id followed by such bytes only, and the id
    does not end in one. *)
Theorem resolveSubscriptionID_result (runAz : list string -> string * option error)
    (unmarshalID : string -> string * option error) :
  match resolveSubscriptionID runAz unmarshalID with
  | (id, None) =>
      id <> "" /\
      (forall out, runAz ["account"; "show"; "--query"; "id"; "-o"; "tsv"] = (out, None) ->
         exists ws, out = id ++ ws /\ allTrailingSpace ws = true /\ endsInSpace id = false)
  | (id, Some _) => id = ""
  end.
Proof.
  unfold resolveSubscriptionID.
  destruct (runAz ["account"; "show"; "--query"; "id"; "-o"; "tsv"]) as [out [err|]].
  - destruct (runAz ["account"; "show"; "-o"; "json"]) as [out2 [err2|]]; [reflexivity|].
    destruct (unmarshalID out2) as [id [err3|]]; [reflexivity|].
    destruct (String.eqb id "") eqn:E; [reflexivity|].
    apply String.eqb_neq in E. split; [exact E | intros ? H; discriminate H].
  - cbv zeta.
    destruct (String.eqb (trimLoop (String.length out) out) "") eqn:E; [reflexivity|].
    apply String.eqb_neq in E. split; [exact E|].
    intros out' H. injection H as <-.
    apply trimLoop_spec. apply Nat.le_refl.
Qed.

Lemma resolveSubscriptionID_result_witness :
  exists ws,
    "sub-1" ++ String "010" " " = "sub-1" ++ ws /\
    allTrailingSpace ws = true /\ endsInSpace "sub-1" = false.
Proof.
  destruct (resolveSubscriptionID_result
              (fun _ => ("sub-1" ++ String "010" " ", None)) (fun _ => ("", None))) as [_ H].
  exact (H _ eq_refl).
Defined.
